(** * vtfview: the VTF viewer of vtex2 (src/gui/viewer.cpp)

    A shallow embedding of the viewer's document controller
    ([ViewerMainWindow]), its four presentation widgets ([InfoWidget],
    [ResourceWidget], [ImageViewWidget], [ImageSettingsWidget]) and the
    signal wiring between them, followed by the properties of the
    presentation and mutation model.

    The C++ objects live in one application state [App]; member functions
    are state transformers in a state-and-fault monad, where [Fault] stands
    for the undefined behaviour of dereferencing a null or dangling pointer.
    Qt signals are modelled by calling the connected slots in connection
    order and recording the emission in a log. *)

From Stdlib Require Import ZArith QArith Lia Bool Ascii String.
From stdpp Require Import base option gmap strings list.

Local Open Scope Z_scope.

(** ** Results and the state monad *)

(** The outcome of running a piece of the program: a value, or undefined
    behaviour (null / dangling dereference). *)
Inductive Result (A : Type) : Type :=
  | Ok (a : A)
  | Fault.
Arguments Ok {A} a.
Arguments Fault {A}.

Definition is_Ok {A} (r : Result A) : bool :=
  match r with Ok _ => true | Fault => false end.

(** ** The codec's data (VTFLib), as far as the viewer looks at it *)

(** VTFLib's image formats.  The viewer names only the two decode targets;
    every other source format is carried by its numeric code. *)
Inductive VTFImageFormat : Type :=
  | IMAGE_FORMAT_RGBA8888
  | IMAGE_FORMAT_RGB888
  | IMAGE_FORMAT_other (code : Z).

(** The flag constants named by the table [TEXTURE_FLAGS]. *)
Inductive VTFImageFlag : Type :=
  | TEXTUREFLAGS_POINTSAMPLE
  | TEXTUREFLAGS_TRILINEAR
  | TEXTUREFLAGS_CLAMPS
  | TEXTUREFLAGS_CLAMPT
  | TEXTUREFLAGS_CLAMPU
  | TEXTUREFLAGS_ANISOTROPIC
  | TEXTUREFLAGS_HINT_DXT5
  | TEXTUREFLAGS_SRGB
  | TEXTUREFLAGS_DEPRECATED_NOCOMPRESS
  | TEXTUREFLAGS_NORMAL
  | TEXTUREFLAGS_NOMIP
  | TEXTUREFLAGS_NOLOD
  | TEXTUREFLAGS_MINMIP
  | TEXTUREFLAGS_PROCEDURAL
  | TEXTUREFLAGS_ONEBITALPHA
  | TEXTUREFLAGS_EIGHTBITALPHA
  | TEXTUREFLAGS_ENVMAP
  | TEXTUREFLAGS_RENDERTARGET
  | TEXTUREFLAGS_DEPTHRENDERTARGET
  | TEXTUREFLAGS_NODEBUGOVERRIDE
  | TEXTUREFLAGS_SINGLECOPY
  | TEXTUREFLAGS_DEPRECATED_ONEOVERMIPLEVELINALPHA
  | TEXTUREFLAGS_DEPRECATED_PREMULTCOLORBYONEOVERMIPLEVEL
  | TEXTUREFLAGS_DEPRECATED_NORMALTODUDV
  | TEXTUREFLAGS_DEPRECATED_ALPHATESTMIPGENERATION
  | TEXTUREFLAGS_NODEPTHBUFFER
  | TEXTUREFLAGS_DEPRECATED_NICEFILTERED
  | TEXTUREFLAGS_VERTEXTEXTURE
  | TEXTUREFLAGS_SSBUMP
  | TEXTUREFLAGS_DEPRECATED_UNFILTERABLE_OK
  | TEXTUREFLAGS_BORDER
  | TEXTUREFLAGS_DEPRECATED_SPECVAR_RED
  | TEXTUREFLAGS_DEPRECATED_SPECVAR_ALPHA.

(** What a [CVTFFile] holds, as seen through its accessors.  Numbers are
    the unsigned values the accessors return. *)
Record CVTFFile : Type := {
  GetWidth : Z;
  GetHeight : Z;
  GetDepth : Z;
  GetFrameCount : Z;
  GetFaceCount : Z;
  GetMipmapCount : Z;
  GetFormat : VTFImageFormat;
  GetMajorVersion : Z;
  GetMinorVersion : Z;
  GetSize : Z;
  GetReflectivity : Q * Q * Q;
  GetStartFrame : Z;
  GetFlags : Z;
  (** the resource table: (type, data size) per resource *)
  resources : list (Z * Z)
}.

(** Modelled from the spec: the codec mutator [setStartFrame(n)] of
    VTFLib (not part of this repository's sources); section 4.5 says a
    start-frame mutation "writes through to the VTF". *)
Definition SetStartFrame (n : Z) (f : CVTFFile) : CVTFFile :=
  {| GetWidth := GetWidth f; GetHeight := GetHeight f; GetDepth := GetDepth f;
     GetFrameCount := GetFrameCount f; GetFaceCount := GetFaceCount f;
     GetMipmapCount := GetMipmapCount f; GetFormat := GetFormat f;
     GetMajorVersion := GetMajorVersion f; GetMinorVersion := GetMinorVersion f;
     GetSize := GetSize f; GetReflectivity := GetReflectivity f;
     GetStartFrame := n; GetFlags := GetFlags f; resources := resources f |}.

(** Modelled from the spec: the codec mutator [setFlag(bit, on)] of VTFLib;
    section 4.5 says a toggle "writes the corresponding bit to the VTF's
    flag bitset".  [state] is the C++ argument converted to a boolean. *)
Definition SetFlag (flag : Z) (state : bool) (f : CVTFFile) : CVTFFile :=
  {| GetWidth := GetWidth f; GetHeight := GetHeight f; GetDepth := GetDepth f;
     GetFrameCount := GetFrameCount f; GetFaceCount := GetFaceCount f;
     GetMipmapCount := GetMipmapCount f; GetFormat := GetFormat f;
     GetMajorVersion := GetMajorVersion f; GetMinorVersion := GetMinorVersion f;
     GetSize := GetSize f; GetReflectivity := GetReflectivity f;
     GetStartFrame := GetStartFrame f;
     GetFlags := if state then Z.lor (GetFlags f) flag
                 else Z.land (GetFlags f) (Z.lnot flag);
     resources := resources f |}.

Definition GetResourceCount (f : CVTFFile) : Z := Z.of_nat (length (resources f)).

(** [GetResourceType(i)]: the type of the i-th resource (0 out of range). *)
Definition GetResourceType (f : CVTFFile) (i : nat) : Z :=
  match resources f !! i with Some (ty, _) => ty | None => 0 end.

(** [GetResourceData(type, size)]: looks the resource up by type and
    reports its size (0 when there is none). *)
Definition GetResourceData (f : CVTFFile) (ty : Z) : Z :=
  match List.find (fun r => Z.eqb (fst r) ty) (resources f) with
  | Some (_, sz) => sz
  | None => 0
  end.

(** Conversion of a 32-bit unsigned value to [int], as done implicitly
    where the viewer hands a [vlUInt] to Qt. *)
Definition to_int (z : Z) : Z := (z + 2 ^ 31) mod 2 ^ 32 - 2 ^ 31.

(** Buttons of the unsaved-changes dialog. *)
Inductive StandardButton : Type := QMessageBox_Save | QMessageBox_Cancel | QMessageBox_Close.

(** ** The environment

    Everything the viewer consumes as a black box: the file system, the
    codec's parser, writer and pixel primitives, the numeric values of the
    flag constants, and the user's answers to the two modal dialogs. *)
Class Env : Type := {
  (** [util::read_file]: the file's bytes, [None] if it cannot be read *)
  file_contents : string -> option (list Z);
  (** [CVTFFile::Load(data, size)]: the parsed file, [None] if rejected *)
  CVTFFile_Load : list Z -> option CVTFFile;
  (** [CVTFFile::Save(path)] *)
  CVTFFile_Save : CVTFFile -> string -> bool;
  vlGetLastError : string;
  (** [GetImageFormatInfo(fmt).uiAlphaBitsPerPixel] *)
  uiAlphaBitsPerPixel : VTFImageFormat -> Z;
  ComputeMipmapDimensions : Z -> Z -> Z -> Z -> Z * Z * Z;
  ComputeMipmapSize : Z -> Z -> Z -> Z -> VTFImageFormat -> Z;
  (** [GetData(frame, face, slice, mip)]: an address in the file's data *)
  GetData : CVTFFile -> Z -> Z -> Z -> Z -> Z;
  (** [CVTFFile::Convert(src, dst, w, h, srcFormat, dstFormat)] *)
  Convert : Z -> Z -> Z -> VTFImageFormat -> VTFImageFormat -> bool;
  (** numeric value of each flag constant *)
  flag_value : VTFImageFlag -> Z;
  ImageFormatToString : VTFImageFormat -> string;
  GetResourceName : Z -> string;
  (** answer of [QFileDialog::getSaveFileName]; empty when cancelled *)
  getSaveFileName : string;
  (** answer of the unsaved-changes [QMessageBox] *)
  msgBox_exec : StandardButton
}.

(** ** The toolkit's widgets (Qt), as far as the viewer drives them *)

Module Qt.

(** A [QSpinBox]: an integer value kept inside [minimum, maximum]. *)
Record QSpinBox : Type := { value : Z; minimum : Z; maximum : Z }.

(** A freshly constructed spin box: range [0, 99], value 0. *)
Definition QSpinBox_new : QSpinBox := {| value := 0; minimum := 0; maximum := 99 |}.

(** [QAbstractSpinBoxPrivate::bound]: clip below, then above. *)
Definition bound (b : QSpinBox) (v : Z) : Z :=
  let v1 := if v <? minimum b then minimum b else v in
  if v1 >? maximum b then maximum b else v1.

(** [setValue(v)]: stores the bounded value; the flag tells whether the
    value changed, in which case [textChanged] is emitted. *)
Definition setValue (v : Z) (b : QSpinBox) : QSpinBox * bool :=
  let v' := bound b v in
  ({| value := v'; minimum := minimum b; maximum := maximum b |},
   negb (v' =? value b)).

(** [setRange(lo, hi)]: an empty range collapses onto [lo]; the value is
    re-bounded and [textChanged] is emitted when that changes it. *)
Definition setRange (lo hi : Z) (b : QSpinBox) : QSpinBox * bool :=
  let hi' := if lo <? hi then hi else lo in
  let b' := {| value := value b; minimum := lo; maximum := hi' |} in
  if bound b' (value b) =? value b then (b', false)
  else setValue (bound b' (value b)) b'.

(** [QString::endsWith("*")] *)
Fixpoint endsWith_star (s : string) : bool :=
  match s with
  | EmptyString => false
  | String c EmptyString => Ascii.eqb c "*"%char
  | String _ rest => endsWith_star rest
  end.

(** [title.remove(title.length()-1, 1)]: drops the last character; an
    empty string stays empty. *)
Fixpoint remove_last (s : string) : string :=
  match s with
  | EmptyString => EmptyString
  | String _ EmptyString => EmptyString
  | String c rest => String c (remove_last rest)
  end.

(** A [QImage] built over caller-owned memory: it refers to the buffer,
    it does not own it. *)
Record QImage : Type := {
  bits : nat;
  width : Z;
  height : Z;
  format : VTFImageFormat
}.

End Qt.

(** ** Object state of the viewer's classes *)

(** Address of a heap-allocated [CVTFFile]; the null pointer is [None]. *)
Abbreviation pointer := (option nat).

(** Text shown in a read-only field or table cell.  Numbers formatted by
    the toolkit or by fmt are kept as the value and its format. *)
Inductive Text : Type :=
  | QString (s : string)
  | QString_number (n : Z)
  (** [number(major) + "." + number(minor)] *)
  | version_text (major minor : Z)
  (** ["{:.2f} MiB ({:.2f} KiB)"] of a byte count *)
  | size_text (bytes : Z)
  (** ["{:.3f} {:.3f} {:.3f}"] *)
  | reflectivity_text (xyz : Q * Q * Q)
  (** ["0x{:X}"] *)
  | hex_text (n : Z)
  (** ["{:d} bytes ({:.2f} KiB)"] *)
  | bytes_text (bytes : Z).

Module ViewerMainWindow.
Record t : Type := {
  file_ : pointer;
  path_ : string;
  dirty_ : bool;
  windowTitle : string
}.
Definition set_file_ (x : pointer) (w : t) : t :=
  {| file_ := x; path_ := path_ w; dirty_ := dirty_ w; windowTitle := windowTitle w |}.
Definition set_path_ (x : string) (w : t) : t :=
  {| file_ := file_ w; path_ := x; dirty_ := dirty_ w; windowTitle := windowTitle w |}.
Definition set_dirty_ (x : bool) (w : t) : t :=
  {| file_ := file_ w; path_ := path_ w; dirty_ := x; windowTitle := windowTitle w |}.
Definition set_windowTitle (x : string) (w : t) : t :=
  {| file_ := file_ w; path_ := path_ w; dirty_ := dirty_ w; windowTitle := x |}.
End ViewerMainWindow.

Module InfoWidget.
Record t : Type := {
  (** field name to the text of its line edit *)
  fields_ : gmap string Text
}.
End InfoWidget.

Module ResourceWidget.
Record t : Type := {
  (** the rows of [table_]: name, type, size *)
  table_ : list (Text * Text * Text)
}.
End ResourceWidget.

Module ImageViewWidget.
Record t : Type := {
  file_ : pointer;
  image_ : option Qt.QImage;
  imgBuf_ : option nat;
  zoom_ : Q;
  pos_ : Z * Z;
  frame_ : Z;
  face_ : Z;
  mip_ : Z;
  currentFrame_ : Z;
  currentFace_ : Z;
  currentMip_ : Z;
  (** the widget's own size, [size()] *)
  size : Z * Z
}.
Definition set_file_ (x : pointer) (w : t) : t :=
  {| file_ := x; image_ := image_ w; imgBuf_ := imgBuf_ w; zoom_ := zoom_ w;
     pos_ := pos_ w; frame_ := frame_ w; face_ := face_ w; mip_ := mip_ w;
     currentFrame_ := currentFrame_ w; currentFace_ := currentFace_ w;
     currentMip_ := currentMip_ w; size := size w |}.
Definition set_image_ (x : option Qt.QImage) (w : t) : t :=
  {| file_ := file_ w; image_ := x; imgBuf_ := imgBuf_ w; zoom_ := zoom_ w;
     pos_ := pos_ w; frame_ := frame_ w; face_ := face_ w; mip_ := mip_ w;
     currentFrame_ := currentFrame_ w; currentFace_ := currentFace_ w;
     currentMip_ := currentMip_ w; size := size w |}.
Definition set_imgBuf_ (x : option nat) (w : t) : t :=
  {| file_ := file_ w; image_ := image_ w; imgBuf_ := x; zoom_ := zoom_ w;
     pos_ := pos_ w; frame_ := frame_ w; face_ := face_ w; mip_ := mip_ w;
     currentFrame_ := currentFrame_ w; currentFace_ := currentFace_ w;
     currentMip_ := currentMip_ w; size := size w |}.
Definition set_zoom_ (x : Q) (w : t) : t :=
  {| file_ := file_ w; image_ := image_ w; imgBuf_ := imgBuf_ w; zoom_ := x;
     pos_ := pos_ w; frame_ := frame_ w; face_ := face_ w; mip_ := mip_ w;
     currentFrame_ := currentFrame_ w; currentFace_ := currentFace_ w;
     currentMip_ := currentMip_ w; size := size w |}.
Definition set_pos_ (x : Z * Z) (w : t) : t :=
  {| file_ := file_ w; image_ := image_ w; imgBuf_ := imgBuf_ w; zoom_ := zoom_ w;
     pos_ := x; frame_ := frame_ w; face_ := face_ w; mip_ := mip_ w;
     currentFrame_ := currentFrame_ w; currentFace_ := currentFace_ w;
     currentMip_ := currentMip_ w; size := size w |}.
Definition set_frame_ (x : Z) (w : t) : t :=
  {| file_ := file_ w; image_ := image_ w; imgBuf_ := imgBuf_ w; zoom_ := zoom_ w;
     pos_ := pos_ w; frame_ := x; face_ := face_ w; mip_ := mip_ w;
     currentFrame_ := currentFrame_ w; currentFace_ := currentFace_ w;
     currentMip_ := currentMip_ w; size := size w |}.
Definition set_face_ (x : Z) (w : t) : t :=
  {| file_ := file_ w; image_ := image_ w; imgBuf_ := imgBuf_ w; zoom_ := zoom_ w;
     pos_ := pos_ w; frame_ := frame_ w; face_ := x; mip_ := mip_ w;
     currentFrame_ := currentFrame_ w; currentFace_ := currentFace_ w;
     currentMip_ := currentMip_ w; size := size w |}.
Definition set_mip_ (x : Z) (w : t) : t :=
  {| file_ := file_ w; image_ := image_ w; imgBuf_ := imgBuf_ w; zoom_ := zoom_ w;
     pos_ := pos_ w; frame_ := frame_ w; face_ := face_ w; mip_ := x;
     currentFrame_ := currentFrame_ w; currentFace_ := currentFace_ w;
     currentMip_ := currentMip_ w; size := size w |}.
Definition set_currentFrame_ (x : Z) (w : t) : t :=
  {| file_ := file_ w; image_ := image_ w; imgBuf_ := imgBuf_ w; zoom_ := zoom_ w;
     pos_ := pos_ w; frame_ := frame_ w; face_ := face_ w; mip_ := mip_ w;
     currentFrame_ := x; currentFace_ := currentFace_ w; currentMip_ := currentMip_ w;
     size := size w |}.
Definition set_currentFace_ (x : Z) (w : t) : t :=
  {| file_ := file_ w; image_ := image_ w; imgBuf_ := imgBuf_ w; zoom_ := zoom_ w;
     pos_ := pos_ w; frame_ := frame_ w; face_ := face_ w; mip_ := mip_ w;
     currentFrame_ := currentFrame_ w; currentFace_ := x; currentMip_ := currentMip_ w;
     size := size w |}.
Definition set_currentMip_ (x : Z) (w : t) : t :=
  {| file_ := file_ w; image_ := image_ w; imgBuf_ := imgBuf_ w; zoom_ := zoom_ w;
     pos_ := pos_ w; frame_ := frame_ w; face_ := face_ w; mip_ := mip_ w;
     currentFrame_ := currentFrame_ w; currentFace_ := currentFace_ w; currentMip_ := x;
     size := size w |}.
Definition set_size (x : Z * Z) (w : t) : t :=
  {| file_ := file_ w; image_ := image_ w; imgBuf_ := imgBuf_ w; zoom_ := zoom_ w;
     pos_ := pos_ w; frame_ := frame_ w; face_ := face_ w; mip_ := mip_ w;
     currentFrame_ := currentFrame_ w; currentFace_ := currentFace_ w;
     currentMip_ := currentMip_ w; size := x |}.
End ImageViewWidget.

Module ImageSettingsWidget.
(** A flag check box together with the flag its [stateChanged] handler
    captured. *)
Record FlagCheck : Type := { flag : Z; isChecked : bool }.

Record t : Type := {
  file_ : pointer;
  settingFile_ : bool;
  frame_ : Qt.QSpinBox;
  mip_ : Qt.QSpinBox;
  face_ : Qt.QSpinBox;
  startFrame_ : Qt.QSpinBox;
  (** the check boxes created by [setup_ui], in creation order *)
  checks : list FlagCheck;
  (** flag value to its check box (an index into [checks]) *)
  flagChecks_ : gmap Z nat
}.
Definition set_file_ (x : pointer) (w : t) : t :=
  {| file_ := x; settingFile_ := settingFile_ w; frame_ := frame_ w; mip_ := mip_ w;
     face_ := face_ w; startFrame_ := startFrame_ w; checks := checks w;
     flagChecks_ := flagChecks_ w |}.
Definition set_settingFile_ (x : bool) (w : t) : t :=
  {| file_ := file_ w; settingFile_ := x; frame_ := frame_ w; mip_ := mip_ w;
     face_ := face_ w; startFrame_ := startFrame_ w; checks := checks w;
     flagChecks_ := flagChecks_ w |}.
Definition set_frame_ (x : Qt.QSpinBox) (w : t) : t :=
  {| file_ := file_ w; settingFile_ := settingFile_ w; frame_ := x; mip_ := mip_ w;
     face_ := face_ w; startFrame_ := startFrame_ w; checks := checks w;
     flagChecks_ := flagChecks_ w |}.
Definition set_mip_ (x : Qt.QSpinBox) (w : t) : t :=
  {| file_ := file_ w; settingFile_ := settingFile_ w; frame_ := frame_ w; mip_ := x;
     face_ := face_ w; startFrame_ := startFrame_ w; checks := checks w;
     flagChecks_ := flagChecks_ w |}.
Definition set_face_ (x : Qt.QSpinBox) (w : t) : t :=
  {| file_ := file_ w; settingFile_ := settingFile_ w; frame_ := frame_ w;
     mip_ := mip_ w; face_ := x; startFrame_ := startFrame_ w; checks := checks w;
     flagChecks_ := flagChecks_ w |}.
Definition set_startFrame_ (x : Qt.QSpinBox) (w : t) : t :=
  {| file_ := file_ w; settingFile_ := settingFile_ w; frame_ := frame_ w;
     mip_ := mip_ w; face_ := face_ w; startFrame_ := x; checks := checks w;
     flagChecks_ := flagChecks_ w |}.
Definition set_checks (x : list FlagCheck) (w : t) : t :=
  {| file_ := file_ w; settingFile_ := settingFile_ w; frame_ := frame_ w;
     mip_ := mip_ w; face_ := face_ w; startFrame_ := startFrame_ w; checks := x;
     flagChecks_ := flagChecks_ w |}.
Definition set_flagChecks_ (x : gmap Z nat) (w : t) : t :=
  {| file_ := file_ w; settingFile_ := settingFile_ w; frame_ := frame_ w;
     mip_ := mip_ w; face_ := face_ w; startFrame_ := startFrame_ w; checks := checks w;
     flagChecks_ := x |}.
End ImageSettingsWidget.

(** What the program does to the outside, and the signals it emits. *)
Inductive Event : Type :=
  | vtfFileChanged (file : pointer)
  | fileModified
  | cerr (msg : string)
  | QMessageBox_warning (title text : string)
  | Convert_called (frame face mip : Z) (src dst : VTFImageFormat)
  | drawImage (at_ : Z * Z) (img : option Qt.QImage).

(** The whole application: the C++ heap (live [CVTFFile] objects and live
    pixel buffers, each with the next unused address), the five objects
    built by [ViewerMainWindow::setup_ui], and the log of events, newest
    first. *)
Record App : Type := {
  heap : gmap nat CVTFFile;
  next_file : nat;
  buffers : gset nat;
  next_buffer : nat;
  window : ViewerMainWindow.t;
  infoWidget : InfoWidget.t;
  resList : ResourceWidget.t;
  imageView : ImageViewWidget.t;
  viewSettings : ImageSettingsWidget.t;
  log : list Event
}.

Definition with_heap (f : gmap nat CVTFFile -> gmap nat CVTFFile) (a : App) : App :=
  {| heap := f (heap a); next_file := next_file a; buffers := buffers a;
     next_buffer := next_buffer a; window := window a; infoWidget := infoWidget a;
     resList := resList a; imageView := imageView a;
     viewSettings := viewSettings a; log := log a |}.

Definition with_next_file (n : nat) (a : App) : App :=
  {| heap := heap a; next_file := n; buffers := buffers a;
     next_buffer := next_buffer a; window := window a; infoWidget := infoWidget a;
     resList := resList a; imageView := imageView a;
     viewSettings := viewSettings a; log := log a |}.

Definition with_buffers (f : gset nat -> gset nat) (a : App) : App :=
  {| heap := heap a; next_file := next_file a; buffers := f (buffers a);
     next_buffer := next_buffer a; window := window a; infoWidget := infoWidget a;
     resList := resList a; imageView := imageView a;
     viewSettings := viewSettings a; log := log a |}.

Definition with_next_buffer (n : nat) (a : App) : App :=
  {| heap := heap a; next_file := next_file a; buffers := buffers a;
     next_buffer := n; window := window a; infoWidget := infoWidget a;
     resList := resList a; imageView := imageView a;
     viewSettings := viewSettings a; log := log a |}.

Definition with_window (f : ViewerMainWindow.t -> ViewerMainWindow.t) (a : App) : App :=
  {| heap := heap a; next_file := next_file a; buffers := buffers a;
     next_buffer := next_buffer a; window := f (window a); infoWidget := infoWidget a;
     resList := resList a; imageView := imageView a;
     viewSettings := viewSettings a; log := log a |}.

Definition with_infoWidget (f : InfoWidget.t -> InfoWidget.t) (a : App) : App :=
  {| heap := heap a; next_file := next_file a; buffers := buffers a;
     next_buffer := next_buffer a; window := window a; infoWidget := f (infoWidget a);
     resList := resList a; imageView := imageView a;
     viewSettings := viewSettings a; log := log a |}.

Definition with_resList (f : ResourceWidget.t -> ResourceWidget.t) (a : App) : App :=
  {| heap := heap a; next_file := next_file a; buffers := buffers a;
     next_buffer := next_buffer a; window := window a; infoWidget := infoWidget a;
     resList := f (resList a); imageView := imageView a;
     viewSettings := viewSettings a; log := log a |}.

Definition with_imageView (f : ImageViewWidget.t -> ImageViewWidget.t) (a : App) : App :=
  {| heap := heap a; next_file := next_file a; buffers := buffers a;
     next_buffer := next_buffer a; window := window a; infoWidget := infoWidget a;
     resList := resList a; imageView := f (imageView a);
     viewSettings := viewSettings a; log := log a |}.

Definition with_viewSettings (f : ImageSettingsWidget.t -> ImageSettingsWidget.t) (a : App) : App :=
  {| heap := heap a; next_file := next_file a; buffers := buffers a;
     next_buffer := next_buffer a; window := window a; infoWidget := infoWidget a;
     resList := resList a; imageView := imageView a;
     viewSettings := f (viewSettings a); log := log a |}.

Definition with_log (f : list Event -> list Event) (a : App) : App :=
  {| heap := heap a; next_file := next_file a; buffers := buffers a;
     next_buffer := next_buffer a; window := window a; infoWidget := infoWidget a;
     resList := resList a; imageView := imageView a;
     viewSettings := viewSettings a; log := f (log a) |}.

(** ** The monad of member functions *)

Definition M (A : Type) : Type := App -> Result (A * App).

Definition ret {A} (x : A) : M A := fun a => Ok (x, a).

Definition bind {A B} (m : M A) (k : A -> M B) : M B :=
  fun a => match m a with
           | Ok (x, a') => k x a'
           | Fault => Fault
           end.

Definition fault {A} : M A := fun _ => Fault.
Definition get : M App := fun a => Ok (a, a).
Definition gets {A} (f : App -> A) : M A := fun a => Ok (f a, a).
Definition modify (f : App -> App) : M unit := fun a => Ok (tt, f a).

Declare Scope vtf_scope.
Delimit Scope vtf_scope with vtf.
Notation "x <- m ;; k" := (bind m (fun x => k))
  (at level 100, m at next level, right associativity) : vtf_scope.
Notation "m ;; k" := (bind m (fun _ => k))
  (at level 100, right associativity) : vtf_scope.
Local Open Scope vtf_scope.

(** [for (auto& x : xs) body(x)] *)
Fixpoint for_each {A} (xs : list A) (body : A -> M unit) : M unit :=
  match xs with
  | [] => ret tt
  | x :: rest => body x ;; for_each rest body
  end.

(** Reading through a pointer: undefined for null and for an object that
    has been deleted. *)
Definition deref (p : pointer) : M CVTFFile :=
  fun a => match p with
           | Some h => match heap a !! h with
                       | Some f => Ok (f, a)
                       | None => Fault
                       end
           | None => Fault
           end.

(** Calling a mutator through a pointer. *)
Definition mutate (p : pointer) (f : CVTFFile -> CVTFFile) : M unit :=
  x <- deref p ;;
  match p with
  | Some h => modify (with_heap (insert h (f x)))
  | None => fault
  end.

(** [new CVTFFile()]: an unloaded file object at a fresh address. *)
Definition CVTFFile_new : CVTFFile :=
  {| GetWidth := 0; GetHeight := 0; GetDepth := 0; GetFrameCount := 0;
     GetFaceCount := 0; GetMipmapCount := 0; GetFormat := IMAGE_FORMAT_other (-1);
     GetMajorVersion := 0; GetMinorVersion := 0; GetSize := 0;
     GetReflectivity := (0%Q, 0%Q, 0%Q); GetStartFrame := 0; GetFlags := 0;
     resources := [] |}.

Definition new_CVTFFile : M nat :=
  fun a => let h := next_file a in
           Ok (h, with_next_file (S h) (with_heap (insert h CVTFFile_new) a)).

(** [delete p]: deleting null is a no-op, deleting a dead object is
    undefined. *)
Definition delete_CVTFFile (p : pointer) : M unit :=
  match p with
  | None => ret tt
  | Some h => _ <- deref p ;; modify (with_heap (delete h))
  end.

Definition malloc : M nat :=
  fun a => let b := next_buffer a in
           Ok (b, with_next_buffer (S b) (with_buffers (fun s => {[ b ]} ∪ s) a)).

Definition free (b : nat) : M unit :=
  fun a => if decide (b ∈ buffers a)
           then Ok (tt, with_buffers (fun s => s ∖ {[ b ]}) a)
           else Fault.

Definition emit_log (e : Event) : M unit := modify (with_log (cons e)).

(** Conversion of an [int] to a 32-bit unsigned value. *)
Definition to_uint (z : Z) : Z := z mod 2 ^ 32.

(** Modelled from the spec: [str::get_filename] of common/util.hpp, which
    is not among the sources; the spec calls its result the "<basename>"
    of the path, here what follows the last path separator. *)
Fixpoint get_filename_from (acc path : string) : string :=
  match path with
  | EmptyString => acc
  | String c rest =>
      if Ascii.eqb c "/"%char || Ascii.eqb c "\"%char
      then get_filename_from EmptyString rest
      else get_filename_from (acc +:+ String c EmptyString) rest
  end.

Definition get_filename (path : string) : string :=
  get_filename_from EmptyString path.

(** The line feed that ends a diagnostic. *)
Definition newline : string := String (Ascii.ascii_of_nat 10) EmptyString.

(** The static table [TEXTURE_FLAGS], in source order. *)
Definition TEXTURE_FLAGS : list (VTFImageFlag * string) :=
  [ (TEXTUREFLAGS_POINTSAMPLE, "Point Sample"%string);
    (TEXTUREFLAGS_TRILINEAR, "Trilinear"%string);
    (TEXTUREFLAGS_CLAMPS, "Clamp S"%string);
    (TEXTUREFLAGS_CLAMPT, "Clamp T"%string);
    (TEXTUREFLAGS_CLAMPU, "Clamp U"%string);
    (TEXTUREFLAGS_ANISOTROPIC, "Anisotropic"%string);
    (TEXTUREFLAGS_HINT_DXT5, "Hint DXT5"%string);
    (TEXTUREFLAGS_SRGB, "sRGB"%string);
    (TEXTUREFLAGS_DEPRECATED_NOCOMPRESS, "Nocompress (Deprecated)"%string);
    (TEXTUREFLAGS_NORMAL, "Normal"%string);
    (TEXTUREFLAGS_NOMIP, "No MIP"%string);
    (TEXTUREFLAGS_NOLOD, "No LOD"%string);
    (TEXTUREFLAGS_MINMIP, "Min Mip"%string);
    (TEXTUREFLAGS_PROCEDURAL, "Procedural"%string);
    (TEXTUREFLAGS_ONEBITALPHA, "One-bit Alpha"%string);
    (TEXTUREFLAGS_EIGHTBITALPHA, "Eight-bit Alpha"%string);
    (TEXTUREFLAGS_ENVMAP, "Envmap"%string);
    (TEXTUREFLAGS_RENDERTARGET, "Render Target"%string);
    (TEXTUREFLAGS_DEPTHRENDERTARGET, "Depth Render Target"%string);
    (TEXTUREFLAGS_NODEBUGOVERRIDE, "No Debug Override"%string);
    (TEXTUREFLAGS_SINGLECOPY, "Single Copy"%string);
    (TEXTUREFLAGS_DEPRECATED_ONEOVERMIPLEVELINALPHA,
     "One Over Mip Level Linear Alpha (Deprecated)"%string);
    (TEXTUREFLAGS_DEPRECATED_PREMULTCOLORBYONEOVERMIPLEVEL,
     "Pre-multiply Colors by One Over Mip Level (Deprecated)"%string);
    (TEXTUREFLAGS_DEPRECATED_NORMALTODUDV, "Normal To DuDv"%string);
    (TEXTUREFLAGS_DEPRECATED_ALPHATESTMIPGENERATION,
     "Alpha Test Mip Generation (Deprecated)"%string);
    (TEXTUREFLAGS_NODEPTHBUFFER, "No Depth Buffer"%string);
    (TEXTUREFLAGS_DEPRECATED_NICEFILTERED, "Nice Filtered (Deprecated)"%string);
    (TEXTUREFLAGS_VERTEXTEXTURE, "Vertex Texture"%string);
    (TEXTUREFLAGS_SSBUMP, "SSBump"%string);
    (TEXTUREFLAGS_DEPRECATED_UNFILTERABLE_OK, "Unfilterable OK (Deprecated)"%string);
    (TEXTUREFLAGS_BORDER, "Border"%string);
    (TEXTUREFLAGS_DEPRECATED_SPECVAR_RED, "Specvar Red (Deprecated)"%string);
    (TEXTUREFLAGS_DEPRECATED_SPECVAR_ALPHA, "Specvar Alpha (Deprecated)"%string) ].

Definition INFO_FIELDS : list string :=
  [ "Width"; "Height"; "Depth"; "Frames"; "Faces"; "Mips"; "Image format";
    "Reflectivity" ]%string.

Definition FILE_FIELDS : list string := [ "Size"; "Version" ]%string.

Section Viewer.
Context `{Env}.

(** ** ViewerMainWindow: title and dirty bit *)

Definition windowTitle : M string :=
  gets (fun a => ViewerMainWindow.windowTitle (window a)).

Definition setWindowTitle (title : string) : M unit :=
  modify (with_window (ViewerMainWindow.set_windowTitle title)).

Definition reset_state : M unit :=
  modify (with_window (ViewerMainWindow.set_dirty_ false)).

Definition mark_modified : M unit :=
  modify (with_window (ViewerMainWindow.set_dirty_ true)) ;;
  title <- windowTitle ;;
  if Qt.endsWith_star title then ret tt
  else setWindowTitle (title +:+ "*").

(** [emit fileModified()]; the signal is connected to
    [ViewerMainWindow::mark_modified]. *)
Definition emit_fileModified : M unit :=
  emit_log fileModified ;; mark_modified.

(** ** InfoWidget *)

Definition InfoWidget_setup_ui : InfoWidget.t :=
  {| InfoWidget.fields_ :=
       foldl (fun m f => map_insert f (QString "") m) ∅ (FILE_FIELDS ++ INFO_FIELDS) |}.

(** [find(name)->setText(t)]: [find] (declared in viewer.hpp) looks the
    line edit up in [fields_]; there is nothing to call for a name that
    was never inserted. *)
Definition find_setText (name : string) (t : Text) : M unit :=
  w <- gets infoWidget ;;
  match InfoWidget.fields_ w !! name with
  | Some _ =>
      modify (with_infoWidget (fun w =>
        {| InfoWidget.fields_ := <[ name := t ]> (InfoWidget.fields_ w) |}))
  | None => fault
  end.

Definition update_info (file : pointer) : M unit :=
  f <- deref file ;; find_setText "Width" (QString_number (GetWidth f)) ;;
  f <- deref file ;; find_setText "Height" (QString_number (GetHeight f)) ;;
  f <- deref file ;; find_setText "Depth" (QString_number (GetDepth f)) ;;
  f <- deref file ;; find_setText "Frames" (QString_number (GetFrameCount f)) ;;
  f <- deref file ;; find_setText "Faces" (QString_number (GetFaceCount f)) ;;
  f <- deref file ;; find_setText "Mips" (QString_number (GetMipmapCount f)) ;;
  f <- deref file ;;
  find_setText "Image format" (QString (ImageFormatToString (GetFormat f))) ;;
  f <- deref file ;;
  find_setText "Version" (version_text (GetMajorVersion f) (GetMinorVersion f)) ;;
  f <- deref file ;;
  let size := GetSize f in
  find_setText "Size" (size_text size) ;;
  f <- deref file ;;
  find_setText "Reflectivity" (reflectivity_text (GetReflectivity f)).

(** ** ImageViewWidget *)

(** Modelled from the spec: [set_frame], [set_face] and [set_mip] are
    defined in viewer.hpp, which is not among the sources; section 4.4
    says they "record the pending selection". *)
Definition set_frame (n : Z) : M unit :=
  modify (with_imageView (ImageViewWidget.set_frame_ n)).
Definition set_face (n : Z) : M unit :=
  modify (with_imageView (ImageViewWidget.set_face_ n)).
Definition set_mip (n : Z) : M unit :=
  modify (with_imageView (ImageViewWidget.set_mip_ n)).

(** [QWidget::resize]: the size is kept within the minimum set by the
    constructor, [setMinimumSize(256, 256)], and Qt's maximum. *)
Definition resize (sz : Z * Z) : M unit :=
  let clip x := Z.max 256 (Z.min 16777215 x) in
  modify (with_imageView (ImageViewWidget.set_size (clip (fst sz), clip (snd sz)))).

Definition ImageViewWidget_set_vtf (file : pointer) : M unit :=
  modify (with_imageView (ImageViewWidget.set_file_ file)) ;;
  modify (with_imageView (ImageViewWidget.set_currentFrame_ (-1))) ;;
  modify (with_imageView (ImageViewWidget.set_currentFace_ (-1))) ;;
  modify (with_imageView (ImageViewWidget.set_currentMip_ (-1))) ;;
  modify (with_imageView (ImageViewWidget.set_zoom_ 1%Q)) ;;
  modify (with_imageView (ImageViewWidget.set_pos_ (0, 0))) ;;
  f <- deref file ;;
  let sz := (to_int (GetWidth f), to_int (GetHeight f)) in
  size <- gets (fun a => ImageViewWidget.size (imageView a)) ;;
  if (fst size <? fst sz) || (snd size <? snd sz) then resize sz else ret tt.

(** The decode target: RGBA when the source format has alpha bits. *)
Definition hasAlpha (f : CVTFFile) : bool := uiAlphaBitsPerPixel (GetFormat f) >? 0.

Definition decode_format (f : CVTFFile) : VTFImageFormat :=
  if hasAlpha f then IMAGE_FORMAT_RGBA8888 else IMAGE_FORMAT_RGB888.

Definition paintEvent : M unit :=
  v <- gets imageView ;;
  f <- deref (ImageViewWidget.file_ v) ;;
  let '(imageWidth, imageHeight, imageDepth) :=
    ComputeMipmapDimensions (GetWidth f) (GetHeight f) (GetDepth f)
                            (ImageViewWidget.mip_ v) in
  (** needs decode; [false] is the early return *)
  painting <-
    (if negb (ImageViewWidget.frame_ v =? ImageViewWidget.currentFrame_ v)
        || negb (ImageViewWidget.mip_ v =? ImageViewWidget.currentMip_ v)
        || negb (ImageViewWidget.face_ v =? ImageViewWidget.currentFace_ v)
     then
       let format := decode_format f in
       let size := ComputeMipmapSize (GetWidth f) (GetHeight f) 1
                                     (ImageViewWidget.mip_ v) format in
       match ImageViewWidget.imgBuf_ v with
       | Some old => free old
       | None => ret tt
       end ;;
       b <- malloc ;;
       modify (with_imageView (ImageViewWidget.set_imgBuf_ (Some b))) ;;
       emit_log (Convert_called (ImageViewWidget.frame_ v) (ImageViewWidget.face_ v)
                                (ImageViewWidget.mip_ v) (GetFormat f) format) ;;
       let ok := Convert (GetData f (ImageViewWidget.frame_ v) (ImageViewWidget.face_ v)
                                  0 (ImageViewWidget.mip_ v))
                         imageWidth imageHeight (GetFormat f) format in
       if negb ok then
         emit_log (cerr ("Could not convert image for display." +:+ newline)) ;; ret false
       else
         modify (with_imageView (ImageViewWidget.set_image_
           (Some {| Qt.bits := b; Qt.width := to_int imageWidth;
                    Qt.height := to_int imageHeight; Qt.format := format |}))) ;;
         modify (with_imageView
                   (ImageViewWidget.set_currentFace_ (ImageViewWidget.face_ v))) ;;
         modify (with_imageView
                   (ImageViewWidget.set_currentFrame_ (ImageViewWidget.frame_ v))) ;;
         modify (with_imageView
                   (ImageViewWidget.set_currentMip_ (ImageViewWidget.mip_ v))) ;;
         ret true
     else ret true) ;;
  if painting then
    v <- gets imageView ;;
    let '(w, h) := ImageViewWidget.size v in
    let center := (Z.quot w 2 - to_int (imageWidth / 2),
                   Z.quot h 2 - to_int (imageHeight / 2)) in
    emit_log (drawImage (fst center + fst (ImageViewWidget.pos_ v),
                         snd center + snd (ImageViewWidget.pos_ v))
                        (ImageViewWidget.image_ v))
  else ret tt.

(** ** ResourceWidget *)

Definition ResourceWidget_set_vtf (file : pointer) : M unit :=
  modify (with_resList (fun _ => {| ResourceWidget.table_ := [] |})) ;;
  f <- deref file ;;
  let resources := GetResourceCount f in
  for_each (seq 0 (Z.to_nat resources)) (fun i =>
    f <- deref file ;;
    let type := GetResourceType f i in
    f <- deref file ;;
    let size := GetResourceData f type in
    modify (with_resList (fun r =>
      {| ResourceWidget.table_ :=
           ResourceWidget.table_ r ++
           [ (QString (GetResourceName type), hex_text type, bytes_text size) ] |}))).

(** ** ImageSettingsWidget *)

(** The four [textChanged] handlers connected in [setup_ui]. *)
Definition frame_textChanged : M unit :=
  s <- gets viewSettings ;;
  set_frame (Qt.value (ImageSettingsWidget.frame_ s)).

Definition mip_textChanged : M unit :=
  s <- gets viewSettings ;;
  set_mip (Qt.value (ImageSettingsWidget.mip_ s)).

Definition face_textChanged : M unit :=
  s <- gets viewSettings ;;
  set_face (Qt.value (ImageSettingsWidget.face_ s)).

Definition startFrame_textChanged : M unit :=
  s <- gets viewSettings ;;
  match ImageSettingsWidget.file_ s with
  | None => ret tt
  | Some _ =>
      mutate (ImageSettingsWidget.file_ s)
             (SetStartFrame (to_uint (Qt.value (ImageSettingsWidget.startFrame_ s)))) ;;
      s <- gets viewSettings ;;
      if negb (ImageSettingsWidget.settingFile_ s) then emit_fileModified else ret tt
  end.

(** The [stateChanged] handler of the check box created for [flag]. *)
Definition check_stateChanged (flag : Z) (newState : Z) : M unit :=
  s <- gets viewSettings ;;
  match ImageSettingsWidget.file_ s with
  | None => ret tt
  | Some _ =>
      mutate (ImageSettingsWidget.file_ s) (SetFlag flag (negb (newState =? 0))) ;;
      s <- gets viewSettings ;;
      if negb (ImageSettingsWidget.settingFile_ s) then emit_fileModified else ret tt
  end.

(** Driving one of the spin boxes: [op] is [Qt.setValue v] or
    [Qt.setRange lo hi]; the connected handler runs when the box reports a
    change. *)
Definition drive_spin
    (box : ImageSettingsWidget.t -> Qt.QSpinBox)
    (set_box : Qt.QSpinBox -> ImageSettingsWidget.t -> ImageSettingsWidget.t)
    (handler : M unit) (op : Qt.QSpinBox -> Qt.QSpinBox * bool) : M unit :=
  s <- gets viewSettings ;;
  let r := op (box s) in
  modify (with_viewSettings (set_box (fst r))) ;;
  if snd r then handler else ret tt.

Definition frame_box := drive_spin ImageSettingsWidget.frame_
  ImageSettingsWidget.set_frame_ frame_textChanged.
Definition mip_box := drive_spin ImageSettingsWidget.mip_
  ImageSettingsWidget.set_mip_ mip_textChanged.
Definition face_box := drive_spin ImageSettingsWidget.face_
  ImageSettingsWidget.set_face_ face_textChanged.
Definition startFrame_box := drive_spin ImageSettingsWidget.startFrame_
  ImageSettingsWidget.set_startFrame_ startFrame_textChanged.

(** [check->setChecked(on)] for the check box at index [i]:
    [stateChanged] fires with [Qt::Checked] (2) or [Qt::Unchecked] (0)
    when the state changes. *)
Definition setChecked (i : nat) (on : bool) : M unit :=
  s <- gets viewSettings ;;
  match ImageSettingsWidget.checks s !! i with
  | None => fault
  | Some c =>
      if Bool.eqb (ImageSettingsWidget.isChecked c) on then ret tt
      else
        modify (with_viewSettings (fun s =>
          ImageSettingsWidget.set_checks
            (<[ i := {| ImageSettingsWidget.flag := ImageSettingsWidget.flag c;
                        ImageSettingsWidget.isChecked := on |} ]>
               (ImageSettingsWidget.checks s)) s)) ;;
        check_stateChanged (ImageSettingsWidget.flag c) (if on then 2 else 0)
  end.

(** [flagChecks_.insert({flag, check})]: an existing key is kept. *)
Definition flagChecks_insert (flag : Z) (check : nat) (m : gmap Z nat) : gmap Z nat :=
  match m !! flag with
  | Some _ => m
  | None => <[ flag := check ]> m
  end.

(** The part of [setup_ui] that builds state: four fresh spin boxes and
    one unchecked check box per table entry. *)
Definition ImageSettingsWidget_setup_ui : ImageSettingsWidget.t :=
  foldl (fun s entry =>
           let flag := flag_value (fst entry) in
           let check := length (ImageSettingsWidget.checks s) in
           ImageSettingsWidget.set_flagChecks_
             (flagChecks_insert flag check (ImageSettingsWidget.flagChecks_ s))
             (ImageSettingsWidget.set_checks
                (ImageSettingsWidget.checks s ++
                 [ {| ImageSettingsWidget.flag := flag;
                      ImageSettingsWidget.isChecked := false |} ]) s))
        {| ImageSettingsWidget.file_ := None;
           ImageSettingsWidget.settingFile_ := false;
           ImageSettingsWidget.frame_ := Qt.QSpinBox_new;
           ImageSettingsWidget.mip_ := Qt.QSpinBox_new;
           ImageSettingsWidget.face_ := Qt.QSpinBox_new;
           ImageSettingsWidget.startFrame_ := Qt.QSpinBox_new;
           ImageSettingsWidget.checks := [];
           ImageSettingsWidget.flagChecks_ := ∅ |}
        TEXTURE_FLAGS.

(** [flagChecks_.find(flag)->second->setChecked(on)] *)
Definition flagChecks_setChecked (flag : Z) (on : bool) : M unit :=
  s <- gets viewSettings ;;
  match ImageSettingsWidget.flagChecks_ s !! flag with
  | Some check => setChecked check on
  | None => fault
  end.

Definition ImageSettingsWidget_set_vtf (file : pointer) : M unit :=
  modify (with_viewSettings (ImageSettingsWidget.set_settingFile_ true)) ;;
  modify (with_viewSettings (ImageSettingsWidget.set_file_ file)) ;;
  f <- deref file ;; startFrame_box (Qt.setValue (to_int (GetStartFrame f))) ;;
  mip_box (Qt.setValue 0) ;;
  f <- deref file ;; frame_box (Qt.setValue (to_int (GetStartFrame f))) ;;
  face_box (Qt.setValue 0) ;;
  f <- deref file ;; mip_box (Qt.setRange 0 (to_int (GetMipmapCount f))) ;;
  f <- deref file ;; frame_box (Qt.setRange 1 (to_int (GetFrameCount f))) ;;
  f <- deref file ;; face_box (Qt.setRange 1 (to_int (GetFaceCount f))) ;;
  f <- deref file ;; startFrame_box (Qt.setRange 1 (to_int (GetFrameCount f))) ;;
  f <- deref file ;;
  let flags := GetFlags f in
  for_each TEXTURE_FLAGS (fun entry =>
    let flag := flag_value (fst entry) in
    flagChecks_setChecked flag (negb (Z.land flags flag =? 0))) ;;
  modify (with_viewSettings (ImageSettingsWidget.set_settingFile_ false)).

(** ** ViewerMainWindow: documents *)

(** The presentation widgets subscribe to [vtfFileChanged] through Qt
    connections; the document functions are written against whatever
    slots are connected. *)
Section Documents.
Variable slots : list (pointer -> M unit).

(** [emit vtfFileChanged(file)]: the connected slots run in connection
    order. *)
Definition emit_vtfFileChanged (file : pointer) : M unit :=
  emit_log (vtfFileChanged file) ;;
  for_each slots (fun slot => slot file).

(** [load_file(VTFLib::CVTFFile* file)] *)
Definition load_file_vtf (file : pointer) : M bool :=
  emit_vtfFileChanged file ;;
  modify (with_window (ViewerMainWindow.set_file_ file)) ;;
  modify (with_window (ViewerMainWindow.set_path_ "")) ;;
  ret true.

(** [load_file(const void* data, size_t size)] *)
Definition load_file_buffer (data : list Z) : M bool :=
  h <- new_CVTFFile ;;
  modify (with_window (ViewerMainWindow.set_file_ (Some h))) ;;
  match CVTFFile_Load data with
  | None =>
      delete_CVTFFile (Some h) ;;
      modify (with_window (ViewerMainWindow.set_file_ None)) ;;
      ret false
  | Some f =>
      mutate (Some h) (fun _ => f) ;;
      w <- gets window ;;
      load_file_vtf (ViewerMainWindow.file_ w)
  end.

(** [load_file(const char* path)]; [util::read_file] yields the number of
    bytes read, 0 when the file cannot be read. *)
Definition load_file_path (path : string) : M bool :=
  let buffer := default [] (file_contents path) in
  let numRead := length buffer in
  if Nat.eqb numRead 0 then ret false
  else
    ok <- load_file_buffer buffer ;;
    setWindowTitle ("VTFView - [" +:+ get_filename path +:+ "]") ;;
    modify (with_window (ViewerMainWindow.set_path_ path)) ;;
    ret ok.

Definition unload_file : M unit :=
  w <- gets window ;;
  match ViewerMainWindow.file_ w with
  | None => ret tt
  | Some _ =>
      emit_vtfFileChanged None ;;
      w <- gets window ;;
      delete_CVTFFile (ViewerMainWindow.file_ w) ;;
      modify (with_window (ViewerMainWindow.set_file_ None)) ;;
      modify (with_window (ViewerMainWindow.set_path_ ""))
  end.

End Documents.

(** The connections made by [ViewerMainWindow::setup_ui], in order. *)
Definition connected : list (pointer -> M unit) :=
  [ update_info; ResourceWidget_set_vtf; ImageViewWidget_set_vtf;
    ImageSettingsWidget_set_vtf ].

(** The state-building part of [ViewerMainWindow::setup_ui]. *)
Definition ViewerMainWindow_setup_ui : M unit := setWindowTitle "VTFView".

Definition save : M unit :=
  w <- gets window ;;
  if negb (ViewerMainWindow.dirty_ w) then ret tt
  else
    modify (with_window (ViewerMainWindow.set_dirty_ false)) ;;
    (** [true]: keep going; [false]: the dialog was cancelled *)
    going <-
      (if String.eqb (ViewerMainWindow.path_ w) ""
       then
         let name := getSaveFileName in
         if String.eqb name "" then ret false
         else modify (with_window (ViewerMainWindow.set_path_ name)) ;; ret true
       else ret true) ;;
    if negb going then ret tt
    else
      w <- gets window ;;
      f <- deref (ViewerMainWindow.file_ w) ;;
      if negb (CVTFFile_Save f (ViewerMainWindow.path_ w)) then
        emit_log (QMessageBox_warning "Could not save file!"
                    ("Failed to save file: " +:+ vlGetLastError))
      else
        title <- windowTitle ;;
        setWindowTitle (Qt.remove_last title).

(** [closeEvent]: the result tells whether the event was ignored. *)
Definition closeEvent : M bool :=
  w <- gets window ;;
  if ViewerMainWindow.dirty_ w then
    match msgBox_exec with
    | QMessageBox_Cancel => ret true
    | QMessageBox_Save => save ;; ret false
    | QMessageBox_Close => ret false
    end
  else ret false.

End Viewer.

(** ** The application as constructed

    The constructors run [setup_ui]; the members they do not assign take
    the initial values given here (the in-class initialisers are in
    viewer.hpp). *)
Definition App_new `{Env} : App :=
  {| heap := ∅; next_file := 0%nat; buffers := ∅; next_buffer := 0%nat;
     window := {| ViewerMainWindow.file_ := None;
                  ViewerMainWindow.path_ := "";
                  ViewerMainWindow.dirty_ := false;
                  ViewerMainWindow.windowTitle := "VTFView" |};
     infoWidget := InfoWidget_setup_ui;
     resList := {| ResourceWidget.table_ := [] |};
     imageView := {| ImageViewWidget.file_ := None;
                     ImageViewWidget.image_ := None;
                     ImageViewWidget.imgBuf_ := None;
                     ImageViewWidget.zoom_ := 1%Q;
                     ImageViewWidget.pos_ := (0, 0);
                     ImageViewWidget.frame_ := 0;
                     ImageViewWidget.face_ := 0;
                     ImageViewWidget.mip_ := 0;
                     ImageViewWidget.currentFrame_ := 0;
                     ImageViewWidget.currentFace_ := 0;
                     ImageViewWidget.currentMip_ := 0;
                     ImageViewWidget.size := (256, 256) |};
     viewSettings := ImageSettingsWidget_setup_ui;
     log := [] |}.

(** Running one member function after another, keeping only the state. *)
Definition exec {A} (m : M A) (a : Result App) : Result App :=
  match a with
  | Ok a => match m a with Ok (_, a') => Ok a' | Fault => Fault end
  | Fault => Fault
  end.

(** [n] consecutive calls. *)
Fixpoint times (n : nat) (m : M unit) : M unit :=
  match n with
  | O => ret tt
  | S k => m ;; times k m
  end.

(** ** A concrete environment for running the model

    Three files: [demo.vtf] and [locked.vtf] hold a texture the codec
    accepts (a magic number, then the frame count and the start frame),
    [junk.vtf] holds bytes it rejects; writing to [locked.vtf] fails; the conversion primitive fails for mip level 5; the user cancels
    the save-as dialog.  Flag constants have VTFLib's values. *)
Definition demo_bytes : list Z := [86; 84; 70; 0; 1; 0].
Definition animated_bytes : list Z := [86; 84; 70; 0; 5; 3].
Definition junk_bytes : list Z := [74; 85; 78; 75].

(** A 256 x 256 DXT5 texture with one face, nine mips and the given
    number of frames and start frame. *)
Definition demo_texture (frames start : Z) : CVTFFile :=
  {| GetWidth := 256; GetHeight := 256; GetDepth := 1; GetFrameCount := frames;
     GetFaceCount := 1; GetMipmapCount := 9; GetFormat := IMAGE_FORMAT_other 15;
     GetMajorVersion := 7; GetMinorVersion := 2; GetSize := 87480;
     GetReflectivity := (1 # 2, 1 # 2, 1 # 2)%Q; GetStartFrame := start;
     GetFlags := 8192; resources := [(1, 0); (48, 87376)] |}.

(** What [demo.vtf] holds: one frame, start frame 0. *)
Definition demo_vtf : CVTFFile := demo_texture 1 0.

Definition demo_flag_value (f : VTFImageFlag) : Z :=
  match f with
  | TEXTUREFLAGS_POINTSAMPLE => 1
  | TEXTUREFLAGS_TRILINEAR => 2
  | TEXTUREFLAGS_CLAMPS => 4
  | TEXTUREFLAGS_CLAMPT => 8
  | TEXTUREFLAGS_ANISOTROPIC => 16
  | TEXTUREFLAGS_HINT_DXT5 => 32
  | TEXTUREFLAGS_SRGB => 64
  | TEXTUREFLAGS_DEPRECATED_NOCOMPRESS => 64
  | TEXTUREFLAGS_NORMAL => 128
  | TEXTUREFLAGS_NOMIP => 256
  | TEXTUREFLAGS_NOLOD => 512
  | TEXTUREFLAGS_MINMIP => 1024
  | TEXTUREFLAGS_PROCEDURAL => 2048
  | TEXTUREFLAGS_ONEBITALPHA => 4096
  | TEXTUREFLAGS_EIGHTBITALPHA => 8192
  | TEXTUREFLAGS_ENVMAP => 16384
  | TEXTUREFLAGS_RENDERTARGET => 32768
  | TEXTUREFLAGS_DEPTHRENDERTARGET => 65536
  | TEXTUREFLAGS_NODEBUGOVERRIDE => 131072
  | TEXTUREFLAGS_SINGLECOPY => 262144
  | TEXTUREFLAGS_DEPRECATED_ONEOVERMIPLEVELINALPHA => 524288
  | TEXTUREFLAGS_DEPRECATED_PREMULTCOLORBYONEOVERMIPLEVEL => 1048576
  | TEXTUREFLAGS_DEPRECATED_NORMALTODUDV => 2097152
  | TEXTUREFLAGS_DEPRECATED_ALPHATESTMIPGENERATION => 4194304
  | TEXTUREFLAGS_NODEPTHBUFFER => 8388608
  | TEXTUREFLAGS_DEPRECATED_NICEFILTERED => 16777216
  | TEXTUREFLAGS_CLAMPU => 33554432
  | TEXTUREFLAGS_VERTEXTEXTURE => 67108864
  | TEXTUREFLAGS_SSBUMP => 134217728
  | TEXTUREFLAGS_DEPRECATED_UNFILTERABLE_OK => 268435456
  | TEXTUREFLAGS_BORDER => 536870912
  | TEXTUREFLAGS_DEPRECATED_SPECVAR_RED => 1073741824
  | TEXTUREFLAGS_DEPRECATED_SPECVAR_ALPHA => 2147483648
  end.

Definition demo_env : Env :=
  {| file_contents path :=
       if String.eqb path "demo.vtf" || String.eqb path "locked.vtf"
       then Some demo_bytes
       else if String.eqb path "junk.vtf" then Some junk_bytes
       else None;
     CVTFFile_Load data :=
       match data with
       | 86 :: 84 :: 70 :: 0 :: frames :: start :: _ => Some (demo_texture frames start)
       | _ => None
       end;
     CVTFFile_Save _ path := negb (String.eqb path "locked.vtf");
     vlGetLastError := "Error opening file.";
     uiAlphaBitsPerPixel fmt :=
       match fmt with
       | IMAGE_FORMAT_RGBA8888 => 8
       | IMAGE_FORMAT_RGB888 => 0
       | IMAGE_FORMAT_other code => if code =? 15 then 8 else 0
       end;
     ComputeMipmapDimensions w h d mip :=
       (Z.max 1 (Z.shiftr w mip), Z.max 1 (Z.shiftr h mip), Z.max 1 (Z.shiftr d mip));
     ComputeMipmapSize w h d mip fmt :=
       Z.max 1 (Z.shiftr w mip) * Z.max 1 (Z.shiftr h mip) * Z.max 1 (Z.shiftr d mip)
       * match fmt with IMAGE_FORMAT_RGBA8888 => 4 | IMAGE_FORMAT_RGB888 => 3 | _ => 1 end;
     GetData _ frame face slice mip := mip;
     Convert src _ _ _ _ := negb (src =? 5);
     flag_value := demo_flag_value;
     ImageFormatToString _ := "DXT5";
     GetResourceName ty := if ty =? 1 then "Low-res Image" else "Image";
     getSaveFileName := "";
     msgBox_exec := QMessageBox_Save |}.

(** Concrete runs in the concrete environment. *)

(** [demo.vtf] loaded from disk into a freshly started viewer. *)
Definition demo_loaded : Result App :=
  exec (load_file_path (H := demo_env) (connected (H := demo_env)) "demo.vtf")
       (Ok (App_new (H := demo_env))).

(** [locked.vtf] loaded from disk; the codec will refuse to write it. *)
Definition locked_loaded : Result App :=
  exec (load_file_path (H := demo_env) (connected (H := demo_env)) "locked.vtf")
       (Ok (App_new (H := demo_env))).

(** The texture loaded from memory: the document has no path. *)
Definition memory_loaded : Result App :=
  exec (load_file_buffer (H := demo_env) (connected (H := demo_env)) demo_bytes)
       (Ok (App_new (H := demo_env))).

(** The user ticks the sRGB check box (the eighth of the table). *)
Definition tick_sRGB : M unit := setChecked 7 true.

(** The document has been painted once at mip 0 and the user then asks
    for mip 5. *)
Definition painted_then_mip5 : Result App :=
  exec (mip_box (Qt.setValue 5)) (exec (paintEvent (H := demo_env)) demo_loaded).

(** The state a run ended in (the fresh viewer if it faulted). *)
Definition state_of (r : Result App) : App :=
  match r with
  | Ok a => a
  | Fault => App_new (H := demo_env)
  end.

(** ** Predicates used by the statements *)

Definition title (a : App) : string := ViewerMainWindow.windowTitle (window a).
Definition dirty (a : App) : bool := ViewerMainWindow.dirty_ (window a).

(** The title ends in ['*'] and the character before it, if any, is not a
    ['*']. *)
Definition exactly_one_trailing_star (t : string) : bool :=
  Qt.endsWith_star t && negb (Qt.endsWith_star (Qt.remove_last t)).

(** The title ends in two or more ['*']. *)
Definition ends_in_two_stars (t : string) : bool :=
  Qt.endsWith_star t && Qt.endsWith_star (Qt.remove_last t).

(** The three-part selection of the settings panel's spin boxes. *)
Definition selection (a : App) : Z * Z * Z :=
  (Qt.value (ImageSettingsWidget.frame_ (viewSettings a)),
   Qt.value (ImageSettingsWidget.face_ (viewSettings a)),
   Qt.value (ImageSettingsWidget.mip_ (viewSettings a))).

(** The selection pending in the image view. *)
Definition view_selection (a : App) : Z * Z * Z :=
  (ImageViewWidget.frame_ (imageView a),
   ImageViewWidget.face_ (imageView a),
   ImageViewWidget.mip_ (imageView a)).

(** The decode cache key of the image view. *)
Definition cache_key (a : App) : Z * Z * Z :=
  (ImageViewWidget.currentFrame_ (imageView a),
   ImageViewWidget.currentFace_ (imageView a),
   ImageViewWidget.currentMip_ (imageView a)).

Definition in_range (b : Qt.QSpinBox) (v : Z) : Prop :=
  Qt.minimum b <= v <= Qt.maximum b.

(** The state the widgets are in once [setup_ui] has run, however many
    documents have been loaded since: every field the info panel looks up
    exists, every flag of the table has its check box, the mip box starts
    at 0 and the face box admits 1. *)
Record widgets_ready `{Env} (a : App) : Prop := {
  ready_fields : forall name, In name (FILE_FIELDS ++ INFO_FIELDS) ->
    is_Some (InfoWidget.fields_ (infoWidget a) !! name);
  ready_checks : forall entry, In entry TEXTURE_FLAGS ->
    exists i, ImageSettingsWidget.flagChecks_ (viewSettings a)
                !! flag_value (fst entry) = Some i
              /\ (i < length (ImageSettingsWidget.checks (viewSettings a)))%nat;
  ready_mip : Qt.minimum (ImageSettingsWidget.mip_ (viewSettings a)) = 0
              /\ 0 <= Qt.maximum (ImageSettingsWidget.mip_ (viewSettings a));
  ready_face : 0 <= Qt.minimum (ImageSettingsWidget.face_ (viewSettings a)) <= 1
               /\ 1 <= Qt.maximum (ImageSettingsWidget.face_ (viewSettings a))
}.

(** The image view's pending selection agrees with the spin boxes. *)
Definition selection_synced (a : App) : Prop := view_selection a = selection a.

(** No [fileModified] among the events. *)
Definition is_fileModified (e : Event) : bool :=
  match e with fileModified => true | _ => false end.

Definition is_Convert_called (e : Event) : bool :=
  match e with Convert_called _ _ _ _ _ => true | _ => false end.

(** ** The spin-box part of [ImageSettingsWidget::set_vtf] as a function

    Where no pointer is null or dangling the member functions cannot
    fault, and what they do to the state can be written down directly.
    These functions are what the monadic code is shown to compute. *)

(** The file object at address [h]. *)
Definition peek (h : nat) (a : App) : CVTFFile :=
  default CVTFFile_new (heap a !! h).

Definition live (h : nat) (a : App) : Prop := is_Some (heap a !! h).

(** The frame box driven by [op], with [set_frame] when it changes. *)
Definition frame_step (op : Qt.QSpinBox -> Qt.QSpinBox * bool) (a : App) : App :=
  let r := op (ImageSettingsWidget.frame_ (viewSettings a)) in
  with_imageView
    (fun v => if snd r then ImageViewWidget.set_frame_ (Qt.value (fst r)) v else v)
    (with_viewSettings (ImageSettingsWidget.set_frame_ (fst r)) a).

Definition mip_step (op : Qt.QSpinBox -> Qt.QSpinBox * bool) (a : App) : App :=
  let r := op (ImageSettingsWidget.mip_ (viewSettings a)) in
  with_imageView
    (fun v => if snd r then ImageViewWidget.set_mip_ (Qt.value (fst r)) v else v)
    (with_viewSettings (ImageSettingsWidget.set_mip_ (fst r)) a).

Definition face_step (op : Qt.QSpinBox -> Qt.QSpinBox * bool) (a : App) : App :=
  let r := op (ImageSettingsWidget.face_ (viewSettings a)) in
  with_imageView
    (fun v => if snd r then ImageViewWidget.set_face_ (Qt.value (fst r)) v else v)
    (with_viewSettings (ImageSettingsWidget.set_face_ (fst r)) a).

(** The start-frame box driven by [op] while the loading guard is up: a
    change is written through to the file at [h] and nothing is emitted. *)
Definition startFrame_step (h : nat) (op : Qt.QSpinBox -> Qt.QSpinBox * bool)
    (a : App) : App :=
  let r := op (ImageSettingsWidget.startFrame_ (viewSettings a)) in
  with_heap
    (fun m => if snd r then alter (SetStartFrame (to_uint (Qt.value (fst r)))) h m else m)
    (with_viewSettings (ImageSettingsWidget.set_startFrame_ (fst r)) a).

(** [set_vtf] up to the flag loop. *)
Definition sync_boxes (h : nat) (a : App) : App :=
  let a0 := with_viewSettings (ImageSettingsWidget.set_file_ (Some h))
              (with_viewSettings (ImageSettingsWidget.set_settingFile_ true) a) in
  let a1 := startFrame_step h (Qt.setValue (to_int (GetStartFrame (peek h a0)))) a0 in
  let a2 := mip_step (Qt.setValue 0) a1 in
  let a3 := frame_step (Qt.setValue (to_int (GetStartFrame (peek h a2)))) a2 in
  let a4 := face_step (Qt.setValue 0) a3 in
  let a5 := mip_step (Qt.setRange 0 (to_int (GetMipmapCount (peek h a4)))) a4 in
  let a6 := frame_step (Qt.setRange 1 (to_int (GetFrameCount (peek h a5)))) a5 in
  let a7 := face_step (Qt.setRange 1 (to_int (GetFaceCount (peek h a6)))) a6 in
  startFrame_step h (Qt.setRange 1 (to_int (GetFrameCount (peek h a7)))) a7.

(** [ImageViewWidget::set_vtf] for the live file at [h]. *)
Definition view_reset (h : nat) (a : App) : App :=
  let a6 :=
    with_imageView (ImageViewWidget.set_pos_ (0, 0))
      (with_imageView (ImageViewWidget.set_zoom_ 1%Q)
         (with_imageView (ImageViewWidget.set_currentMip_ (-1))
            (with_imageView (ImageViewWidget.set_currentFace_ (-1))
               (with_imageView (ImageViewWidget.set_currentFrame_ (-1))
                  (with_imageView (ImageViewWidget.set_file_ (Some h)) a))))) in
  let f := peek h a6 in
  let sz := (to_int (GetWidth f), to_int (GetHeight f)) in
  let size := ImageViewWidget.size (imageView a6) in
  let clip x := Z.max 256 (Z.min 16777215 x) in
  with_imageView
    (fun v => if (fst size <? fst sz) || (snd size <? snd sz)
              then ImageViewWidget.set_size (clip (fst sz), clip (snd sz)) v
              else v)
    a6.

(** The flag loop of [set_vtf], for the flags word read before it. *)
Definition sync_flags `{Env} (flags : Z) : M unit :=
  for_each TEXTURE_FLAGS (fun entry =>
    let flag := flag_value (fst entry) in
    flagChecks_setChecked flag (negb (Z.land flags flag =? 0))).

(** Overwriting the flags word. *)
Definition with_GetFlags (z : Z) (f : CVTFFile) : CVTFFile :=
  {| GetWidth := GetWidth f; GetHeight := GetHeight f; GetDepth := GetDepth f;
     GetFrameCount := GetFrameCount f; GetFaceCount := GetFaceCount f;
     GetMipmapCount := GetMipmapCount f; GetFormat := GetFormat f;
     GetMajorVersion := GetMajorVersion f; GetMinorVersion := GetMinorVersion f;
     GetSize := GetSize f; GetReflectivity := GetReflectivity f;
     GetStartFrame := GetStartFrame f; GetFlags := z; resources := resources f |}.

(** A codec mutation that leaves everything but the flags word alone. *)
Definition flags_only (g : CVTFFile -> CVTFFile) : Prop :=
  forall f, g f = with_GetFlags (GetFlags (g f)) f.

(** The loading guard is up for the file at [h]. *)
Definition guarded (h : nat) (a : App) : Prop :=
  ImageSettingsWidget.settingFile_ (viewSettings a) = true
  /\ ImageSettingsWidget.file_ (viewSettings a) = Some h
  /\ live h a.

(** The check boxes a list of table entries needs. *)
Definition checks_for `{Env} (entries : list (VTFImageFlag * string)) (a : App) : Prop :=
  forall entry, In entry entries ->
    exists i, ImageSettingsWidget.flagChecks_ (viewSettings a)
                !! flag_value (fst entry) = Some i
              /\ (i < length (ImageSettingsWidget.checks (viewSettings a)))%nat.

(** What the flag loop leaves behind: the file at [h] with other flags,
    the check boxes with other marks, nothing else. *)
Definition flags_synced (h : nat) (g : CVTFFile -> CVTFFile)
    (cs : list ImageSettingsWidget.FlagCheck) (a : App) : App :=
  with_heap (alter g h) (with_viewSettings (ImageSettingsWidget.set_checks cs) a).

(** The state in which [ImageSettingsWidget::set_vtf] starts when
    [vtfFileChanged(h)] is delivered: the event is logged, the info panel
    has become [gi] of itself, the resource table [gr] of itself, and the
    image view has been reset. *)
Definition before_settings (h : nat) (gi : InfoWidget.t -> InfoWidget.t)
    (gr : ResourceWidget.t -> ResourceWidget.t) (a : App) : App :=
  view_reset h
    (with_resList gr
       (with_infoWidget gi (with_log (cons (vtfFileChanged (Some h))) a))).

(** The state after [vtfFileChanged(h)] has been delivered to the four
    connected slots; the flag loop made [g] of the file's flags and [cs]
    of the check boxes. *)
Definition told (h : nat) (gi : InfoWidget.t -> InfoWidget.t)
    (gr : ResourceWidget.t -> ResourceWidget.t) (g : CVTFFile -> CVTFFile)
    (cs : list ImageSettingsWidget.FlagCheck) (a : App) : App :=
  with_viewSettings (ImageSettingsWidget.set_settingFile_ false)
    (flags_synced h g cs (sync_boxes h (before_settings h gi gr a))).

(** The state after [load_file] has allocated a file object and the codec
    has filled it with [f]. *)
Definition opened (f : CVTFFile) (a : App) : App :=
  let h := next_file a in
  with_heap (insert h f)
    (with_window (ViewerMainWindow.set_file_ (Some h))
       (with_next_file (S h) (with_heap (insert h CVTFFile_new) a))).

(** Zoom and pan of the image view. *)
Definition view_transform (a : App) : Q * (Z * Z) :=
  (ImageViewWidget.zoom_ (imageView a), ImageViewWidget.pos_ (imageView a)).

(** A spin-box operation reports every change of the value. *)
Definition reports_changes (op : Qt.QSpinBox -> Qt.QSpinBox * bool) : Prop :=
  forall b, snd (op b) = false -> Qt.value (fst (op b)) = Qt.value b.

(** The file at [h] is live and is [f]. *)
Definition reads (h : nat) (f : CVTFFile) (a : App) : Prop :=
  heap a !! h = Some f.

(** One round of the check-box loop of [setup_ui]. *)
Definition add_check `{Env} (s : ImageSettingsWidget.t) (entry : VTFImageFlag * string)
    : ImageSettingsWidget.t :=
  let flag := flag_value (fst entry) in
  let check := length (ImageSettingsWidget.checks s) in
  ImageSettingsWidget.set_flagChecks_
    (flagChecks_insert flag check (ImageSettingsWidget.flagChecks_ s))
    (ImageSettingsWidget.set_checks
       (ImageSettingsWidget.checks s ++
        [ {| ImageSettingsWidget.flag := flag;
             ImageSettingsWidget.isChecked := false |} ]) s).

(** Every registered check box exists. *)
Definition checks_bounded (s : ImageSettingsWidget.t) : Prop :=
  forall k i, ImageSettingsWidget.flagChecks_ s !! k = Some i ->
              (i < length (ImageSettingsWidget.checks s))%nat.

(** The state after [paintEvent] has freed the buffer of the previous
    decode, if there is one. *)
Definition freed (a : App) : App :=
  with_buffers
    (fun s => match ImageViewWidget.imgBuf_ (imageView a) with
              | Some old => s ∖ {[ old ]}
              | None => s
              end)
    a.

(** The state in which [paintEvent] calls the conversion primitive. *)
Definition before_Convert (a : App) : App :=
  with_imageView (ImageViewWidget.set_imgBuf_ (Some (next_buffer (freed a))))
    (with_next_buffer (S (next_buffer (freed a)))
       (with_buffers (fun s => {[ next_buffer (freed a) ]} ∪ s) (freed a))).

(** [a'] differs from [a] at most in the file objects, the image view's
    pending selection, the spin boxes, the check marks and the guard. *)
Definition settings_only (a a' : App) : Prop :=
  log a' = log a
  /\ window a' = window a
  /\ infoWidget a' = infoWidget a
  /\ resList a' = resList a
  /\ buffers a' = buffers a
  /\ ImageSettingsWidget.flagChecks_ (viewSettings a')
     = ImageSettingsWidget.flagChecks_ (viewSettings a)
  /\ length (ImageSettingsWidget.checks (viewSettings a'))
     = length (ImageSettingsWidget.checks (viewSettings a)).

(** ** Definitions used by the further properties *)

(** The state [mark_modified] leaves when the title has no star yet. *)
Definition marked (a : App) : App :=
  with_window (ViewerMainWindow.set_windowTitle (title a +:+ "*"))
    (with_window (ViewerMainWindow.set_dirty_ true) a).

(** The concrete environment with another answer to the unsaved-changes
    question. *)
Definition answering (b : StandardButton) (E : Env) : Env :=
  {| file_contents := @file_contents E; CVTFFile_Load := @CVTFFile_Load E;
     CVTFFile_Save := @CVTFFile_Save E; vlGetLastError := @vlGetLastError E;
     uiAlphaBitsPerPixel := @uiAlphaBitsPerPixel E;
     ComputeMipmapDimensions := @ComputeMipmapDimensions E;
     ComputeMipmapSize := @ComputeMipmapSize E; GetData := @GetData E;
     Convert := @Convert E; flag_value := @flag_value E;
     ImageFormatToString := @ImageFormatToString E;
     GetResourceName := @GetResourceName E;
     getSaveFileName := @getSaveFileName E;
     msgBox_exec := b |}.

(** Where [paintEvent] draws: the image centred in the widget, moved by
    the pan offset. *)
Definition draw_position (a : App) (imageWidth imageHeight : Z) : Z * Z :=
  (Z.quot (fst (ImageViewWidget.size (imageView a))) 2 - to_int (imageWidth / 2)
   + fst (ImageViewWidget.pos_ (imageView a)),
   Z.quot (snd (ImageViewWidget.size (imageView a))) 2 - to_int (imageHeight / 2)
   + snd (ImageViewWidget.pos_ (imageView a))).

(** The image view after a successful decode into a fresh buffer. *)
Definition decoded `{Env} (a : App) (f : CVTFFile) (imageWidth imageHeight : Z) : App :=
  let v := imageView a in
  with_imageView (ImageViewWidget.set_currentMip_ (ImageViewWidget.mip_ v))
    (with_imageView (ImageViewWidget.set_currentFrame_ (ImageViewWidget.frame_ v))
       (with_imageView (ImageViewWidget.set_currentFace_ (ImageViewWidget.face_ v))
          (with_imageView
             (ImageViewWidget.set_image_
                (Some {| Qt.bits := next_buffer (freed a); Qt.width := to_int imageWidth;
                         Qt.height := to_int imageHeight;
                         Qt.format := decode_format f |}))
             (with_log
                (cons (Convert_called (ImageViewWidget.frame_ v) (ImageViewWidget.face_ v)
                         (ImageViewWidget.mip_ v) (GetFormat f) (decode_format f)))
                (before_Convert a))))).

(** Neither the event log, nor the window, nor any file object differs. *)
Definition document_untouched (a a' : App) : Prop :=
  log a' = log a /\ window a' = window a /\ heap a' = heap a.

(** The image view's document, decode cache key and decode buffer. *)
Definition view_document (a : App) : pointer * (Z * Z * Z) * option nat :=
  (ImageViewWidget.file_ (imageView a), cache_key a,
   ImageViewWidget.imgBuf_ (imageView a)).

(** The document of the settings panel and its guard. *)
Definition settings_document (a : App) : pointer * bool :=
  (ImageSettingsWidget.file_ (viewSettings a),
   ImageSettingsWidget.settingFile_ (viewSettings a)).

(** The title [load_file(path)] gives the window. *)
Definition document_title (path : string) : string :=
  ("VTFView - [" +:+ get_filename path +:+ "]")%string.

(** The four spin boxes: frame, mip, face, start frame. *)
Definition boxes (a : App) : Qt.QSpinBox * Qt.QSpinBox * Qt.QSpinBox * Qt.QSpinBox :=
  (ImageSettingsWidget.frame_ (viewSettings a), ImageSettingsWidget.mip_ (viewSettings a),
   ImageSettingsWidget.face_ (viewSettings a),
   ImageSettingsWidget.startFrame_ (viewSettings a)).

(** Frame, mip and face counts of a file. *)
Definition counts (f : CVTFFile) : Z * Z * Z :=
  (GetFrameCount f, GetMipmapCount f, GetFaceCount f).

(** A box has the range [lo, max lo hi] and a value inside it. *)
Definition ranged (lo hi : Z) (b : Qt.QSpinBox) : Prop :=
  Qt.minimum b = lo /\ Qt.maximum b = Z.max lo hi /\ in_range b (Qt.value b).

(** The row [ResourceWidget::set_vtf] writes for a resource type. *)
Definition resource_row `{Env} (f : CVTFFile) (ty : Z) : Text * Text * Text :=
  (QString (GetResourceName ty), hex_text ty, bytes_text (GetResourceData f ty)).

(** What [InfoWidget::update_info] writes into the field of a given
    name, if it writes that field. *)
Definition shown `{Env} (f : CVTFFile) (name : string) : option Text :=
  if String.eqb name "Width" then Some (QString_number (GetWidth f))
  else if String.eqb name "Height" then Some (QString_number (GetHeight f))
  else if String.eqb name "Depth" then Some (QString_number (GetDepth f))
  else if String.eqb name "Frames" then Some (QString_number (GetFrameCount f))
  else if String.eqb name "Faces" then Some (QString_number (GetFaceCount f))
  else if String.eqb name "Mips" then Some (QString_number (GetMipmapCount f))
  else if String.eqb name "Image format"
       then Some (QString (ImageFormatToString (GetFormat f)))
  else if String.eqb name "Version"
       then Some (version_text (GetMajorVersion f) (GetMinorVersion f))
  else if String.eqb name "Size" then Some (size_text (GetSize f))
  else if String.eqb name "Reflectivity"
       then Some (reflectivity_text (GetReflectivity f))
  else None.

(** Every registered check box exists and was created for the flag it is
    registered under. *)
Definition keyed (s : ImageSettingsWidget.t) : Prop :=
  forall k i, ImageSettingsWidget.flagChecks_ s !! k = Some i ->
    exists c, ImageSettingsWidget.checks s !! i = Some c
              /\ ImageSettingsWidget.flag c = k.

(** The check boxes [setup_ui] creates for a list of table entries. *)
Definition boxes_of `{Env} (entries : list (VTFImageFlag * string))
    : list ImageSettingsWidget.FlagCheck :=
  map (fun e => {| ImageSettingsWidget.flag := flag_value (fst e);
                   ImageSettingsWidget.isChecked := false |}) entries.

(** The position of the first table entry with a given flag value. *)
Fixpoint first_entry `{Env} (k : Z) (entries : list (VTFImageFlag * string))
    : option nat :=
  match entries with
  | [] => None
  | e :: rest => if flag_value (fst e) =? k then Some 0%nat
                 else S <$> first_entry k rest
  end.

(** The check boxes and their registration. *)
Definition check_boxes (a : App) : list ImageSettingsWidget.FlagCheck * gmap Z nat :=
  (ImageSettingsWidget.checks (viewSettings a),
   ImageSettingsWidget.flagChecks_ (viewSettings a)).

(** The three places that hold the document. *)
Definition holders (a : App) : list pointer :=
  [ ViewerMainWindow.file_ (window a); ImageViewWidget.file_ (imageView a);
    ImageSettingsWidget.file_ (viewSettings a) ].

(** What holds between two events of a viewer that has been constructed:
    the widgets are set up, there is one check box per table entry, the
    loading guard is down, every holder of a document holds a live file
    object, file objects live below the allocation counter, and the
    decode buffer of the image view is allocated. *)
Record sound `{Env} (a : App) : Prop := {
  sound_ready : widgets_ready a;
  sound_boxes : length (ImageSettingsWidget.checks (viewSettings a))
                = length TEXTURE_FLAGS;
  sound_guard : ImageSettingsWidget.settingFile_ (viewSettings a) = false;
  sound_holders : forall h, In (Some h) (holders a) -> live h a;
  sound_fresh : forall h, live h a -> (h < next_file a)%nat;
  sound_buffer : forall b, ImageViewWidget.imgBuf_ (imageView a) = Some b ->
                           b ∈ buffers a
}.








(** * Properties *)

(** Closes a goal about a concrete run by evaluation. *)
Ltac computed := vm_compute; first [ reflexivity | discriminate | exact I ].

(** Splits a conjunction into its parts and evaluates each. *)
Ltac all_computed :=
  repeat match goal with |- _ /\ _ => split end;
  first [ computed | eexists; computed ].

(** ** Titles *)

Lemma append_String (c : ascii) (t s : string) :
  (String c t +:+ s)%string = String c (t +:+ s).
Proof. reflexivity. Qed.

Lemma endsWith_star_append (t : string) : Qt.endsWith_star (t +:+ "*") = true.
Proof.
  induction t as [|c t IH]; [reflexivity|].
  rewrite append_String. cbn [Qt.endsWith_star].
  destruct (t +:+ "*")%string eqn:E; [destruct t; discriminate|exact IH].
Qed.

Lemma remove_last_append (t : string) : Qt.remove_last (t +:+ "*") = t.
Proof.
  induction t as [|c t IH]; [reflexivity|].
  rewrite append_String. cbn [Qt.remove_last].
  destruct (t +:+ "*")%string eqn:E; [destruct t; discriminate|].
  now rewrite IH.
Qed.

(** One call of [mark_modified], spelled out. *)
Lemma mark_modified_run (a : App) :
  mark_modified a =
  Ok (tt, if Qt.endsWith_star (title a)
          then with_window (ViewerMainWindow.set_dirty_ true) a
          else with_window (ViewerMainWindow.set_windowTitle (title a +:+ "*"))
                 (with_window (ViewerMainWindow.set_dirty_ true) a)).
Proof.
  unfold mark_modified, bind, modify, windowTitle, gets, setWindowTitle, title; cbn.
  destruct (Qt.endsWith_star _); reflexivity.
Qed.

Lemma mark_modified_title (a a' : App) :
  mark_modified a = Ok (tt, a') ->
  title a' = (if Qt.endsWith_star (title a) then title a else title a +:+ "*")
  /\ dirty a' = true.
Proof.
  rewrite mark_modified_run. intros [= <-].
  destruct (Qt.endsWith_star (title a)); split; reflexivity.
Qed.

(** Once the title carries its star, further calls change nothing. *)
Lemma mark_modified_again (a : App) :
  Qt.endsWith_star (title a) = true -> dirty a = true ->
  mark_modified a = Ok (tt, a).
Proof.
  intros Hs Hd. rewrite mark_modified_run, Hs.
  destruct a as [hp nf bs nb [f p d t] iw rl iv vs lg].
  unfold dirty in Hd; cbn in Hd; subst d. reflexivity.
Qed.

Lemma times_mark_modified_again (n : nat) (a : App) :
  Qt.endsWith_star (title a) = true -> dirty a = true ->
  times n mark_modified a = Ok (tt, a).
Proof.
  intros Hs Hd. induction n as [|n IH]; [reflexivity|].
  cbn [times]. unfold bind. now rewrite mark_modified_again.
Qed.

(** Idempotence: any positive number of calls amounts to one call. *)
Lemma mark_modified_idempotent (n : nat) (a : App) :
  times (S n) mark_modified a = mark_modified a.
Proof.
  cbn [times]. unfold bind.
  destruct (mark_modified a) as [[[] a1]|] eqn:E; [|reflexivity].
  destruct (mark_modified_title _ _ E) as [Ht Hd].
  apply times_mark_modified_again; [|exact Hd].
  rewrite Ht. destruct (Qt.endsWith_star (title a)) eqn:Es; [exact Es|].
  apply endsWith_star_append.
Qed.

(** C9 (as amended): for every title that does not already end in two or
    more stars, any positive number of consecutive [mark_modified] calls
    leaves a title with exactly one trailing star, the title one call
    leaves, and the dirty bit set. *)
Theorem mark_modified_one_star (n : nat) (a : App) :
  (1 <= n)%nat ->
  ends_in_two_stars (title a) = false ->
  exists a',
    times n mark_modified a = Ok (tt, a')
    /\ title a' = (if Qt.endsWith_star (title a) then title a else title a +:+ "*")
    /\ exactly_one_trailing_star (title a') = true
    /\ dirty a' = true.
Proof.
  intros Hn H2. destruct n as [|n]; [lia|].
  rewrite mark_modified_idempotent.
  destruct (mark_modified a) as [[[] a1]|] eqn:E;
    [|rewrite mark_modified_run in E; discriminate].
  destruct (mark_modified_title _ _ E) as [Ht Hd].
  exists a1. repeat split; try assumption.
  rewrite Ht. unfold exactly_one_trailing_star, ends_in_two_stars in *.
  destruct (Qt.endsWith_star (title a)) eqn:Es.
  - rewrite Es. cbn in H2 |- *. now rewrite H2.
  - now rewrite endsWith_star_append, remove_last_append, Es.
Qed.

(** C9 (as stated) fails on a title that already ends in two stars: the
    call returns at the [endsWith] test and the title keeps both. *)
Lemma mark_modified_two_stars :
  let a := with_window (ViewerMainWindow.set_windowTitle "VTFView**")
                       (App_new (H := demo_env)) in
  exists a',
    times 1 mark_modified a = Ok (tt, a')
    /\ title a' = "VTFView**"%string
    /\ exactly_one_trailing_star (title a') = false
    /\ ~ (exactly_one_trailing_star (title a') = true /\ dirty a' = true).
Proof.
  intros a. exists (state_of (exec (times 1 mark_modified) (Ok a))).
  split; [computed|]. split; [computed|]. split; [computed|].
  intros [Hone _]. vm_compute in Hone. discriminate.
Qed.

Lemma mark_modified_one_star_witness :
  (1 <= 2)%nat
  /\ ends_in_two_stars (title (App_new (H := demo_env))) = false
  /\ exists a',
       times 2 mark_modified (App_new (H := demo_env)) = Ok (tt, a')
       /\ title a' = (if Qt.endsWith_star (title (App_new (H := demo_env)))
                      then title (App_new (H := demo_env))
                      else title (App_new (H := demo_env)) +:+ "*")
       /\ exactly_one_trailing_star (title a') = true
       /\ dirty a' = true.
Proof.
  split; [lia|]. split; [reflexivity|].
  apply (mark_modified_one_star 2 (App_new (H := demo_env))); [lia|reflexivity].
Defined.

(** ** Saving *)

Section Saving.
Context `{Env}.


(** A dirty document with a path, the codec refusing to write: [save]
    shows the warning and returns with the dirty bit cleared. *)
Lemma save_refused (a : App) (h : nat) (f : CVTFFile) :
  dirty a = true ->
  ViewerMainWindow.path_ (window a) <> ""%string ->
  ViewerMainWindow.file_ (window a) = Some h ->
  heap a !! h = Some f ->
  CVTFFile_Save f (ViewerMainWindow.path_ (window a)) = false ->
  save a =
  Ok (tt, with_log (cons (QMessageBox_warning "Could not save file!"
                            ("Failed to save file: " +:+ vlGetLastError)))
            (with_window (ViewerMainWindow.set_dirty_ false) a)).
Proof.
  unfold dirty. intros Hd Hp Hf Hh Hs.
  unfold save, bind, gets, modify, ret, deref, emit_log. cbn.
  rewrite Hd. apply String.eqb_neq in Hp. rewrite Hp. cbn.
  rewrite Hf, Hh, Hs. reflexivity.
Qed.

End Saving.

(** C1, on the code: with the texture loaded from memory and a flag
    ticked, cancelling the save-as dialog leaves the dirty bit cleared
    (the title keeps its star); with [locked.vtf] loaded and a flag
    ticked, the codec refuses to write, the warning is shown, and the
    dirty bit is cleared as well. *)
Theorem save_failure_clears_dirty :
  (exists a a',
     exec tick_sRGB memory_loaded = Ok a
     /\ dirty a = true
     /\ ViewerMainWindow.path_ (window a) = ""%string
     /\ getSaveFileName (Env := demo_env) = ""%string
     /\ save (H := demo_env) a = Ok (tt, a')
     /\ dirty a' = false
     /\ title a' = "VTFView*"%string)
  /\
  (exists a a' f,
     exec tick_sRGB locked_loaded = Ok a
     /\ dirty a = true
     /\ deref (ViewerMainWindow.file_ (window a)) a = Ok (f, a)
     /\ CVTFFile_Save (Env := demo_env) f (ViewerMainWindow.path_ (window a)) = false
     /\ save (H := demo_env) a = Ok (tt, a')
     /\ dirty a' = false
     /\ title a' = "VTFView - [locked.vtf]*"%string
     /\ head (log a') = Some (QMessageBox_warning "Could not save file!"
                                "Failed to save file: Error opening file.")).
Proof.
  split.
  - exists (state_of (exec tick_sRGB memory_loaded)),
           (state_of (exec (save (H := demo_env)) (exec tick_sRGB memory_loaded))).
    all_computed.
  - exists (state_of (exec tick_sRGB locked_loaded)),
           (state_of (exec (save (H := demo_env)) (exec tick_sRGB locked_loaded))),
           (SetFlag 64 true (demo_texture 1 1)).
    all_computed.
Qed.

(** ** Loading *)

Section Loading.
Context `{Env}.
Variable slots : list (pointer -> M unit).

(** A rejected buffer: [load_file] answers false, keeps path, dirty bit
    and title, tells no subscriber, keeps every older file object alive,
    and leaves the window without a document. *)
Lemma load_file_buffer_rejected (data : list Z) (a : App) :
  CVTFFile_Load data = None ->
  exists a',
    load_file_buffer slots data a = Ok (false, a')
    /\ ViewerMainWindow.file_ (window a') = None
    /\ ViewerMainWindow.path_ (window a') = ViewerMainWindow.path_ (window a)
    /\ dirty a' = dirty a
    /\ title a' = title a
    /\ log a' = log a
    /\ imageView a' = imageView a
    /\ viewSettings a' = viewSettings a
    /\ (forall h, h <> next_file a -> heap a' !! h = heap a !! h).
Proof.
  intros Hrej. eexists. split.
  - unfold load_file_buffer, bind, new_CVTFFile, modify. rewrite Hrej.
    unfold delete_CVTFFile, bind, deref, modify, ret. cbn.
    rewrite lookup_insert_eq. reflexivity.
  - cbn. repeat split.
    intros h Hne. rewrite lookup_delete_ne, lookup_insert_ne by congruence.
    reflexivity.
Qed.


(** A readable file the codec rejects: the answer is false, yet title and
    path are those of the rejected file. *)
Lemma load_file_path_rejected (path : string) (a : App) :
  default [] (file_contents path) <> [] ->
  CVTFFile_Load (default [] (file_contents path)) = None ->
  exists a',
    load_file_path slots path a = Ok (false, a')
    /\ title a' = ("VTFView - [" +:+ get_filename path +:+ "]")%string
    /\ ViewerMainWindow.path_ (window a') = path
    /\ ViewerMainWindow.file_ (window a') = None.
Proof.
  intros Hread Hrej.
  destruct (load_file_buffer_rejected _ a Hrej) as (a1 & Hrun & Hfile & _).
  unfold load_file_path.
  destruct (default [] (file_contents path)) as [|z data] eqn:Hbuf; [congruence|].
  cbn [length Nat.eqb]. unfold bind at 1. rewrite Hrun.
  eexists. split; [reflexivity|]. cbn. repeat split. exact Hfile.
Qed.

End Loading.

(** C2, on the code: with [demo.vtf] loaded, a buffer the codec rejects
    makes [load_file] answer false and keep path and dirty bit, but the
    window's handle to the loaded document is gone: [file_] is null while
    the old file object is still allocated and still held by the
    widgets, which were told nothing. *)
Theorem rejected_buffer_forgets_document :
  exists a a' old,
    demo_loaded = Ok a
    /\ ViewerMainWindow.file_ (window a) = Some old
    /\ CVTFFile_Load (Env := demo_env) junk_bytes = None
    /\ load_file_buffer (H := demo_env) (connected (H := demo_env)) junk_bytes a
       = Ok (false, a')
    /\ ViewerMainWindow.file_ (window a') = None
    /\ ViewerMainWindow.path_ (window a') = ViewerMainWindow.path_ (window a)
    /\ dirty a' = dirty a
    /\ is_Some (heap a' !! old)
    /\ ImageViewWidget.file_ (imageView a') = Some old
    /\ ImageSettingsWidget.file_ (viewSettings a') = Some old
    /\ log a' = log a.
Proof.
  exists (state_of demo_loaded),
         (state_of (exec (load_file_buffer (H := demo_env) (connected (H := demo_env))
                            junk_bytes) demo_loaded)),
         0%nat.
  all_computed.
Qed.

(** C5, on the code: loading [junk.vtf], which is readable but rejected,
    answers false and still sets the title and the path; over a loaded
    [demo.vtf] it replaces that document's title and path. *)
Theorem rejected_file_updates_title_and_path :
  (exists a',
     load_file_path (H := demo_env) (connected (H := demo_env)) "junk.vtf"
                    (App_new (H := demo_env)) = Ok (false, a')
     /\ title (App_new (H := demo_env)) = "VTFView"%string
     /\ ViewerMainWindow.path_ (window (App_new (H := demo_env))) = ""%string
     /\ title a' = "VTFView - [junk.vtf]"%string
     /\ ViewerMainWindow.path_ (window a') = "junk.vtf"%string)
  /\
  (exists a a',
     demo_loaded = Ok a
     /\ title a = "VTFView - [demo.vtf]"%string
     /\ ViewerMainWindow.path_ (window a) = "demo.vtf"%string
     /\ load_file_path (H := demo_env) (connected (H := demo_env)) "junk.vtf" a
        = Ok (false, a')
     /\ title a' = "VTFView - [junk.vtf]"%string
     /\ ViewerMainWindow.path_ (window a') = "junk.vtf"%string).
Proof.
  split.
  - exists (state_of (exec (load_file_path (H := demo_env) (connected (H := demo_env))
                              "junk.vtf") (Ok (App_new (H := demo_env))))).
    all_computed.
  - exists (state_of demo_loaded),
           (state_of (exec (load_file_path (H := demo_env) (connected (H := demo_env))
                              "junk.vtf") demo_loaded)).
    all_computed.
Qed.

(** ** The settings panel *)

Lemma insert_as_alter (g : CVTFFile -> CVTFFile) (h : nat) (f : CVTFFile)
    (m : gmap nat CVTFFile) :
  m !! h = Some f -> <[ h := g f ]> m = alter g h m.
Proof.
  intros Hm. apply map_eq. intros i.
  rewrite lookup_insert, lookup_alter.
  destruct (decide (h = i)) as [->|]; [now rewrite Hm|reflexivity].
Qed.

Lemma deref_live (h : nat) (a : App) :
  live h a -> deref (Some h) a = Ok (peek h a, a).
Proof.
  unfold live, deref, peek. intros [f ->]. reflexivity.
Qed.

Lemma deref_null (a : App) : deref None a = Fault.
Proof. reflexivity. Qed.

Lemma frame_box_run (op : Qt.QSpinBox -> Qt.QSpinBox * bool) (a : App) :
  frame_box op a = Ok (tt, frame_step op a).
Proof.
  unfold frame_box, drive_spin, frame_step, bind, gets, modify. cbn.
  destruct (snd (op _)); reflexivity.
Qed.

Lemma mip_box_run (op : Qt.QSpinBox -> Qt.QSpinBox * bool) (a : App) :
  mip_box op a = Ok (tt, mip_step op a).
Proof.
  unfold mip_box, drive_spin, mip_step, bind, gets, modify. cbn.
  destruct (snd (op _)); reflexivity.
Qed.

Lemma face_box_run (op : Qt.QSpinBox -> Qt.QSpinBox * bool) (a : App) :
  face_box op a = Ok (tt, face_step op a).
Proof.
  unfold face_box, drive_spin, face_step, bind, gets, modify. cbn.
  destruct (snd (op _)); reflexivity.
Qed.

Lemma startFrame_box_run (h : nat) (op : Qt.QSpinBox -> Qt.QSpinBox * bool) (a : App) :
  guarded h a ->
  startFrame_box op a = Ok (tt, startFrame_step h op a).
Proof.
  intros (Hset & Hfile & f & Hf).
  unfold startFrame_box, drive_spin, startFrame_step, bind, gets, modify. cbn.
  destruct (snd (op _)); [|reflexivity].
  unfold startFrame_textChanged, bind, gets, mutate, bind, deref, modify, ret. cbn.
  rewrite Hfile. cbn. rewrite Hf. cbn. rewrite Hset. cbn.
  unfold with_heap. cbn. now rewrite (insert_as_alter _ _ _ _ Hf).
Qed.

Lemma bind_run {A B} (m : M A) (k : A -> M B) (a a' : App) (x : A) :
  m a = Ok (x, a') -> bind m k a = k x a'.
Proof. unfold bind. now intros ->. Qed.

Lemma bind_fault {A B} (m : M A) (k : A -> M B) (a : App) :
  m a = Fault -> bind m k a = Fault.
Proof. unfold bind. now intros ->. Qed.

Lemma modify_run (g : App -> App) (a : App) : modify g a = Ok (tt, g a).
Proof. reflexivity. Qed.

Lemma gets_run {A} (g : App -> A) (a : App) : gets g a = Ok (g a, a).
Proof. reflexivity. Qed.

Lemma live_alter_if (c : bool) (g : CVTFFile -> CVTFFile) (h : nat)
    (m : gmap nat CVTFFile) :
  is_Some (m !! h) -> is_Some ((if c then alter g h m else m) !! h).
Proof.
  intros [f Hf]. destruct c; [|eauto].
  rewrite lookup_alter, decide_True, Hf by reflexivity. cbn. eauto.
Qed.

Lemma guarded_live (h : nat) (a : App) : guarded h a -> live h a.
Proof. now intros (_ & _ & Hl). Qed.

Lemma guarded_frame_step h op a : guarded h a -> guarded h (frame_step op a).
Proof. intros (? & ? & ?). repeat split; assumption. Qed.

Lemma guarded_mip_step h op a : guarded h a -> guarded h (mip_step op a).
Proof. intros (? & ? & ?). repeat split; assumption. Qed.

Lemma guarded_face_step h op a : guarded h a -> guarded h (face_step op a).
Proof. intros (? & ? & ?). repeat split; assumption. Qed.

Lemma guarded_startFrame_step h op a :
  guarded h a -> guarded h (startFrame_step h op a).
Proof.
  intros (? & ? & Hl). repeat split; try assumption.
  unfold live, startFrame_step. cbn. now apply live_alter_if.
Qed.

Lemma guarded_begin (h : nat) (a : App) :
  live h a ->
  guarded h (with_viewSettings (ImageSettingsWidget.set_file_ (Some h))
               (with_viewSettings (ImageSettingsWidget.set_settingFile_ true) a)).
Proof. intros Hl. repeat split. exact Hl. Qed.

Create HintDb vtf.
#[local] Hint Resolve guarded_live guarded_frame_step guarded_mip_step
  guarded_face_step guarded_startFrame_step guarded_begin : vtf.

(** Solves the side condition of one monadic step. *)
Ltac run_step :=
  first
    [ apply modify_run
    | apply gets_run
    | apply frame_box_run
    | apply mip_box_run
    | apply face_box_run
    | apply startFrame_box_run; eauto 12 with vtf
    | apply deref_live; eauto 12 with vtf ].

Ltac run := repeat (erewrite bind_run by run_step).

Section SettingsPanel.
Context `{Env}.

(** [set_vtf] on a live file: the spin boxes are brought to
    [sync_boxes], then the flag loop runs, then the guard is lowered. *)
Lemma ImageSettingsWidget_set_vtf_run (h : nat) (a : App) :
  live h a ->
  ImageSettingsWidget_set_vtf (Some h) a =
  bind (sync_flags (GetFlags (peek h (sync_boxes h a))))
       (fun _ => modify (with_viewSettings (ImageSettingsWidget.set_settingFile_ false)))
       (sync_boxes h a).
Proof.
  intros Hl. unfold ImageSettingsWidget_set_vtf. run. reflexivity.
Qed.

End SettingsPanel.

(** *** The flag loop *)

Lemma flags_only_id : flags_only (fun f => f).
Proof. intros [ ]. reflexivity. Qed.

Lemma flags_only_SetFlag flag on : flags_only (SetFlag flag on).
Proof. intros [ ]. reflexivity. Qed.

Lemma flags_only_compose g1 g2 :
  flags_only g1 -> flags_only g2 -> flags_only (g2 ∘ g1).
Proof.
  intros H1 H2 f. unfold compose.
  transitivity (with_GetFlags (GetFlags (g2 (g1 f))) (g1 f)); [apply H2|].
  generalize (GetFlags (g2 (g1 f))). intros z. now rewrite (H1 f).
Qed.

Lemma flags_synced_nothing (h : nat) (a : App) :
  flags_synced h (fun f => f) (ImageSettingsWidget.checks (viewSettings a)) a = a.
Proof.
  unfold flags_synced.
  destruct a as [hp nf bs nb w iw rl iv [f s fr mi fa sf cs fc] lg]. cbn.
  unfold with_heap. cbn. f_equal. now apply alter_id.
Qed.

Lemma flags_synced_twice h g1 g2 cs1 cs2 a :
  flags_synced h g2 cs2 (flags_synced h g1 cs1 a) = flags_synced h (g2 ∘ g1) cs2 a.
Proof.
  unfold flags_synced, with_heap. cbn. f_equal. apply alter_alter_eq.
Qed.

Lemma guarded_flags_synced h g cs a :
  guarded h a -> guarded h (flags_synced h g cs a).
Proof.
  intros (? & ? & Hl). repeat split; try assumption.
  unfold live, flags_synced. cbn. exact (live_alter_if true g h _ Hl).
Qed.

Section FlagLoop.
Context `{Env}.

(** One [setChecked] under the guard. *)
Lemma flagChecks_setChecked_run (h : nat) (flag : Z) (on : bool) (a : App) (i : nat) :
  guarded h a ->
  ImageSettingsWidget.flagChecks_ (viewSettings a) !! flag = Some i ->
  (i < length (ImageSettingsWidget.checks (viewSettings a)))%nat ->
  exists g cs,
    flags_only g
    /\ length cs = length (ImageSettingsWidget.checks (viewSettings a))
    /\ flagChecks_setChecked flag on a = Ok (tt, flags_synced h g cs a).
Proof.
  intros (Hset & Hfile & f & Hf) Hi Hlt.
  destruct (lookup_lt_is_Some_2 _ _ Hlt) as [c Hc].
  unfold flagChecks_setChecked, bind, gets. cbn. rewrite Hi.
  unfold setChecked, bind, gets. cbn. rewrite Hc.
  destruct (Bool.eqb (ImageSettingsWidget.isChecked c) on).
  - exists (fun f => f), (ImageSettingsWidget.checks (viewSettings a)).
    split; [apply flags_only_id|]. split; [reflexivity|].
    now rewrite flags_synced_nothing.
  - eexists (SetFlag (ImageSettingsWidget.flag c) (negb ((if on then 2 else 0) =? 0))), _.
    split; [apply flags_only_SetFlag|]. split; [apply length_insert|].
    unfold modify, check_stateChanged, bind, gets, mutate, bind, deref, modify, ret.
    cbn. rewrite Hfile. cbn. rewrite Hf. cbn. rewrite Hset. cbn.
    unfold flags_synced, with_heap. cbn.
    rewrite (insert_as_alter _ _ _ _ Hf). reflexivity.
Qed.

(** The loop over any part of the table. *)
Lemma flag_loop_run (h : nat) (body_on : Z -> bool)
    (entries : list (VTFImageFlag * string)) (a : App) :
  guarded h a ->
  checks_for entries a ->
  exists g cs,
    flags_only g
    /\ length cs = length (ImageSettingsWidget.checks (viewSettings a))
    /\ for_each entries (fun entry =>
         flagChecks_setChecked (flag_value (fst entry))
                               (body_on (flag_value (fst entry)))) a
       = Ok (tt, flags_synced h g cs a).
Proof.
  revert a. induction entries as [|entry rest IH]; intros a Hg Hready.
  - exists (fun f => f), (ImageSettingsWidget.checks (viewSettings a)).
    split; [apply flags_only_id|]. split; [reflexivity|].
    cbn. unfold ret. now rewrite flags_synced_nothing.
  - destruct (Hready entry (or_introl eq_refl)) as (i & Hi & Hlt).
    destruct (flagChecks_setChecked_run h _ (body_on (flag_value (fst entry))) a i
                Hg Hi Hlt) as (g1 & cs1 & Hg1 & Hlen1 & Hrun1).
    destruct (IH (flags_synced h g1 cs1 a)) as (g2 & cs2 & Hg2 & Hlen2 & Hrun2).
    + now apply guarded_flags_synced.
    + intros e He. destruct (Hready e (or_intror He)) as (j & Hj & Hjlt).
      exists j. split; [exact Hj|]. cbn. now rewrite Hlen1.
    + exists (g2 ∘ g1), cs2. split; [now apply flags_only_compose|].
      split; [cbn in Hlen2; congruence|].
      cbn [for_each]. erewrite bind_run by exact Hrun1.
      rewrite Hrun2. now rewrite flags_synced_twice.
Qed.

Lemma sync_flags_run (h : nat) (flags : Z) (a : App) :
  guarded h a ->
  checks_for TEXTURE_FLAGS a ->
  exists g cs,
    flags_only g
    /\ length cs = length (ImageSettingsWidget.checks (viewSettings a))
    /\ sync_flags flags a = Ok (tt, flags_synced h g cs a).
Proof.
  intros Hg Hready.
  exact (flag_loop_run h (fun flag => negb (Z.land flags flag =? 0)) _ a Hg Hready).
Qed.

End FlagLoop.

(** [set_vtf] on a live file, in full. *)
Lemma ImageSettingsWidget_set_vtf_total `{Env} (h : nat) (a : App) :
  live h a ->
  checks_for TEXTURE_FLAGS a ->
  exists g cs,
    flags_only g
    /\ length cs = length (ImageSettingsWidget.checks (viewSettings a))
    /\ ImageSettingsWidget_set_vtf (Some h) a =
       Ok (tt, with_viewSettings (ImageSettingsWidget.set_settingFile_ false)
                 (flags_synced h g cs (sync_boxes h a))).
Proof.
  intros Hl Hready.
  assert (Hg : guarded h (sync_boxes h a)) by (unfold sync_boxes; eauto 12 with vtf).
  destruct (sync_flags_run h (GetFlags (peek h (sync_boxes h a))) (sync_boxes h a) Hg)
    as (g & cs & Hflags & Hlen & Hrun); [exact Hready|].
  exists g, cs. split; [exact Hflags|]. split; [exact Hlen|].
  rewrite ImageSettingsWidget_set_vtf_run by exact Hl.
  erewrite bind_run by exact Hrun. reflexivity.
Qed.

(** ** The other subscribers *)

Lemma is_Some_insert_keep (m : gmap string Text) (i k : string) (x : Text) :
  is_Some (m !! k) -> is_Some (<[ i := x ]> m !! k).
Proof.
  intros Hk. rewrite lookup_insert. destruct (decide (i = k)); [eauto|exact Hk].
Qed.

Lemma find_setText_run (name : string) (t : Text) (a : App) :
  is_Some (InfoWidget.fields_ (infoWidget a) !! name) ->
  find_setText name t a =
  Ok (tt, with_infoWidget (fun w =>
            {| InfoWidget.fields_ := <[ name := t ]> (InfoWidget.fields_ w) |}) a).
Proof.
  intros [old Hold]. unfold find_setText, bind, gets. cbn. now rewrite Hold.
Qed.

Lemma live_with_infoWidget h g a : live h a -> live h (with_infoWidget g a).
Proof. exact (fun H => H). Qed.

Lemma with_infoWidget_twice g1 g2 a :
  with_infoWidget g2 (with_infoWidget g1 a) = with_infoWidget (fun w => g2 (g1 w)) a.
Proof. reflexivity. Qed.

#[local] Hint Resolve live_with_infoWidget is_Some_insert_keep : vtf.

Section Subscribers.
Context `{Env}.

(** [update_info] on a live file rewrites the info panel's fields and
    nothing else. *)
Lemma update_info_run (h : nat) (a : App) :
  live h a ->
  (forall name, In name (FILE_FIELDS ++ INFO_FIELDS) ->
     is_Some (InfoWidget.fields_ (infoWidget a) !! name)) ->
  exists g,
    update_info (Some h) a = Ok (tt, with_infoWidget g a)
    /\ forall name, is_Some (InfoWidget.fields_ (infoWidget a) !! name) ->
                    is_Some (InfoWidget.fields_ (g (infoWidget a)) !! name).
Proof.
  intros Hl Hready.
  assert (Hf : forall name, In name (FILE_FIELDS ++ INFO_FIELDS) ->
            is_Some (InfoWidget.fields_ (infoWidget a) !! name)) by exact Hready.
  eexists. split.
  - unfold update_info.
    repeat (erewrite bind_run by (apply deref_live; eauto 12 with vtf);
            first [ erewrite bind_run
                      by (apply find_setText_run; cbn;
                          repeat apply is_Some_insert_keep; apply Hf; cbn; tauto)
                  | rewrite find_setText_run
                      by (cbn; repeat apply is_Some_insert_keep; apply Hf; cbn; tauto) ]).
    rewrite !with_infoWidget_twice. reflexivity.
  - intros name Hname. cbn. repeat apply is_Some_insert_keep. exact Hname.
Qed.

End Subscribers.

Lemma with_resList_same (a : App) : with_resList (fun r => r) a = a.
Proof. now destruct a. Qed.

Lemma with_resList_twice g1 g2 a :
  with_resList g2 (with_resList g1 a) = with_resList (fun r => g2 (g1 r)) a.
Proof. reflexivity. Qed.

Lemma live_with_resList h g a : live h a -> live h (with_resList g a).
Proof. exact (fun H => H). Qed.

Lemma live_view_reset h k a : live h a -> live h (view_reset k a).
Proof. exact (fun H => H). Qed.

Lemma live_with_log h g a : live h a -> live h (with_log g a).
Proof. exact (fun H => H). Qed.

#[local] Hint Resolve live_with_resList live_view_reset live_with_log : vtf.

Section MoreSubscribers.
Context `{Env}.

(** A loop whose body touches the table only touches the table only. *)
Lemma for_each_resList {A} (h : nat) (body : A -> M unit) (xs : list A) (a : App) :
  (forall x a, live h a -> exists g, body x a = Ok (tt, with_resList g a)) ->
  live h a ->
  exists g, for_each xs body a = Ok (tt, with_resList g a).
Proof.
  intros Hbody. revert a. induction xs as [|x rest IH]; intros a Hl.
  - exists (fun r => r). cbn. unfold ret. now rewrite with_resList_same.
  - destruct (Hbody x a Hl) as (g1 & Hrun1).
    destruct (IH (with_resList g1 a)) as (g2 & Hrun2); [exact Hl|].
    exists (fun r => g2 (g1 r)). cbn [for_each].
    erewrite bind_run by exact Hrun1. exact Hrun2.
Qed.

Lemma ResourceWidget_set_vtf_run (h : nat) (a : App) :
  live h a ->
  exists g, ResourceWidget_set_vtf (Some h) a = Ok (tt, with_resList g a).
Proof.
  intros Hl. unfold ResourceWidget_set_vtf.
  erewrite bind_run by apply modify_run.
  erewrite bind_run by (apply deref_live; exact Hl).
  match goal with |- context [for_each ?xs ?body (with_resList ?g1 a)] =>
    destruct (for_each_resList h body xs (with_resList g1 a)) as (g2 & Hrun);
      [|exact Hl|exists (fun r => g2 (g1 r)); exact Hrun]
  end.
  intros i a1 Hl1. eexists.
  erewrite bind_run by (apply deref_live; exact Hl1).
  erewrite bind_run by (apply deref_live; exact Hl1).
  apply modify_run.
Qed.

Lemma ImageViewWidget_set_vtf_run (h : nat) (a : App) :
  live h a ->
  ImageViewWidget_set_vtf (Some h) a = Ok (tt, view_reset h a).
Proof.
  intros Hl. unfold ImageViewWidget_set_vtf, view_reset.
  do 6 (erewrite bind_run by apply modify_run).
  erewrite bind_run by (apply deref_live; exact Hl).
  erewrite bind_run by apply gets_run.
  cbv zeta. destruct (_ || _); reflexivity.
Qed.

End MoreSubscribers.

(** ** Spin boxes *)

Lemma bound_spec (b : Qt.QSpinBox) (v : Z) :
  Qt.bound b v = Z.min (Qt.maximum b) (Z.max (Qt.minimum b) v).
Proof.
  unfold Qt.bound.
  destruct (Z.ltb_spec v (Qt.minimum b)); rewrite Z.gtb_ltb;
    match goal with |- context [?x <? ?y] => destruct (Z.ltb_spec x y) end; lia.
Qed.

Lemma setValue_fst (v : Z) (b : Qt.QSpinBox) :
  fst (Qt.setValue v b) =
  {| Qt.value := Z.min (Qt.maximum b) (Z.max (Qt.minimum b) v);
     Qt.minimum := Qt.minimum b; Qt.maximum := Qt.maximum b |}.
Proof. unfold Qt.setValue. cbn. now rewrite bound_spec. Qed.

Lemma setValue_snd (v : Z) (b : Qt.QSpinBox) :
  snd (Qt.setValue v b) = negb (Qt.value (fst (Qt.setValue v b)) =? Qt.value b).
Proof. reflexivity. Qed.

Lemma setRange_fst (lo hi : Z) (b : Qt.QSpinBox) :
  fst (Qt.setRange lo hi b) =
  {| Qt.value := Z.min (Z.max lo hi) (Z.max lo (Qt.value b));
     Qt.minimum := lo; Qt.maximum := Z.max lo hi |}.
Proof.
  unfold Qt.setRange.
  assert (Hhi : (if lo <? hi then hi else lo) = Z.max lo hi)
    by (destruct (Z.ltb_spec lo hi); lia).
  rewrite Hhi, bound_spec. cbn [Qt.minimum Qt.maximum Qt.value].
  destruct (Z.eqb_spec (Z.min (Z.max lo hi) (Z.max lo (Qt.value b))) (Qt.value b))
    as [E|E].
  - cbn. now rewrite E.
  - rewrite setValue_fst. cbn [Qt.minimum Qt.maximum]. f_equal. lia.
Qed.

Lemma setRange_snd (lo hi : Z) (b : Qt.QSpinBox) :
  snd (Qt.setRange lo hi b) = negb (Qt.value (fst (Qt.setRange lo hi b)) =? Qt.value b).
Proof.
  rewrite setRange_fst. cbn [Qt.value]. unfold Qt.setRange.
  assert (Hhi : (if lo <? hi then hi else lo) = Z.max lo hi)
    by (destruct (Z.ltb_spec lo hi); lia).
  rewrite Hhi, bound_spec. cbn [Qt.minimum Qt.maximum Qt.value].
  destruct (Z.eqb_spec (Z.min (Z.max lo hi) (Z.max lo (Qt.value b))) (Qt.value b))
    as [E|E]; [reflexivity|].
  rewrite setValue_snd, setValue_fst. cbn [Qt.minimum Qt.maximum Qt.value].
  f_equal. f_equal. lia.
Qed.

Lemma setValue_reports_changes v : reports_changes (Qt.setValue v).
Proof.
  intros b. rewrite setValue_snd. intros E%negb_false_iff. now apply Z.eqb_eq.
Qed.

Lemma setRange_reports_changes lo hi : reports_changes (Qt.setRange lo hi).
Proof.
  intros b. rewrite setRange_snd. intros E%negb_false_iff. now apply Z.eqb_eq.
Qed.

(** ** The image view follows the spin boxes *)

Lemma selection_synced_frame_step op a :
  reports_changes op -> selection_synced a -> selection_synced (frame_step op a).
Proof.
  unfold selection_synced, view_selection, selection, frame_step.
  intros Hop [= Hfr Hfa Hmi]. cbn.
  specialize (Hop (ImageSettingsWidget.frame_ (viewSettings a))).
  destruct (snd (op _)); cbn; rewrite ?Hfa, ?Hmi; [reflexivity|].
  now rewrite Hop, Hfr.
Qed.

Lemma selection_synced_mip_step op a :
  reports_changes op -> selection_synced a -> selection_synced (mip_step op a).
Proof.
  unfold selection_synced, view_selection, selection, mip_step.
  intros Hop [= Hfr Hfa Hmi]. cbn.
  specialize (Hop (ImageSettingsWidget.mip_ (viewSettings a))).
  destruct (snd (op _)); cbn; rewrite ?Hfa, ?Hfr; [reflexivity|].
  now rewrite Hop, Hmi.
Qed.

Lemma selection_synced_face_step op a :
  reports_changes op -> selection_synced a -> selection_synced (face_step op a).
Proof.
  unfold selection_synced, view_selection, selection, face_step.
  intros Hop [= Hfr Hfa Hmi]. cbn.
  specialize (Hop (ImageSettingsWidget.face_ (viewSettings a))).
  destruct (snd (op _)); cbn; rewrite ?Hmi, ?Hfr; [reflexivity|].
  now rewrite Hop, Hfa.
Qed.

Lemma selection_synced_startFrame_step h op a :
  selection_synced a -> selection_synced (startFrame_step h op a).
Proof. exact (fun H => H). Qed.

#[local] Hint Resolve setValue_reports_changes setRange_reports_changes
  selection_synced_frame_step selection_synced_mip_step selection_synced_face_step
  selection_synced_startFrame_step : vtf.

(** The spin-box part of [set_vtf] keeps view and boxes in step. *)
Lemma selection_synced_sync_boxes h a :
  selection_synced a -> selection_synced (sync_boxes h a).
Proof.
  intros Hs. unfold sync_boxes. cbv zeta.
  apply selection_synced_startFrame_step.
  apply selection_synced_face_step; [apply setRange_reports_changes|].
  apply selection_synced_frame_step; [apply setRange_reports_changes|].
  apply selection_synced_mip_step; [apply setRange_reports_changes|].
  apply selection_synced_face_step; [apply setValue_reports_changes|].
  apply selection_synced_frame_step; [apply setValue_reports_changes|].
  apply selection_synced_mip_step; [apply setValue_reports_changes|].
  apply selection_synced_startFrame_step.
  exact Hs.
Qed.

(** ** What the spin boxes hold after synchronisation *)

Lemma reads_live h f a : reads h f a -> live h a.
Proof. unfold reads, live. eauto. Qed.

Lemma reads_peek h f a : reads h f a -> peek h a = f.
Proof. unfold reads, peek. now intros ->. Qed.

Lemma SetStartFrame_same (f : CVTFFile) : SetStartFrame (GetStartFrame f) f = f.
Proof. now destruct f. Qed.

(** Writing the start frame the file already has changes nothing. *)
Lemma reads_startFrame_step h f op a :
  reads h f a ->
  (snd (op (ImageSettingsWidget.startFrame_ (viewSettings a))) = true ->
   to_uint (Qt.value (fst (op (ImageSettingsWidget.startFrame_ (viewSettings a)))))
   = GetStartFrame f) ->
  reads h f (startFrame_step h op a).
Proof.
  unfold reads, startFrame_step. intros Hr Hsame. cbn.
  destruct (snd (op _)); [|exact Hr].
  rewrite lookup_alter_eq, Hr, Hsame by reflexivity. cbn.
  now rewrite SetStartFrame_same.
Qed.

Lemma to_int_small (z : Z) : 0 <= z < 2 ^ 31 -> to_int z = z.
Proof. unfold to_int. intros Hz. rewrite Z.mod_small; lia. Qed.

Lemma to_uint_small (z : Z) : 0 <= z < 2 ^ 32 -> to_uint z = z.
Proof. unfold to_uint. intros Hz. now rewrite Z.mod_small. Qed.

(** The heart of the selection reset: with the start frame inside the
    ranges the frame and start-frame boxes have when the load begins and
    inside [1, frameCount], the boxes end at (startFrame, 1, 0) and the
    file is left as it was. *)
Lemma sync_boxes_selection (h : nat) (f : CVTFFile) (a : App) :
  reads h f a ->
  in_range (ImageSettingsWidget.frame_ (viewSettings a)) (GetStartFrame f) ->
  in_range (ImageSettingsWidget.startFrame_ (viewSettings a)) (GetStartFrame f) ->
  1 <= GetStartFrame f <= GetFrameCount f ->
  GetFrameCount f < 2 ^ 31 ->
  Qt.minimum (ImageSettingsWidget.mip_ (viewSettings a)) = 0
  /\ 0 <= Qt.maximum (ImageSettingsWidget.mip_ (viewSettings a)) ->
  0 <= Qt.minimum (ImageSettingsWidget.face_ (viewSettings a)) <= 1
  /\ 1 <= Qt.maximum (ImageSettingsWidget.face_ (viewSettings a)) ->
  reads h f (sync_boxes h a)
  /\ selection (sync_boxes h a) = (GetStartFrame f, 1, 0)
  /\ Qt.value (ImageSettingsWidget.startFrame_ (viewSettings (sync_boxes h a)))
     = GetStartFrame f.
Proof.
  intros Hr Hfr Hsf Hin Hfc [Hm0 Hm1] [Hc0 Hc1].
  unfold in_range in *.
  assert (Hi : to_int (GetStartFrame f) = GetStartFrame f) by (apply to_int_small; lia).
  assert (Hc : to_int (GetFrameCount f) = GetFrameCount f) by (apply to_int_small; lia).
  unfold sync_boxes. cbv zeta.
  set (a0 := with_viewSettings _ (with_viewSettings _ a)).
  assert (R0 : reads h f a0) by exact Hr.
  rewrite (reads_peek _ _ _ R0), Hi.
  set (a1 := startFrame_step h _ a0).
  assert (R1 : reads h f a1).
  { apply reads_startFrame_step; [exact R0|]. intros _.
    rewrite setValue_fst. cbn. rewrite Z.max_r by lia. rewrite Z.min_r by lia.
    apply to_uint_small. lia. }
  set (a2 := mip_step _ a1).
  assert (R2 : reads h f a2) by exact R1.
  rewrite (reads_peek _ _ _ R2), Hi.
  set (a3 := frame_step _ a2).
  set (a4 := face_step _ a3).
  assert (R4 : reads h f a4) by exact R1.
  rewrite (reads_peek _ _ _ R4).
  set (a5 := mip_step _ a4).
  assert (R5 : reads h f a5) by exact R1.
  rewrite (reads_peek _ _ _ R5), Hc.
  set (a6 := frame_step _ a5).
  assert (R6 : reads h f a6) by exact R1.
  rewrite (reads_peek _ _ _ R6).
  set (a7 := face_step _ a6).
  assert (R7 : reads h f a7) by exact R1.
  rewrite (reads_peek _ _ _ R7), Hc.
  assert (Hstart : ImageSettingsWidget.startFrame_ (viewSettings a7)
                   = fst (Qt.setValue (GetStartFrame f)
                            (ImageSettingsWidget.startFrame_ (viewSettings a))))
    by reflexivity.
  split; [|split].
  - apply reads_startFrame_step; [exact R7|].
    rewrite setRange_snd, setRange_fst, Hstart, setValue_fst. cbn.
    intros E%negb_true_iff%Z.eqb_neq. lia.
  - unfold selection, startFrame_step. cbn -[Qt.setValue Qt.setRange].
    rewrite !setRange_fst, !setValue_fst. cbn. f_equal; [f_equal|]; lia.
  - unfold startFrame_step. cbn -[Qt.setValue Qt.setRange].
    rewrite setRange_fst, setValue_fst. cbn. lia.
Qed.

(** ** Zoom and pan *)

Lemma view_transform_frame_step op a : view_transform (frame_step op a) = view_transform a.
Proof. unfold view_transform, frame_step. cbn. now destruct (snd (op _)). Qed.

Lemma view_transform_mip_step op a : view_transform (mip_step op a) = view_transform a.
Proof. unfold view_transform, mip_step. cbn. now destruct (snd (op _)). Qed.

Lemma view_transform_face_step op a : view_transform (face_step op a) = view_transform a.
Proof. unfold view_transform, face_step. cbn. now destruct (snd (op _)). Qed.

Lemma view_transform_startFrame_step h op a :
  view_transform (startFrame_step h op a) = view_transform a.
Proof. reflexivity. Qed.

Lemma view_transform_sync_boxes h a : view_transform (sync_boxes h a) = view_transform a.
Proof.
  unfold sync_boxes. cbv zeta.
  rewrite view_transform_startFrame_step.
  rewrite view_transform_face_step, view_transform_frame_step, view_transform_mip_step,
    view_transform_face_step, view_transform_frame_step, view_transform_mip_step.
  rewrite view_transform_startFrame_step.
  reflexivity.
Qed.

Lemma view_transform_view_reset h a : view_transform (view_reset h a) = (1%Q, (0, 0)).
Proof. unfold view_transform, view_reset. cbn. now destruct (_ || _). Qed.

Lemma view_selection_view_reset h a : view_selection (view_reset h a) = view_selection a.
Proof. unfold view_selection, view_reset. cbn. now destruct (_ || _). Qed.

(** ** The broadcast and the load *)

Section Broadcast.
Context `{Env}.

Lemma emit_vtfFileChanged_run (h : nat) (a : App) :
  live h a ->
  widgets_ready a ->
  exists gi gr g cs,
    flags_only g
    /\ length cs = length (ImageSettingsWidget.checks (viewSettings a))
    /\ (forall name, is_Some (InfoWidget.fields_ (infoWidget a) !! name) ->
                     is_Some (InfoWidget.fields_ (gi (infoWidget a)) !! name))
    /\ emit_vtfFileChanged connected (Some h) a = Ok (tt, told h gi gr g cs a).
Proof.
  intros Hl [Hfields Hchecks _ _].
  set (a1 := with_log (cons (vtfFileChanged (Some h))) a).
  destruct (update_info_run h a1 Hl Hfields) as (gi & Hinfo & Hkeep).
  destruct (ResourceWidget_set_vtf_run h (with_infoWidget gi a1) Hl) as (gr & Hres).
  destruct (ImageSettingsWidget_set_vtf_total h (before_settings h gi gr a) Hl Hchecks)
    as (g & cs & Hg & Hlen & Hset).
  exists gi, gr, g, cs. split; [exact Hg|]. split; [exact Hlen|]. split; [exact Hkeep|].
  unfold emit_vtfFileChanged, connected. cbn [for_each].
  erewrite bind_run by apply modify_run.
  erewrite bind_run by exact Hinfo.
  erewrite bind_run by exact Hres.
  erewrite bind_run by (apply ImageViewWidget_set_vtf_run; exact Hl).
  erewrite bind_run by exact Hset.
  reflexivity.
Qed.

Lemma load_file_buffer_run (data : list Z) (f : CVTFFile) (a : App) :
  CVTFFile_Load data = Some f ->
  widgets_ready a ->
  exists gi gr g cs,
    flags_only g
    /\ length cs = length (ImageSettingsWidget.checks (viewSettings a))
    /\ (forall name, is_Some (InfoWidget.fields_ (infoWidget a) !! name) ->
                     is_Some (InfoWidget.fields_ (gi (infoWidget a)) !! name))
    /\ load_file_buffer connected data a =
       Ok (true, with_window (ViewerMainWindow.set_path_ "")
                   (with_window (ViewerMainWindow.set_file_ (Some (next_file a)))
                      (told (next_file a) gi gr g cs (opened f a)))).
Proof.
  intros Hload Hready.
  assert (Hl : live (next_file a) (opened f a)).
  { unfold live, opened. cbn. rewrite lookup_insert_eq. eauto. }
  destruct (emit_vtfFileChanged_run (next_file a) (opened f a) Hl) as
    (gi & gr & g & cs & Hg & Hlen & Hkeep & Hrun).
  { destruct Hready as [Hf Hc Hm Hfa]. split; assumption. }
  exists gi, gr, g, cs. split; [exact Hg|]. split; [exact Hlen|]. split; [exact Hkeep|].
  unfold load_file_buffer.
  erewrite bind_run by reflexivity.
  erewrite bind_run by apply modify_run.
  rewrite Hload.
  erewrite bind_run.
  2:{ unfold mutate. erewrite bind_run.
      2:{ apply deref_live. unfold live. cbn. rewrite lookup_insert_eq. eauto. }
      apply modify_run. }
  erewrite bind_run by apply gets_run.
  unfold load_file_vtf.
  erewrite bind_run by exact Hrun.
  erewrite bind_run by apply modify_run.
  erewrite bind_run by apply modify_run.
  reflexivity.
Qed.

End Broadcast.

(** ** What the synchronisation leaves alone *)

Lemma settings_only_refl a : settings_only a a.
Proof. unfold settings_only. tauto. Qed.

Lemma settings_only_trans a b c :
  settings_only a b -> settings_only b c -> settings_only a c.
Proof.
  unfold settings_only.
  intros (H1 & H2 & H3 & H4 & H5 & H6 & H7) (K1 & K2 & K3 & K4 & K5 & K6 & K7).
  repeat match goal with |- _ /\ _ => split end; congruence.
Qed.

Ltac settings_only_by_computation :=
  unfold settings_only;
  repeat match goal with |- _ /\ _ => split end; reflexivity.

Lemma settings_only_frame_step op a : settings_only a (frame_step op a).
Proof. settings_only_by_computation. Qed.

Lemma settings_only_mip_step op a : settings_only a (mip_step op a).
Proof. settings_only_by_computation. Qed.

Lemma settings_only_face_step op a : settings_only a (face_step op a).
Proof. settings_only_by_computation. Qed.

Lemma settings_only_startFrame_step h op a : settings_only a (startFrame_step h op a).
Proof. settings_only_by_computation. Qed.

Lemma settings_only_guard b a :
  settings_only a (with_viewSettings (ImageSettingsWidget.set_settingFile_ b) a).
Proof. settings_only_by_computation. Qed.

Lemma settings_only_file p a :
  settings_only a (with_viewSettings (ImageSettingsWidget.set_file_ p) a).
Proof. settings_only_by_computation. Qed.

Lemma settings_only_sync_boxes h a : settings_only a (sync_boxes h a).
Proof.
  unfold sync_boxes. cbv zeta.
  eapply settings_only_trans; [|apply settings_only_startFrame_step].
  eapply settings_only_trans; [|apply settings_only_face_step].
  eapply settings_only_trans; [|apply settings_only_frame_step].
  eapply settings_only_trans; [|apply settings_only_mip_step].
  eapply settings_only_trans; [|apply settings_only_face_step].
  eapply settings_only_trans; [|apply settings_only_frame_step].
  eapply settings_only_trans; [|apply settings_only_mip_step].
  eapply settings_only_trans; [|apply settings_only_startFrame_step].
  eapply settings_only_trans; [apply settings_only_guard|apply settings_only_file].
Qed.

Lemma settings_only_flags_synced h g cs a :
  length cs = length (ImageSettingsWidget.checks (viewSettings a)) ->
  settings_only a (flags_synced h g cs a).
Proof.
  intros Hlen. unfold settings_only.
  repeat match goal with |- _ /\ _ => split end; try reflexivity. exact Hlen.
Qed.

(** The whole of [set_vtf] on a live file. *)
Lemma ImageSettingsWidget_set_vtf_settings_only `{Env} (h : nat) (a : App) :
  live h a ->
  checks_for TEXTURE_FLAGS a ->
  exists a',
    ImageSettingsWidget_set_vtf (Some h) a = Ok (tt, a')
    /\ settings_only a a'
    /\ ImageSettingsWidget.settingFile_ (viewSettings a') = false.
Proof.
  intros Hl Hready.
  destruct (ImageSettingsWidget_set_vtf_total h a Hl Hready)
    as (g & cs & _ & Hlen & Hrun).
  eexists. split; [exact Hrun|]. split; [|reflexivity].
  eapply settings_only_trans; [apply settings_only_sync_boxes|].
  eapply settings_only_trans; [|apply settings_only_guard].
  apply settings_only_flags_synced.
  destruct (settings_only_sync_boxes h a) as (_ & _ & _ & _ & _ & _ & Hl8).
  congruence.
Qed.

Lemma settings_only_told h gi gr g cs a :
  length cs = length (ImageSettingsWidget.checks (viewSettings a)) ->
  settings_only (before_settings h gi gr a) (told h gi gr g cs a).
Proof.
  intros Hlen. unfold told.
  eapply settings_only_trans; [apply settings_only_sync_boxes|].
  eapply settings_only_trans; [|apply settings_only_guard].
  apply settings_only_flags_synced.
  destruct (settings_only_sync_boxes h (before_settings h gi gr a))
    as (_ & _ & _ & _ & _ & _ & Hl8).
  rewrite Hl8. exact Hlen.
Qed.

(** ** Projections of the state after a load *)

Lemma selection_settled b h g cs x :
  selection (with_viewSettings (ImageSettingsWidget.set_settingFile_ b)
               (flags_synced h g cs x)) = selection x.
Proof. reflexivity. Qed.

Lemma view_selection_settled b h g cs x :
  view_selection (with_viewSettings (ImageSettingsWidget.set_settingFile_ b)
                    (flags_synced h g cs x)) = view_selection x.
Proof. reflexivity. Qed.

Lemma view_transform_settled b h g cs x :
  view_transform (with_viewSettings (ImageSettingsWidget.set_settingFile_ b)
                    (flags_synced h g cs x)) = view_transform x.
Proof. reflexivity. Qed.

Lemma heap_settled b h g cs x :
  heap (with_viewSettings (ImageSettingsWidget.set_settingFile_ b)
          (flags_synced h g cs x)) = alter g h (heap x).
Proof. reflexivity. Qed.

Lemma boxes_settled b h g cs x :
  ImageSettingsWidget.mip_
    (viewSettings (with_viewSettings (ImageSettingsWidget.set_settingFile_ b)
                     (flags_synced h g cs x)))
  = ImageSettingsWidget.mip_ (viewSettings x)
  /\ ImageSettingsWidget.face_
       (viewSettings (with_viewSettings (ImageSettingsWidget.set_settingFile_ b)
                        (flags_synced h g cs x)))
     = ImageSettingsWidget.face_ (viewSettings x).
Proof. split; reflexivity. Qed.

Lemma infoWidget_with_window w x : infoWidget (with_window w x) = infoWidget x.
Proof. reflexivity. Qed.

Lemma viewSettings_with_window w x : viewSettings (with_window w x) = viewSettings x.
Proof. reflexivity. Qed.

Lemma selection_with_window w x : selection (with_window w x) = selection x.
Proof. reflexivity. Qed.

Lemma view_selection_with_window w x : view_selection (with_window w x) = view_selection x.
Proof. reflexivity. Qed.

Lemma view_transform_with_window w x : view_transform (with_window w x) = view_transform x.
Proof. reflexivity. Qed.

Lemma selection_told h gi gr g cs a :
  selection (told h gi gr g cs a) = selection (sync_boxes h (before_settings h gi gr a)).
Proof. unfold told. apply selection_settled. Qed.

Lemma view_selection_told h gi gr g cs a :
  view_selection (told h gi gr g cs a)
  = view_selection (sync_boxes h (before_settings h gi gr a)).
Proof. unfold told. apply view_selection_settled. Qed.

Lemma view_transform_told h gi gr g cs a :
  view_transform (told h gi gr g cs a)
  = view_transform (sync_boxes h (before_settings h gi gr a)).
Proof. unfold told. apply view_transform_settled. Qed.

Lemma heap_told h gi gr g cs a :
  heap (told h gi gr g cs a)
  = alter g h (heap (sync_boxes h (before_settings h gi gr a))).
Proof. unfold told. apply heap_settled. Qed.

Lemma reads_before_settings h gi gr f a :
  reads h f a -> reads h f (before_settings h gi gr a).
Proof. exact (fun H => H). Qed.

Lemma selection_before_settings h gi gr a :
  selection (before_settings h gi gr a) = selection a.
Proof. reflexivity. Qed.

Lemma selection_synced_before_settings h gi gr a :
  selection_synced a -> selection_synced (before_settings h gi gr a).
Proof.
  unfold selection_synced, before_settings. rewrite view_selection_view_reset.
  exact (fun H => H).
Qed.

Lemma view_transform_before_settings h gi gr a :
  view_transform (before_settings h gi gr a) = (1%Q, (0, 0)).
Proof. unfold before_settings. apply view_transform_view_reset. Qed.

Lemma reads_opened f a : reads (next_file a) f (opened f a).
Proof. unfold reads, opened. cbn. apply lookup_insert_eq. Qed.

(** Reading the document through the window's handle after a load. *)
Lemma deref_loaded (h : nat) (f : CVTFFile) (p : string) (x : App) :
  heap x !! h = Some f ->
  let a' := with_window (ViewerMainWindow.set_path_ p)
              (with_window (ViewerMainWindow.set_file_ (Some h)) x) in
  deref (ViewerMainWindow.file_ (window a')) a' = Ok (f, a').
Proof. intros Hf. cbv zeta. unfold deref. cbn. now rewrite Hf. Qed.

Lemma flags_only_GetStartFrame g f : flags_only g -> GetStartFrame (g f) = GetStartFrame f.
Proof. intros Hg. now rewrite (Hg f). Qed.

Section SelectionReset.
Context `{Env}.

(** The selection after a successful [load_file(data, size)]. *)
Lemma load_file_buffer_selection (data : list Z) (f : CVTFFile) (a : App) :
  CVTFFile_Load data = Some f ->
  widgets_ready a ->
  selection_synced a ->
  in_range (ImageSettingsWidget.frame_ (viewSettings a)) (GetStartFrame f) ->
  in_range (ImageSettingsWidget.startFrame_ (viewSettings a)) (GetStartFrame f) ->
  1 <= GetStartFrame f <= GetFrameCount f ->
  GetFrameCount f < 2 ^ 31 ->
  exists a',
    load_file_buffer connected data a = Ok (true, a')
    /\ selection a' = (GetStartFrame f, 1, 0)
    /\ view_selection a' = (GetStartFrame f, 1, 0)
    /\ view_transform a' = (1%Q, (0, 0))
    /\ exists f', deref (ViewerMainWindow.file_ (window a')) a' = Ok (f', a')
                  /\ GetStartFrame f' = GetStartFrame f.
Proof.
  intros Hload Hready Hsync Hfr Hsf Hin Hfc.
  destruct (load_file_buffer_run data f a Hload Hready)
    as (gi & gr & g & cs & Hg & Hlen & Hkeep & Hrun).
  eexists. split; [exact Hrun|].
  pose proof (reads_before_settings (next_file a) gi gr f _ (reads_opened f a)) as Hrx.
  assert (Hsx : selection_synced (before_settings (next_file a) gi gr (opened f a)))
    by (apply selection_synced_before_settings; exact Hsync).
  destruct (sync_boxes_selection (next_file a) f
              (before_settings (next_file a) gi gr (opened f a)) Hrx Hfr Hsf Hin Hfc
              (ready_mip a Hready) (ready_face a Hready)) as (Hr8 & Hsel & _).
  split; [|split; [|split]].
  - rewrite !selection_with_window, selection_told. exact Hsel.
  - rewrite !view_selection_with_window, view_selection_told, <- Hsel.
    exact (selection_synced_sync_boxes _ _ Hsx).
  - rewrite !view_transform_with_window, view_transform_told,
      view_transform_sync_boxes.
    apply view_transform_before_settings.
  - exists (g f). split; [|now apply flags_only_GetStartFrame].
    apply deref_loaded. rewrite heap_told, lookup_alter_eq.
    unfold reads in Hr8. now rewrite Hr8.
Qed.

End SelectionReset.

(** ** The last thing done to the mip and face boxes *)

Lemma mip_of_startFrame_step h op a :
  ImageSettingsWidget.mip_ (viewSettings (startFrame_step h op a))
  = ImageSettingsWidget.mip_ (viewSettings a).
Proof. reflexivity. Qed.

Lemma mip_of_face_step op a :
  ImageSettingsWidget.mip_ (viewSettings (face_step op a))
  = ImageSettingsWidget.mip_ (viewSettings a).
Proof. reflexivity. Qed.

Lemma mip_of_frame_step op a :
  ImageSettingsWidget.mip_ (viewSettings (frame_step op a))
  = ImageSettingsWidget.mip_ (viewSettings a).
Proof. reflexivity. Qed.

Lemma mip_of_mip_step op a :
  ImageSettingsWidget.mip_ (viewSettings (mip_step op a))
  = fst (op (ImageSettingsWidget.mip_ (viewSettings a))).
Proof. reflexivity. Qed.

Lemma face_of_startFrame_step h op a :
  ImageSettingsWidget.face_ (viewSettings (startFrame_step h op a))
  = ImageSettingsWidget.face_ (viewSettings a).
Proof. reflexivity. Qed.

Lemma face_of_face_step op a :
  ImageSettingsWidget.face_ (viewSettings (face_step op a))
  = fst (op (ImageSettingsWidget.face_ (viewSettings a))).
Proof. reflexivity. Qed.

Lemma sync_boxes_mip h a :
  exists hi b,
    ImageSettingsWidget.mip_ (viewSettings (sync_boxes h a)) = fst (Qt.setRange 0 hi b).
Proof.
  unfold sync_boxes. cbv zeta.
  rewrite mip_of_startFrame_step, mip_of_face_step, mip_of_frame_step, mip_of_mip_step.
  eexists _, _. reflexivity.
Qed.

Lemma sync_boxes_face h a :
  exists hi b,
    ImageSettingsWidget.face_ (viewSettings (sync_boxes h a)) = fst (Qt.setRange 1 hi b).
Proof.
  unfold sync_boxes. cbv zeta.
  rewrite face_of_startFrame_step, face_of_face_step.
  eexists _, _. reflexivity.
Qed.

(** ** Readiness is established by [setup_ui] and kept by loads *)

Section Readiness.
Context `{Env}.

Lemma add_check_bounded s entry : checks_bounded s -> checks_bounded (add_check s entry).
Proof.
  intros Hb k i. unfold add_check, flagChecks_insert. cbn.
  rewrite length_app. cbn.
  destruct (ImageSettingsWidget.flagChecks_ s !! flag_value (fst entry)) eqn:E.
  - intros Hk. specialize (Hb k i Hk). lia.
  - rewrite lookup_insert. destruct (decide (flag_value (fst entry) = k)).
    + intros [= <-]. lia.
    + intros Hk. specialize (Hb k i Hk). lia.
Qed.

Lemma add_check_keeps s entry k :
  is_Some (ImageSettingsWidget.flagChecks_ s !! k) ->
  is_Some (ImageSettingsWidget.flagChecks_ (add_check s entry) !! k).
Proof.
  unfold add_check, flagChecks_insert. cbn.
  destruct (ImageSettingsWidget.flagChecks_ s !! flag_value (fst entry)) eqn:E;
    [auto|].
  intros Hk. rewrite lookup_insert. destruct (decide _); [eauto|exact Hk].
Qed.

Lemma add_check_registers s entry :
  is_Some (ImageSettingsWidget.flagChecks_ (add_check s entry) !! flag_value (fst entry)).
Proof.
  unfold add_check, flagChecks_insert. cbn.
  destruct (ImageSettingsWidget.flagChecks_ s !! flag_value (fst entry)) eqn:E.
  - rewrite E. eauto.
  - rewrite lookup_insert_eq. eauto.
Qed.

Lemma add_checks_keep entries s k :
  is_Some (ImageSettingsWidget.flagChecks_ s !! k) ->
  is_Some (ImageSettingsWidget.flagChecks_ (foldl add_check s entries) !! k).
Proof.
  revert s. induction entries as [|e rest IH]; intros s Hk; [exact Hk|].
  cbn. apply IH. now apply add_check_keeps.
Qed.

Lemma add_checks_ready entries s :
  checks_bounded s ->
  checks_bounded (foldl add_check s entries)
  /\ forall entry, In entry entries ->
       is_Some (ImageSettingsWidget.flagChecks_ (foldl add_check s entries)
                  !! flag_value (fst entry)).
Proof.
  revert s. induction entries as [|e rest IH]; intros s Hb.
  - split; [exact Hb|]. intros entry [].
  - cbn [foldl]. destruct (IH (add_check s e) (add_check_bounded s e Hb)) as [Hb' Hin].
    split; [exact Hb'|]. intros entry [<-|Hrest]; [|now apply Hin].
    apply add_checks_keep, add_check_registers.
Qed.

(** A freshly constructed viewer is ready, whatever the flag constants. *)
Lemma widgets_ready_App_new : widgets_ready App_new.
Proof.
  split.
  - intros name Hname. cbn in Hname.
    repeat (destruct Hname as [<-|Hname]; [vm_compute; eauto|]). destruct Hname.
  - intros entry Hentry. cbn [App_new viewSettings].
    unfold ImageSettingsWidget_setup_ui.
    change (foldl _ ?s TEXTURE_FLAGS) with (foldl add_check s TEXTURE_FLAGS).
    match goal with |- context [foldl add_check ?s _] =>
      destruct (add_checks_ready TEXTURE_FLAGS s) as [Hb Hin]
    end.
    { intros k i. cbn. rewrite lookup_empty. discriminate. }
    destruct (Hin entry Hentry) as [i Hi]. exists i. split; [exact Hi|].
    exact (Hb _ _ Hi).
  - cbn [App_new viewSettings]. unfold ImageSettingsWidget_setup_ui.
    change (foldl _ ?s TEXTURE_FLAGS) with (foldl add_check s TEXTURE_FLAGS).
    cbn. lia.
  - cbn [App_new viewSettings]. unfold ImageSettingsWidget_setup_ui.
    change (foldl _ ?s TEXTURE_FLAGS) with (foldl add_check s TEXTURE_FLAGS).
    cbn. lia.
Qed.

Lemma widgets_ready_with_heap g a : widgets_ready a -> widgets_ready (with_heap g a).
Proof. intros [H1 H2 H3 H4]. split; [exact H1|exact H2|exact H3|exact H4]. Qed.

Lemma widgets_ready_with_window g a : widgets_ready a -> widgets_ready (with_window g a).
Proof. intros [H1 H2 H3 H4]. split; [exact H1|exact H2|exact H3|exact H4]. Qed.

Lemma selection_synced_App_new : selection_synced App_new.
Proof. reflexivity. Qed.

(** A successful load leaves the widgets ready and in step. *)
Lemma load_file_buffer_keeps_ready (data : list Z) (f : CVTFFile) (a : App) :
  CVTFFile_Load data = Some f ->
  widgets_ready a ->
  exists a',
    load_file_buffer connected data a = Ok (true, a')
    /\ widgets_ready a'
    /\ (selection_synced a -> selection_synced a').
Proof.
  intros Hload Hready.
  destruct (load_file_buffer_run data f a Hload Hready)
    as (gi & gr & g & cs & Hg & Hlen & Hkeep & Hrun).
  eexists. split; [exact Hrun|].
  destruct (settings_only_told (next_file a) gi gr g cs (opened f a) Hlen)
    as (_ & _ & Hinfo & _ & _ & Hfc & Hcl).
  destruct Hready as [Hf Hc Hm Hfa].
  split; [split|].
  - intros name Hname. rewrite !infoWidget_with_window, Hinfo.
    apply Hkeep, Hf, Hname.
  - intros entry Hentry. destruct (Hc entry Hentry) as (i & Hi & Hlt).
    exists i. rewrite !viewSettings_with_window, Hfc, Hcl.
    split; [exact Hi|exact Hlt].
  - rewrite !viewSettings_with_window. unfold told.
    rewrite (proj1 (boxes_settled _ _ _ _ _)).
    destruct (sync_boxes_mip (next_file a)
                (before_settings (next_file a) gi gr (opened f a))) as (hi & b & ->).
    rewrite setRange_fst. cbn. lia.
  - rewrite !viewSettings_with_window. unfold told.
    rewrite (proj2 (boxes_settled _ _ _ _ _)).
    destruct (sync_boxes_face (next_file a)
                (before_settings (next_file a) gi gr (opened f a))) as (hi & b & ->).
    rewrite setRange_fst. cbn. lia.
  - intros Hsync. unfold selection_synced.
    rewrite !view_selection_with_window, !selection_with_window,
      view_selection_told, selection_told.
    apply selection_synced_sync_boxes, selection_synced_before_settings, Hsync.
Qed.

End Readiness.

(** C3, on the code: [set_vtf] puts the start frame into the Start Frame
    and Frame boxes before it gives them the ranges of the new document,
    so both values are clipped to the ranges of the previous one.  With
    the one-frame [demo.vtf] loaded, loading an animated texture of 5
    frames whose start frame is 3 answers true and resets zoom and pan,
    but the selection is (1, 1, 0) and the Start Frame box shows 1, while
    the loaded document still has start frame 3 and both boxes now admit
    [1, 5].  The same bytes loaded into a freshly started viewer give
    (3, 1, 0): what a load leaves depends on the document before it. *)
Theorem load_clips_start_frame_to_previous_range :
  exists a1 a2 fresh,
    demo_loaded = Ok a1
    /\ CVTFFile_Load (Env := demo_env) animated_bytes = Some (demo_texture 5 3)
    /\ load_file_buffer (H := demo_env) (connected (H := demo_env)) animated_bytes a1
       = Ok (true, a2)
    /\ ViewerMainWindow.file_ (window a2) = Some 1%nat
    /\ (GetStartFrame <$> heap a2 !! 1%nat) = Some 3
    /\ (GetFrameCount <$> heap a2 !! 1%nat) = Some 5
    /\ selection a2 = (1, 1, 0)
    /\ view_selection a2 = (1, 1, 0)
    /\ Qt.value (ImageSettingsWidget.startFrame_ (viewSettings a2)) = 1
    /\ (Qt.minimum (ImageSettingsWidget.frame_ (viewSettings a2)),
        Qt.maximum (ImageSettingsWidget.frame_ (viewSettings a2))) = (1, 5)
    /\ (Qt.minimum (ImageSettingsWidget.startFrame_ (viewSettings a2)),
        Qt.maximum (ImageSettingsWidget.startFrame_ (viewSettings a2))) = (1, 5)
    /\ view_transform a2 = (1%Q, (0, 0))
    /\ load_file_buffer (H := demo_env) (connected (H := demo_env)) animated_bytes
                        (App_new (H := demo_env)) = Ok (true, fresh)
    /\ selection fresh = (3, 1, 0)
    /\ view_selection fresh = (3, 1, 0).
Proof.
  exists (state_of demo_loaded),
         (state_of (exec (load_file_buffer (H := demo_env) (connected (H := demo_env))
                            animated_bytes) demo_loaded)),
         (state_of (exec (load_file_buffer (H := demo_env) (connected (H := demo_env))
                            animated_bytes) (Ok (App_new (H := demo_env))))).
  all_computed.
Qed.

(** ** The loading guard *)

(** Outside a load the guard is down: an edit of the start-frame box that
    changes its value writes through and emits [fileModified]. *)
Lemma startFrame_edit_emits (h : nat) (op : Qt.QSpinBox -> Qt.QSpinBox * bool) (a : App) :
  ImageSettingsWidget.settingFile_ (viewSettings a) = false ->
  ImageSettingsWidget.file_ (viewSettings a) = Some h ->
  live h a ->
  snd (op (ImageSettingsWidget.startFrame_ (viewSettings a))) = true ->
  exists a',
    startFrame_box op a = Ok (tt, a')
    /\ log a' = fileModified :: log a
    /\ dirty a' = true.
Proof.
  intros Hset Hfile (f & Hf) Hchanged.
  unfold startFrame_box, drive_spin, bind, gets, modify. cbn. rewrite Hchanged.
  unfold startFrame_textChanged, bind, gets, mutate, bind, deref, modify. cbn.
  rewrite Hfile. cbn. rewrite Hf. cbn. rewrite Hset. cbn.
  unfold emit_fileModified, bind, emit_log, modify. cbn.
  unfold mark_modified, bind, modify, windowTitle, gets, setWindowTitle, ret. cbn.
  destruct (Qt.endsWith_star _); eexists; (split; [reflexivity|]); split; reflexivity.
Qed.

(** So does ticking or clearing a flag check box. *)
Lemma flag_edit_emits (h i : nat) (c : ImageSettingsWidget.FlagCheck) (a : App) :
  ImageSettingsWidget.settingFile_ (viewSettings a) = false ->
  ImageSettingsWidget.file_ (viewSettings a) = Some h ->
  live h a ->
  ImageSettingsWidget.checks (viewSettings a) !! i = Some c ->
  exists a',
    setChecked i (negb (ImageSettingsWidget.isChecked c)) a = Ok (tt, a')
    /\ log a' = fileModified :: log a
    /\ dirty a' = true.
Proof.
  intros Hset Hfile (f & Hf) Hc.
  unfold setChecked, bind, gets. cbn. rewrite Hc.
  replace (Bool.eqb _ _) with false by now destruct (ImageSettingsWidget.isChecked c).
  unfold modify, check_stateChanged, bind, gets, mutate, bind, deref, modify. cbn.
  rewrite Hfile. cbn. rewrite Hf. cbn. rewrite Hset. cbn.
  unfold emit_fileModified, bind, emit_log, modify. cbn.
  unfold mark_modified, bind, modify, windowTitle, gets, setWindowTitle, ret. cbn.
  destruct (Qt.endsWith_star _); eexists; (split; [reflexivity|]); split; reflexivity.
Qed.

(** C7: for every state of the widgets and every live document,
    [ImageSettingsWidget::set_vtf] runs to its end under the loading
    guard without a single [fileModified]: the event log is what it was,
    and so are the dirty bit and the title; the guard is down again
    afterwards.  The whole [vtfFileChanged] broadcast adds the
    [vtfFileChanged] event and nothing else. *)
Theorem loading_guard_emits_nothing `{Env} (h : nat) (a : App) :
  live h a ->
  widgets_ready a ->
  (exists a',
     ImageSettingsWidget_set_vtf (Some h) a = Ok (tt, a')
     /\ log a' = log a
     /\ filter (fun e => is_fileModified e = true) (log a')
        = filter (fun e => is_fileModified e = true) (log a)
     /\ dirty a' = dirty a
     /\ title a' = title a
     /\ ImageSettingsWidget.settingFile_ (viewSettings a') = false)
  /\
  (exists a',
     emit_vtfFileChanged connected (Some h) a = Ok (tt, a')
     /\ log a' = vtfFileChanged (Some h) :: log a
     /\ dirty a' = dirty a
     /\ title a' = title a).
Proof.
  intros Hl Hready. split.
  - destruct (ImageSettingsWidget_set_vtf_settings_only h a Hl (ready_checks a Hready))
      as (a' & Hrun & (Hlog & Hwin & _) & Hguard).
    exists a'. split; [exact Hrun|]. split; [exact Hlog|].
    split; [now rewrite Hlog|]. unfold dirty, title. rewrite Hwin.
    split; [reflexivity|]. split; [reflexivity|exact Hguard].
  - destruct (emit_vtfFileChanged_run h a Hl Hready)
      as (gi & gr & g & cs & _ & Hlen & _ & Hrun).
    destruct (settings_only_told h gi gr g cs a Hlen) as (Hlog & Hwin & _).
    eexists. split; [exact Hrun|]. unfold dirty, title. rewrite Hlog, Hwin.
    split; [reflexivity|]. split; reflexivity.
Qed.

Lemma loading_guard_emits_nothing_witness :
  let a := with_heap (insert 0%nat (demo_texture 5 3)) (App_new (H := demo_env)) in
  live 0 a
  /\ widgets_ready (H := demo_env) a
  /\ exists a',
       ImageSettingsWidget_set_vtf (H := demo_env) (Some 0%nat) a = Ok (tt, a')
       /\ log a' = log a
       /\ dirty a' = dirty a
       /\ title a' = title a.
Proof.
  cbv zeta.
  assert (Hl : live 0 (with_heap (insert 0%nat (demo_texture 5 3))
                         (App_new (H := demo_env)))).
  { unfold live. cbn. rewrite lookup_insert_eq. eauto. }
  assert (Hr : widgets_ready (H := demo_env)
                 (with_heap (insert 0%nat (demo_texture 5 3)) (App_new (H := demo_env)))).
  { apply widgets_ready_with_heap, widgets_ready_App_new. }
  split; [exact Hl|]. split; [exact Hr|].
  destruct (loading_guard_emits_nothing (H := demo_env) 0 _ Hl Hr)
    as [(a' & Hrun & Hlog & _ & Hd & Ht & _) _].
  exists a'. split; [exact Hrun|]. split; [exact Hlog|]. split; [exact Hd|exact Ht].
Defined.

(** ** Painting *)

Lemma free_run (b : nat) (a : App) :
  b ∈ buffers a -> free b a = Ok (tt, with_buffers (fun s => s ∖ {[ b ]}) a).
Proof. intros Hb. unfold free. now rewrite decide_True. Qed.

Lemma needs_decode (a : App) :
  view_selection a <> cache_key a ->
  negb (ImageViewWidget.frame_ (imageView a) =? ImageViewWidget.currentFrame_ (imageView a))
  || negb (ImageViewWidget.mip_ (imageView a) =? ImageViewWidget.currentMip_ (imageView a))
  || negb (ImageViewWidget.face_ (imageView a) =? ImageViewWidget.currentFace_ (imageView a))
  = true.
Proof.
  unfold view_selection, cache_key. intros Hne.
  destruct (Z.eqb_spec (ImageViewWidget.frame_ (imageView a))
                       (ImageViewWidget.currentFrame_ (imageView a))) as [E1|]; [|reflexivity].
  destruct (Z.eqb_spec (ImageViewWidget.mip_ (imageView a))
                       (ImageViewWidget.currentMip_ (imageView a))) as [E2|]; [|reflexivity].
  destruct (Z.eqb_spec (ImageViewWidget.face_ (imageView a))
                       (ImageViewWidget.currentFace_ (imageView a))) as [E3|]; [|reflexivity].
  exfalso. apply Hne. now rewrite E1, E2, E3.
Qed.

Lemma with_buffers_same (a : App) : with_buffers (fun s => s) a = a.
Proof. now destruct a. Qed.

Lemma free_or_skip_run (a : App) :
  (forall b, ImageViewWidget.imgBuf_ (imageView a) = Some b -> b ∈ buffers a) ->
  match ImageViewWidget.imgBuf_ (imageView a) with
  | Some old => free old
  | None => ret tt
  end a = Ok (tt, freed a).
Proof.
  intros Hbuf. unfold freed.
  destruct (ImageViewWidget.imgBuf_ (imageView a)) as [old|].
  - apply free_run, Hbuf. reflexivity.
  - unfold ret. now rewrite with_buffers_same.
Qed.

Lemma malloc_run (a : App) :
  malloc a = Ok (next_buffer a,
                 with_next_buffer (S (next_buffer a))
                   (with_buffers (fun s => {[ next_buffer a ]} ∪ s) a)).
Proof. reflexivity. Qed.

Section Painting.
Context `{Env}.

Lemma decode_format_alpha (f : CVTFFile) :
  (decode_format f = IMAGE_FORMAT_RGBA8888 <-> uiAlphaBitsPerPixel (GetFormat f) > 0)
  /\ (decode_format f = IMAGE_FORMAT_RGB888 <-> ~ uiAlphaBitsPerPixel (GetFormat f) > 0).
Proof.
  unfold decode_format, hasAlpha. rewrite Z.gtb_ltb.
  destruct (Z.ltb_spec 0 (uiAlphaBitsPerPixel (GetFormat f))); split; split;
    first [ reflexivity | discriminate | lia ].
Qed.

(** A paint that has to decode, spelled out. *)
Lemma paintEvent_decoding (a : App) (h : nat) (f : CVTFFile) :
  ImageViewWidget.file_ (imageView a) = Some h ->
  heap a !! h = Some f ->
  view_selection a <> cache_key a ->
  (forall b, ImageViewWidget.imgBuf_ (imageView a) = Some b -> b ∈ buffers a) ->
  let v := imageView a in
  let dims := ComputeMipmapDimensions (GetWidth f) (GetHeight f) (GetDepth f)
                (ImageViewWidget.mip_ v) in
  let called := Convert_called (ImageViewWidget.frame_ v) (ImageViewWidget.face_ v)
                  (ImageViewWidget.mip_ v) (GetFormat f) (decode_format f) in
  let ok := Convert (GetData f (ImageViewWidget.frame_ v) (ImageViewWidget.face_ v) 0
                       (ImageViewWidget.mip_ v))
              (fst (fst dims)) (snd (fst dims)) (GetFormat f) (decode_format f) in
  exists a',
    paintEvent a = Ok (tt, a')
    /\ if ok then
         exists at_ img,
           log a' = drawImage at_ (Some img) :: called :: log a
           /\ ImageViewWidget.image_ (imageView a') = Some img
           /\ Qt.format img = decode_format f
           /\ Qt.bits img = next_buffer a
           /\ cache_key a' = view_selection a
       else
         a' = with_log (cons (cerr ("Could not convert image for display." +:+ newline)))
                (with_log (cons called) (before_Convert a)).
Proof.
  intros Hfile Hf Hsel Hbuf. cbv zeta.
  destruct (ImageViewWidget.size (imageView a)) as [w0 h0] eqn:Hsize.
  unfold paintEvent.
  erewrite bind_run by apply gets_run.
  erewrite bind_run by (rewrite Hfile; apply deref_live; unfold live; eauto).
  replace (peek h a) with f by (unfold peek; now rewrite Hf).
  destruct (ComputeMipmapDimensions _ _ _ _) as [[iw ih] idp] eqn:Hdims.
  cbn [fst snd].
  rewrite (needs_decode a Hsel).
  destruct (Convert _ _ _ _ _) eqn:Hok.
  - erewrite bind_run.
    2:{ erewrite bind_run by (apply free_or_skip_run; exact Hbuf).
        erewrite bind_run by apply malloc_run.
        erewrite bind_run by apply modify_run.
        erewrite bind_run by apply modify_run.
        rewrite ?Hok. cbn [negb].
        do 4 (erewrite bind_run by apply modify_run).
        reflexivity. }
    cbv iota.
    erewrite bind_run by apply gets_run.
    match goal with |- context [ImageViewWidget.size ?x] =>
      change (ImageViewWidget.size x) with (ImageViewWidget.size (imageView a))
    end.
    rewrite Hsize.
    eexists. split; [apply modify_run|].
    eexists _, _. split; [reflexivity|]. split; [reflexivity|].
    split; [reflexivity|]. split; reflexivity.
  - erewrite bind_run.
    2:{ erewrite bind_run by (apply free_or_skip_run; exact Hbuf).
        erewrite bind_run by apply malloc_run.
        erewrite bind_run by apply modify_run.
        erewrite bind_run by apply modify_run.
        rewrite ?Hok. cbn [negb].
        erewrite bind_run by apply modify_run.
        reflexivity. }
    cbv iota. eexists. split; reflexivity.
Qed.

End Painting.

(** C8: whenever a paint has to decode (the selection differs from the
    cache key), it calls the conversion primitive once, and the target
    format of that call is RGBA 32-bit if and only if the codec reports
    [uiAlphaBitsPerPixel > 0] for the file's format, RGB 24-bit
    otherwise; an image built from a successful conversion has that
    format. *)
Theorem paint_decode_target `{Env} (a : App) (h : nat) (f : CVTFFile) :
  ImageViewWidget.file_ (imageView a) = Some h ->
  heap a !! h = Some f ->
  view_selection a <> cache_key a ->
  (forall b, ImageViewWidget.imgBuf_ (imageView a) = Some b -> b ∈ buffers a) ->
  exists a' later target,
    paintEvent a = Ok (tt, a')
    /\ log a' = later ++ Convert_called (ImageViewWidget.frame_ (imageView a))
                           (ImageViewWidget.face_ (imageView a))
                           (ImageViewWidget.mip_ (imageView a))
                           (GetFormat f) target :: log a
    /\ Forall (fun e => is_Convert_called e = false) later
    /\ (target = IMAGE_FORMAT_RGBA8888 <-> uiAlphaBitsPerPixel (GetFormat f) > 0)
    /\ (target = IMAGE_FORMAT_RGB888 <-> ~ uiAlphaBitsPerPixel (GetFormat f) > 0)
    /\ (cache_key a' = view_selection a ->
        exists img, ImageViewWidget.image_ (imageView a') = Some img
                    /\ Qt.format img = target).
Proof.
  intros Hfile Hf Hsel Hbuf.
  destruct (paintEvent_decoding a h f Hfile Hf Hsel Hbuf) as (a' & Hrun & Hres).
  destruct (decode_format_alpha f) as [Hrgba Hrgb].
  cbv zeta in Hres. destruct (Convert _ _ _ _ _).
  - destruct Hres as (at_ & img & Hlog & Himg & Hfmt & Hbits & _).
    exists a', [drawImage at_ (Some img)], (decode_format f).
    split; [exact Hrun|]. split; [exact Hlog|].
    split; [repeat constructor|]. split; [exact Hrgba|]. split; [exact Hrgb|].
    intros _. exists img. split; assumption.
  - exists a', [cerr ("Could not convert image for display." +:+ newline)],
           (decode_format f).
    split; [exact Hrun|]. subst a'. split; [reflexivity|].
    split; [repeat constructor|]. split; [exact Hrgba|]. split; [exact Hrgb|].
    intros Hkey. exfalso. apply Hsel. symmetry. exact Hkey.
Qed.

Lemma paint_decode_target_witness :
  exists a h f,
    exec (mip_box (Qt.setValue 5)) demo_loaded = Ok a
    /\ ImageViewWidget.file_ (imageView a) = Some h
    /\ heap a !! h = Some f
    /\ view_selection a <> cache_key a
    /\ (forall b, ImageViewWidget.imgBuf_ (imageView a) = Some b -> b ∈ buffers a)
    /\ exists a' later target,
         paintEvent (H := demo_env) a = Ok (tt, a')
         /\ log a' = later ++ Convert_called (ImageViewWidget.frame_ (imageView a))
                                (ImageViewWidget.face_ (imageView a))
                                (ImageViewWidget.mip_ (imageView a))
                                (GetFormat f) target :: log a
         /\ (target = IMAGE_FORMAT_RGBA8888
             <-> uiAlphaBitsPerPixel (Env := demo_env) (GetFormat f) > 0).
Proof.
  exists (state_of (exec (mip_box (Qt.setValue 5)) demo_loaded)), 0%nat, (demo_texture 1 1).
  set (a := state_of (exec (mip_box (Qt.setValue 5)) demo_loaded)).
  assert (Hfile : ImageViewWidget.file_ (imageView a) = Some 0%nat) by computed.
  assert (Hf : heap a !! 0%nat = Some (demo_texture 1 1)) by computed.
  assert (Hsel : view_selection a <> cache_key a) by computed.
  assert (Hbuf : forall b, ImageViewWidget.imgBuf_ (imageView a) = Some b ->
                           b ∈ buffers a) by (intros b; computed).
  destruct (paint_decode_target (H := demo_env) a 0%nat _ Hfile Hf Hsel Hbuf)
    as (a' & later & target & Hrun & Hlog & _ & Hrgba & _).
  split; [computed|].
  split; [exact Hfile|]. split; [exact Hf|]. split; [exact Hsel|]. split; [exact Hbuf|].
  exists a', later, target. split; [exact Hrun|]. split; [exact Hlog|]. exact Hrgba.
Defined.

Lemma buffers_with_log g x : buffers (with_log g x) = buffers x.
Proof. reflexivity. Qed.

Lemma buffers_before_Convert (a : App) :
  buffers (before_Convert a)
  = {[ next_buffer a ]} ∪ match ImageViewWidget.imgBuf_ (imageView a) with
                          | Some old => buffers a ∖ {[ old ]}
                          | None => buffers a
                          end.
Proof.
  unfold before_Convert, freed.
  destruct (ImageViewWidget.imgBuf_ (imageView a)); reflexivity.
Qed.

Section PaintFailure.
Context `{Env}.

(** A paint whose conversion fails: the diagnostic is written, nothing is
    drawn and the cache key stays, but the buffer of the previous decode
    has been freed while the image still refers to it. *)
Lemma paintEvent_failed_convert (a : App) (h old : nat) (f : CVTFFile) :
  ImageViewWidget.file_ (imageView a) = Some h ->
  heap a !! h = Some f ->
  view_selection a <> cache_key a ->
  ImageViewWidget.imgBuf_ (imageView a) = Some old ->
  old ∈ buffers a ->
  old <> next_buffer a ->
  Convert (GetData f (ImageViewWidget.frame_ (imageView a))
                   (ImageViewWidget.face_ (imageView a)) 0
                   (ImageViewWidget.mip_ (imageView a)))
          (fst (fst (ComputeMipmapDimensions (GetWidth f) (GetHeight f) (GetDepth f)
                       (ImageViewWidget.mip_ (imageView a)))))
          (snd (fst (ComputeMipmapDimensions (GetWidth f) (GetHeight f) (GetDepth f)
                       (ImageViewWidget.mip_ (imageView a)))))
          (GetFormat f) (decode_format f) = false ->
  exists a',
    paintEvent a = Ok (tt, a')
    /\ log a' = cerr ("Could not convert image for display." +:+ newline)
                :: Convert_called (ImageViewWidget.frame_ (imageView a))
                     (ImageViewWidget.face_ (imageView a))
                     (ImageViewWidget.mip_ (imageView a)) (GetFormat f) (decode_format f)
                :: log a
    /\ cache_key a' = cache_key a
    /\ ImageViewWidget.image_ (imageView a') = ImageViewWidget.image_ (imageView a)
    /\ ImageViewWidget.imgBuf_ (imageView a') = Some (next_buffer a)
    /\ old ∉ buffers a'.
Proof.
  intros Hfile Hf Hsel Hold Hin Hne Hfail.
  assert (Hbuf : forall b, ImageViewWidget.imgBuf_ (imageView a) = Some b -> b ∈ buffers a)
    by (intros b Hb; congruence).
  destruct (paintEvent_decoding a h f Hfile Hf Hsel Hbuf) as (a' & Hrun & Hres).
  cbv zeta in Hres. rewrite Hfail in Hres. subst a'.
  eexists. split; [exact Hrun|].
  split; [reflexivity|]. split; [reflexivity|]. split; [reflexivity|].
  split; [reflexivity|].
  rewrite !buffers_with_log, buffers_before_Convert, Hold.
  rewrite elem_of_union, elem_of_singleton, elem_of_difference, elem_of_singleton.
  intros [Hnew|[_ Hkeep]]; [exact (Hne Hnew)|exact (Hkeep eq_refl)].
Qed.

End PaintFailure.

(** C6, on the code: [demo.vtf] has been painted once (buffer 0 backs the
    image on screen) and the user asks for mip 5, whose conversion fails.
    The paint writes the diagnostic, draws nothing and keeps the cache
    key, but it has freed buffer 0 before converting: the image still
    refers to buffer 0, which is no longer allocated. *)
Theorem paintEvent_failure_frees_previous_buffer :
  exists a a' img,
    painted_then_mip5 = Ok a
    /\ ImageViewWidget.imgBuf_ (imageView a) = Some 0%nat
    /\ ImageViewWidget.image_ (imageView a) = Some img
    /\ Qt.bits img = 0%nat
    /\ 0%nat ∈ buffers a
    /\ paintEvent (H := demo_env) a = Ok (tt, a')
    /\ head (log a') = Some (cerr ("Could not convert image for display." +:+ newline))
    /\ cache_key a' = cache_key a
    /\ ImageViewWidget.image_ (imageView a') = Some img
    /\ 0%nat ∉ buffers a'.
Proof.
  exists (state_of painted_then_mip5),
         (state_of (exec (paintEvent (H := demo_env)) painted_then_mip5)),
         {| Qt.bits := 0%nat; Qt.width := 256; Qt.height := 256;
            Qt.format := IMAGE_FORMAT_RGBA8888 |}.
  repeat match goal with |- _ /\ _ => split end;
    first [ computed | apply bool_decide_unpack; computed ].
Qed.

(** ** Unloading and the null document *)

Section NullDocument.
Context `{Env}.

Lemma update_info_null (a : App) : update_info None a = Fault.
Proof. reflexivity. Qed.

Lemma ResourceWidget_set_vtf_null (a : App) : ResourceWidget_set_vtf None a = Fault.
Proof. reflexivity. Qed.

Lemma ImageViewWidget_set_vtf_null (a : App) : ImageViewWidget_set_vtf None a = Fault.
Proof. reflexivity. Qed.

Lemma ImageSettingsWidget_set_vtf_null (a : App) :
  ImageSettingsWidget_set_vtf None a = Fault.
Proof. reflexivity. Qed.

(** With the four slots connected, unloading a document faults in the
    first of them. *)
Lemma unload_file_connected_faults (a : App) :
  ViewerMainWindow.file_ (window a) <> None ->
  unload_file connected a = Fault.
Proof.
  intros Hfile. unfold unload_file. erewrite bind_run by apply gets_run.
  destruct (ViewerMainWindow.file_ (window a)); [|congruence].
  reflexivity.
Qed.

End NullDocument.

(** With nothing connected, unloading a live document emits
    [vtfFileChanged(nullptr)], deletes the file object and clears handle
    and path; it does not touch the dirty bit or the title. *)
Lemma unload_file_alone (h : nat) (a : App) :
  ViewerMainWindow.file_ (window a) = Some h ->
  live h a ->
  exists a',
    unload_file [] a = Ok (tt, a')
    /\ log a' = vtfFileChanged None :: log a
    /\ heap a' !! h = None
    /\ ViewerMainWindow.file_ (window a') = None
    /\ ViewerMainWindow.path_ (window a') = ""%string
    /\ dirty a' = dirty a
    /\ title a' = title a.
Proof.
  intros Hfile (f & Hf). unfold unload_file.
  erewrite bind_run by apply gets_run. rewrite Hfile.
  unfold emit_vtfFileChanged. cbn [for_each].
  erewrite bind_run.
  2:{ erewrite bind_run by apply modify_run. reflexivity. }
  erewrite bind_run by apply gets_run.
  erewrite bind_run.
  2:{ cbn. rewrite Hfile. unfold delete_CVTFFile.
      erewrite bind_run by (apply deref_live; unfold live; cbn; eauto).
      apply modify_run. }
  erewrite bind_run by apply modify_run.
  eexists. split; [reflexivity|]. cbn. repeat split. apply lookup_delete_eq.
Qed.

(** C4, on the code: with [demo.vtf] loaded and a flag ticked (the
    document is dirty), [unload_file] as wired by [setup_ui] does not
    complete: the subscribers are handed the null pointer and the first
    one dereferences it.  Were nothing connected, it would clear handle
    and path and leave the dirty bit set. *)
Theorem unload_file_faults_and_keeps_dirty :
  exists a,
    exec tick_sRGB demo_loaded = Ok a
    /\ ViewerMainWindow.file_ (window a) = Some 0%nat
    /\ dirty a = true
    /\ unload_file (connected (H := demo_env)) a = Fault
    /\ exists a',
         unload_file [] a = Ok (tt, a')
         /\ ViewerMainWindow.file_ (window a') = None
         /\ ViewerMainWindow.path_ (window a') = ""%string
         /\ dirty a' = true
         /\ title a' = "VTFView - [demo.vtf]*"%string.
Proof.
  exists (state_of (exec tick_sRGB demo_loaded)).
  split; [computed|]. split; [computed|]. split; [computed|]. split; [computed|].
  exists (state_of (exec (unload_file []) (exec tick_sRGB demo_loaded))).
  all_computed.
Qed.

(** C10: each of the four slots connected to [vtfFileChanged] runs to
    completion on a live document (given the widgets [setup_ui] built)
    and faults on the null pointer, in every state; [unload_file] hands
    them exactly that null pointer, so with a document loaded it faults,
    although with no slot connected it would complete. *)
Theorem subscribers_fault_on_null `{Env} (h : nat) (a : App) :
  widgets_ready a ->
  live h a ->
  ViewerMainWindow.file_ (window a) = Some h ->
  (is_Ok (update_info (Some h) a) = true
   /\ is_Ok (ResourceWidget_set_vtf (Some h) a) = true
   /\ is_Ok (ImageViewWidget_set_vtf (Some h) a) = true
   /\ is_Ok (ImageSettingsWidget_set_vtf (Some h) a) = true)
  /\ (forall a0, update_info None a0 = Fault
                 /\ ResourceWidget_set_vtf None a0 = Fault
                 /\ ImageViewWidget_set_vtf None a0 = Fault
                 /\ ImageSettingsWidget_set_vtf None a0 = Fault)
  /\ connected = [ update_info; ResourceWidget_set_vtf; ImageViewWidget_set_vtf;
                   ImageSettingsWidget_set_vtf ]
  /\ unload_file connected a = Fault
  /\ (exists a', unload_file [] a = Ok (tt, a')
                 /\ log a' = vtfFileChanged None :: log a).
Proof.
  intros Hready Hl Hfile. split; [|split; [|split; [|split]]].
  - destruct (update_info_run h a Hl (ready_fields a Hready)) as (gi & -> & _).
    destruct (ResourceWidget_set_vtf_run h a Hl) as (gr & ->).
    rewrite (ImageViewWidget_set_vtf_run h a Hl).
    destruct (ImageSettingsWidget_set_vtf_total h a Hl (ready_checks a Hready))
      as (g & cs & _ & _ & ->).
    split; [reflexivity|]. split; [reflexivity|]. split; reflexivity.
  - intros a0. split; [reflexivity|]. split; [reflexivity|]. split; reflexivity.
  - reflexivity.
  - apply unload_file_connected_faults. congruence.
  - destruct (unload_file_alone h a Hfile Hl) as (a' & Hrun & Hlog & _).
    exists a'. split; assumption.
Qed.

Lemma subscribers_fault_on_null_witness :
  let a := with_window (ViewerMainWindow.set_file_ (Some 0%nat))
             (with_heap (insert 0%nat demo_vtf) (App_new (H := demo_env))) in
  widgets_ready (H := demo_env) a
  /\ live 0 a
  /\ ViewerMainWindow.file_ (window a) = Some 0%nat
  /\ is_Ok (ImageSettingsWidget_set_vtf (H := demo_env) (Some 0%nat) a) = true
  /\ ImageSettingsWidget_set_vtf (H := demo_env) None a = Fault
  /\ unload_file (connected (H := demo_env)) a = Fault.
Proof.
  cbv zeta.
  set (a := with_window (ViewerMainWindow.set_file_ (Some 0%nat))
              (with_heap (insert 0%nat demo_vtf) (App_new (H := demo_env)))).
  assert (Hr : widgets_ready (H := demo_env) a).
  { apply widgets_ready_with_window, widgets_ready_with_heap, widgets_ready_App_new. }
  assert (Hl : live 0 a).
  { unfold live, a. cbn. rewrite lookup_insert_eq. eauto. }
  assert (Hfile : ViewerMainWindow.file_ (window a) = Some 0%nat) by reflexivity.
  destruct (subscribers_fault_on_null (H := demo_env) 0 a Hr Hl Hfile)
    as ((_ & _ & _ & Hok) & Hnull & _ & Hunload & _).
  split; [exact Hr|]. split; [exact Hl|]. split; [exact Hfile|].
  split; [exact Hok|]. split; [apply Hnull|]. exact Hunload.
Defined.

(** * Further properties of the viewer *)

(** ** Saving and closing *)

Lemma ret_run {A} (x : A) (a : App) : ret x a = Ok (x, a).
Proof. reflexivity. Qed.

Section SavingMore.
Context `{Env}.


(** The part of [save] after the dirty bit has been cleared, for a
    document that has a path. *)
Lemma save_with_path (a : App) :
  dirty a = true ->
  ViewerMainWindow.path_ (window a) <> ""%string ->
  save a =
  bind (deref (ViewerMainWindow.file_ (window a)))
       (fun f =>
          if negb (CVTFFile_Save f (ViewerMainWindow.path_ (window a)))
          then emit_log (QMessageBox_warning "Could not save file!"
                           ("Failed to save file: " +:+ vlGetLastError))
          else bind windowTitle (fun title => setWindowTitle (Qt.remove_last title)))
       (with_window (ViewerMainWindow.set_dirty_ false) a).
Proof.
  unfold dirty. intros Hd Hp. unfold save.
  erewrite bind_run by apply gets_run. rewrite Hd. cbn [negb].
  erewrite bind_run by apply modify_run.
  apply String.eqb_neq in Hp. rewrite Hp.
  erewrite bind_run by apply ret_run. cbn [negb].
  erewrite bind_run by apply gets_run. reflexivity.
Qed.


End SavingMore.

Lemma deref_run (h : nat) (f : CVTFFile) (a : App) :
  heap a !! h = Some f -> deref (Some h) a = Ok (f, a).
Proof. unfold deref. now intros ->. Qed.

Lemma mark_modified_marks (a : App) :
  Qt.endsWith_star (title a) = false -> mark_modified a = Ok (tt, marked a).
Proof. intros Hs. now rewrite mark_modified_run, Hs. Qed.

(** X1: marking a document modified and then saving it successfully is a
    round trip on the title: for a title without a trailing star, a
    document with a path and a codec that writes the file,
    [mark_modified] followed by [save] returns with the title restored,
    the dirty bit cleared, and handle, path, file objects and event log
    untouched. *)
Theorem mark_then_save_round_trip `{Env} (a : App) (h : nat) (f : CVTFFile) :
  Qt.endsWith_star (title a) = false ->
  ViewerMainWindow.path_ (window a) <> ""%string ->
  ViewerMainWindow.file_ (window a) = Some h ->
  heap a !! h = Some f ->
  CVTFFile_Save f (ViewerMainWindow.path_ (window a)) = true ->
  exists a',
    bind mark_modified (fun _ => save) a = Ok (tt, a')
    /\ title a' = title a
    /\ dirty a' = false
    /\ ViewerMainWindow.path_ (window a') = ViewerMainWindow.path_ (window a)
    /\ ViewerMainWindow.file_ (window a') = Some h
    /\ log a' = log a
    /\ heap a' = heap a.
Proof.
  intros Hstar Hpath Hfile Hf Hsave.
  erewrite bind_run by (apply mark_modified_marks; exact Hstar).
  rewrite (save_with_path (marked a)) by (first [reflexivity | exact Hpath]).
  change (ViewerMainWindow.file_ (window (marked a))) with (ViewerMainWindow.file_ (window a)).
  change (ViewerMainWindow.path_ (window (marked a))) with (ViewerMainWindow.path_ (window a)).
  rewrite Hfile.
  erewrite bind_run by (apply deref_run; exact Hf).
  rewrite Hsave. cbn [negb].
  erewrite bind_run by apply gets_run.
  eexists. split; [apply modify_run|].
  split.
  { unfold title, marked. cbn. apply remove_last_append. }
  split; [reflexivity|]. split; [reflexivity|]. split; [exact Hfile|].
  split; reflexivity.
Qed.

Lemma mark_then_save_round_trip_witness :
  let a := state_of demo_loaded in
  Qt.endsWith_star (title a) = false
  /\ ViewerMainWindow.path_ (window a) <> ""%string
  /\ ViewerMainWindow.file_ (window a) = Some 0%nat
  /\ heap a !! 0%nat = Some (demo_texture 1 1)
  /\ CVTFFile_Save (Env := demo_env) (demo_texture 1 1)
       (ViewerMainWindow.path_ (window a)) = true
  /\ exists a',
       bind mark_modified (fun _ => save (H := demo_env)) a = Ok (tt, a')
       /\ title a' = title a
       /\ dirty a' = false.
Proof.
  cbv zeta. set (a := state_of demo_loaded).
  assert (H1 : Qt.endsWith_star (title a) = false) by computed.
  assert (H2 : ViewerMainWindow.path_ (window a) <> ""%string) by computed.
  assert (H3 : ViewerMainWindow.file_ (window a) = Some 0%nat) by computed.
  assert (H4 : heap a !! 0%nat = Some (demo_texture 1 1)) by computed.
  assert (H5 : CVTFFile_Save (Env := demo_env) (demo_texture 1 1)
                 (ViewerMainWindow.path_ (window a)) = true) by computed.
  destruct (mark_then_save_round_trip (H := demo_env) a 0 _ H1 H2 H3 H4 H5)
    as (a' & Hrun & Ht & Hd & _).
  split; [exact H1|]. split; [exact H2|]. split; [exact H3|]. split; [exact H4|].
  split; [exact H5|]. exists a'. split; [exact Hrun|]. split; [exact Ht|exact Hd].
Defined.

(** X2: a dirty document whose window has lost its file object cannot be
    saved: once a path is known, [save] dereferences the null [file_].
    The state is reachable: load [demo.vtf], fail to load [junk.vtf]
    (which nulls [file_] and records the path), tick a flag (the settings
    panel still holds the old document, so the window turns dirty), save. *)
Theorem save_without_file_faults `{Env} (a : App) :
  dirty a = true ->
  ViewerMainWindow.path_ (window a) <> ""%string ->
  ViewerMainWindow.file_ (window a) = None ->
  save a = Fault.
Proof.
  intros Hd Hp Hfile. rewrite save_with_path by assumption.
  apply bind_fault.
  change (ViewerMainWindow.file_ (window (with_window _ a)))
    with (ViewerMainWindow.file_ (window a)).
  rewrite Hfile. reflexivity.
Qed.

Lemma save_without_file_faults_witness :
  let a := state_of (exec tick_sRGB
             (exec (load_file_path (H := demo_env) (connected (H := demo_env)) "junk.vtf")
                demo_loaded)) in
  dirty a = true
  /\ ViewerMainWindow.path_ (window a) <> ""%string
  /\ ViewerMainWindow.file_ (window a) = None
  /\ save (H := demo_env) a = Fault.
Proof.
  cbv zeta.
  set (a := state_of _).
  assert (H1 : dirty a = true) by computed.
  assert (H2 : ViewerMainWindow.path_ (window a) <> ""%string) by computed.
  assert (H3 : ViewerMainWindow.file_ (window a) = None) by computed.
  split; [exact H1|]. split; [exact H2|]. split; [exact H3|].
  exact (save_without_file_faults (H := demo_env) a H1 H2 H3).
Defined.

(** X3: [closeEvent] ignores the close request exactly when the document
    is dirty and the user answers Cancel; in that case, and whenever the
    answer is not Save, the state is what it was.  When it is not dirty no
    question is asked. *)
Theorem closeEvent_ignored_iff_cancel `{Env} (a a' : App) (ignored : bool) :
  closeEvent a = Ok (ignored, a') ->
  (ignored = true <-> dirty a = true /\ msgBox_exec = QMessageBox_Cancel)
  /\ (dirty a = false \/ msgBox_exec <> QMessageBox_Save -> a' = a)
  /\ (dirty a = true -> msgBox_exec = QMessageBox_Save -> save a = Ok (tt, a')).
Proof.
  unfold closeEvent, dirty.
  erewrite bind_run by apply gets_run.
  destruct (ViewerMainWindow.dirty_ (window a)) eqn:Hd.
  - destruct msgBox_exec eqn:Hbox.
    + unfold bind. destruct (save a) as [[[] s]|] eqn:Hsave; [|discriminate].
      intros [= <- <-].
      split; [split; [discriminate|intros [_ ?]; discriminate]|].
      split; [intros [?|?]; congruence|]. intros _ _. reflexivity.
    + intros [= <- <-].
      split; [split; [auto|reflexivity]|].
      split; [reflexivity|]. intros _ ?. discriminate.
    + intros [= <- <-].
      split; [split; [discriminate|intros [_ ?]; discriminate]|].
      split; [reflexivity|]. intros _ ?. discriminate.
  - intros [= <- <-].
    split; [split; [discriminate|intros [? _]; discriminate]|].
    split; [reflexivity|]. intros ?. discriminate.
Qed.

Lemma closeEvent_ignored_iff_cancel_witness :
  let E := answering QMessageBox_Cancel demo_env in
  let a := state_of (exec tick_sRGB demo_loaded) in
  closeEvent (H := E) a = Ok (true, a)
  /\ (true = true <-> dirty a = true /\ msgBox_exec (Env := E) = QMessageBox_Cancel)
  /\ (dirty a = false \/ msgBox_exec (Env := E) <> QMessageBox_Save -> a = a)
  /\ (dirty a = true -> msgBox_exec (Env := E) = QMessageBox_Save
      -> save (H := E) a = Ok (tt, a)).
Proof.
  cbv zeta.
  assert (Hrun : closeEvent (H := answering QMessageBox_Cancel demo_env)
                   (state_of (exec tick_sRGB demo_loaded))
                 = Ok (true, state_of (exec tick_sRGB demo_loaded))) by computed.
  split; [exact Hrun|].
  exact (closeEvent_ignored_iff_cancel (H := answering QMessageBox_Cancel demo_env)
           _ _ _ Hrun).
Defined.

(** ** Painting *)

Lemma no_decode_needed (a : App) :
  view_selection a = cache_key a ->
  negb (ImageViewWidget.frame_ (imageView a) =? ImageViewWidget.currentFrame_ (imageView a))
  || negb (ImageViewWidget.mip_ (imageView a) =? ImageViewWidget.currentMip_ (imageView a))
  || negb (ImageViewWidget.face_ (imageView a) =? ImageViewWidget.currentFace_ (imageView a))
  = false.
Proof.
  unfold view_selection, cache_key. intros [= -> -> ->].
  now rewrite !Z.eqb_refl.
Qed.

Section PaintingMore.
Context `{Env}.

(** A paint whose selection equals the cache key, spelled out. *)
Lemma paintEvent_drawing (a : App) (h : nat) (f : CVTFFile) :
  ImageViewWidget.file_ (imageView a) = Some h ->
  heap a !! h = Some f ->
  view_selection a = cache_key a ->
  let dims := ComputeMipmapDimensions (GetWidth f) (GetHeight f) (GetDepth f)
                (ImageViewWidget.mip_ (imageView a)) in
  paintEvent a =
  Ok (tt, with_log (cons (drawImage (draw_position a (fst (fst dims)) (snd (fst dims)))
                            (ImageViewWidget.image_ (imageView a)))) a).
Proof.
  intros Hfile Hf Hsel. cbv zeta.
  destruct (ImageViewWidget.size (imageView a)) as [w0 h0] eqn:Hsize.
  unfold paintEvent, draw_position.
  erewrite bind_run by apply gets_run.
  rewrite Hfile. erewrite bind_run by (apply deref_run; exact Hf).
  destruct (ComputeMipmapDimensions _ _ _ _) as [[iw ih] idp] eqn:Hdims.
  cbn [fst snd].
  rewrite (no_decode_needed a Hsel).
  erewrite bind_run by apply ret_run. cbv iota.
  erewrite bind_run by apply gets_run.
  rewrite Hsize. cbn [fst snd]. reflexivity.
Qed.

(** A paint that decodes successfully, spelled out. *)
Lemma paintEvent_decoded (a : App) (h : nat) (f : CVTFFile) :
  ImageViewWidget.file_ (imageView a) = Some h ->
  heap a !! h = Some f ->
  view_selection a <> cache_key a ->
  (forall b, ImageViewWidget.imgBuf_ (imageView a) = Some b -> b ∈ buffers a) ->
  let v := imageView a in
  let dims := ComputeMipmapDimensions (GetWidth f) (GetHeight f) (GetDepth f)
                (ImageViewWidget.mip_ v) in
  Convert (GetData f (ImageViewWidget.frame_ v) (ImageViewWidget.face_ v) 0
             (ImageViewWidget.mip_ v))
          (fst (fst dims)) (snd (fst dims)) (GetFormat f) (decode_format f) = true ->
  paintEvent a =
  Ok (tt, with_log
            (cons (drawImage (draw_position a (fst (fst dims)) (snd (fst dims)))
                     (Some {| Qt.bits := next_buffer (freed a);
                              Qt.width := to_int (fst (fst dims));
                              Qt.height := to_int (snd (fst dims));
                              Qt.format := decode_format f |})))
            (decoded a f (fst (fst dims)) (snd (fst dims)))).
Proof.
  intros Hfile Hf Hsel Hbuf. cbv zeta.
  destruct (ImageViewWidget.size (imageView a)) as [w0 h0] eqn:Hsize.
  unfold paintEvent, draw_position, decoded.
  erewrite bind_run by apply gets_run.
  rewrite Hfile. erewrite bind_run by (apply deref_run; exact Hf).
  destruct (ComputeMipmapDimensions _ _ _ _) as [[iw ih] idp] eqn:Hdims.
  cbn [fst snd]. intros Hok.
  rewrite (needs_decode a Hsel).
  erewrite bind_run.
  2:{ erewrite bind_run by (apply free_or_skip_run; exact Hbuf).
      erewrite bind_run by apply malloc_run.
      erewrite bind_run by apply modify_run.
      erewrite bind_run by apply modify_run.
      rewrite Hok. cbn [negb].
      do 4 (erewrite bind_run by apply modify_run).
      apply ret_run. }
  cbv iota.
  erewrite bind_run by apply gets_run.
  match goal with |- context [ImageViewWidget.size ?x] =>
    change (ImageViewWidget.size x) with (ImageViewWidget.size (imageView a))
  end.
  match goal with |- context [ImageViewWidget.pos_ ?x] =>
    change (ImageViewWidget.pos_ x) with (ImageViewWidget.pos_ (imageView a))
  end.
  rewrite Hsize. cbn [fst snd]. reflexivity.
Qed.

End PaintingMore.



(** X5: [paintEvent] reads through [file_] before anything else, so a
    paint of a view that holds no document, or a document that has been
    deleted, is undefined; this is the state of a freshly started
    viewer. *)
Theorem paintEvent_without_document_faults `{Env} (a : App) :
  ImageViewWidget.file_ (imageView a) = None
  \/ (exists h, ImageViewWidget.file_ (imageView a) = Some h /\ heap a !! h = None) ->
  paintEvent a = Fault.
Proof.
  intros Hno. unfold paintEvent.
  erewrite bind_run by apply gets_run.
  apply bind_fault. unfold deref.
  destruct Hno as [->|(h & -> & ->)]; reflexivity.
Qed.

Lemma paintEvent_without_document_faults_witness :
  (ImageViewWidget.file_ (imageView (App_new (H := demo_env))) = None
   \/ (exists h, ImageViewWidget.file_ (imageView (App_new (H := demo_env))) = Some h
                 /\ heap (App_new (H := demo_env)) !! h = None))
  /\ paintEvent (H := demo_env) (App_new (H := demo_env)) = Fault.
Proof.
  assert (Hno : ImageViewWidget.file_ (imageView (App_new (H := demo_env))) = None
                \/ (exists h, ImageViewWidget.file_ (imageView (App_new (H := demo_env)))
                              = Some h
                              /\ heap (App_new (H := demo_env)) !! h = None))
    by (left; reflexivity).
  split; [exact Hno|].
  exact (paintEvent_without_document_faults (H := demo_env) _ Hno).
Defined.

Lemma buffers_decoded `{Env} (a : App) (f : CVTFFile) (iw ih : Z) :
  buffers (decoded a f iw ih) = buffers (before_Convert a).
Proof. reflexivity. Qed.

(** X6: a paint that decodes successfully leaves the view owning exactly
    the buffer it allocated: [imgBuf_] and the image both refer to it, it
    is live, the buffer of the previous decode has been freed, and the
    cache key is the selection, so that painting again draws the same
    image without decoding. *)
Theorem paintEvent_decode_owns_buffer `{Env} (a : App) (h : nat) (f : CVTFFile) :
  ImageViewWidget.file_ (imageView a) = Some h ->
  heap a !! h = Some f ->
  view_selection a <> cache_key a ->
  (forall b, ImageViewWidget.imgBuf_ (imageView a) = Some b ->
             b ∈ buffers a /\ b <> next_buffer a) ->
  Convert (GetData f (ImageViewWidget.frame_ (imageView a))
                   (ImageViewWidget.face_ (imageView a)) 0
                   (ImageViewWidget.mip_ (imageView a)))
          (fst (fst (ComputeMipmapDimensions (GetWidth f) (GetHeight f) (GetDepth f)
                       (ImageViewWidget.mip_ (imageView a)))))
          (snd (fst (ComputeMipmapDimensions (GetWidth f) (GetHeight f) (GetDepth f)
                       (ImageViewWidget.mip_ (imageView a)))))
          (GetFormat f) (decode_format f) = true ->
  exists a1 img,
    paintEvent a = Ok (tt, a1)
    /\ ImageViewWidget.imgBuf_ (imageView a1) = Some (next_buffer a)
    /\ ImageViewWidget.image_ (imageView a1) = Some img
    /\ Qt.bits img = next_buffer a
    /\ next_buffer a ∈ buffers a1
    /\ (forall old, ImageViewWidget.imgBuf_ (imageView a) = Some old -> old ∉ buffers a1)
    /\ cache_key a1 = view_selection a1
    /\ exists at_, paintEvent a1 = Ok (tt, with_log (cons (drawImage at_ (Some img))) a1).
Proof.
  intros Hfile Hf Hsel Hbuf Hok.
  assert (Hbuf' : forall b, ImageViewWidget.imgBuf_ (imageView a) = Some b -> b ∈ buffers a)
    by (intros b Hb; apply (Hbuf b Hb)).
  pose proof (paintEvent_decoded a h f Hfile Hf Hsel Hbuf' Hok) as Hrun.
  cbv zeta in Hrun.
  eexists _, _. split; [exact Hrun|].
  split; [reflexivity|]. split; [reflexivity|]. split; [reflexivity|].
  split.
  { rewrite buffers_with_log, buffers_decoded, buffers_before_Convert.
    apply elem_of_union_l, elem_of_singleton. reflexivity. }
  split.
  { intros old Hold.
    rewrite buffers_with_log, buffers_decoded, buffers_before_Convert, Hold.
    rewrite elem_of_union, elem_of_singleton, elem_of_difference, elem_of_singleton.
    intros [Hnew|[_ Hkeep]]; [exact (proj2 (Hbuf old Hold) Hnew)|exact (Hkeep eq_refl)]. }
  split; [reflexivity|].
  eexists.
  etransitivity; [apply (paintEvent_drawing _ h f); [exact Hfile|exact Hf|reflexivity]|].
  reflexivity.
Qed.

Lemma paintEvent_decode_owns_buffer_witness :
  let a := state_of (exec (mip_box (Qt.setValue 1))
                       (exec (paintEvent (H := demo_env)) demo_loaded)) in
  let f := demo_texture 1 1 in
  ImageViewWidget.file_ (imageView a) = Some 0%nat
  /\ heap a !! 0%nat = Some f
  /\ view_selection a <> cache_key a
  /\ ImageViewWidget.imgBuf_ (imageView a) = Some 0%nat
  /\ exists a1 img,
       paintEvent (H := demo_env) a = Ok (tt, a1)
       /\ ImageViewWidget.image_ (imageView a1) = Some img
       /\ Qt.bits img = 1%nat
       /\ 1%nat ∈ buffers a1
       /\ 0%nat ∉ buffers a1.
Proof.
  cbv zeta. set (a := state_of _).
  assert (H1 : ImageViewWidget.file_ (imageView a) = Some 0%nat) by computed.
  assert (H2 : heap a !! 0%nat = Some (demo_texture 1 1)) by computed.
  assert (H3 : view_selection a <> cache_key a) by computed.
  assert (H4 : ImageViewWidget.imgBuf_ (imageView a) = Some 0%nat) by computed.
  assert (Hn : next_buffer a = 1%nat) by computed.
  assert (H5 : forall b, ImageViewWidget.imgBuf_ (imageView a) = Some b ->
                         b ∈ buffers a /\ b <> next_buffer a).
  { intros b Hb. rewrite H4 in Hb. injection Hb as <-. rewrite Hn.
    split; [apply (bool_decide_unpack (0%nat ∈ buffers a)); computed|discriminate]. }
  assert (H6 : Convert (Env := demo_env)
                 (GetData (Env := demo_env) (demo_texture 1 1)
                    (ImageViewWidget.frame_ (imageView a))
                    (ImageViewWidget.face_ (imageView a)) 0
                    (ImageViewWidget.mip_ (imageView a)))
                 (fst (fst (ComputeMipmapDimensions (Env := demo_env)
                              (GetWidth (demo_texture 1 1)) (GetHeight (demo_texture 1 1))
                              (GetDepth (demo_texture 1 1))
                              (ImageViewWidget.mip_ (imageView a)))))
                 (snd (fst (ComputeMipmapDimensions (Env := demo_env)
                              (GetWidth (demo_texture 1 1)) (GetHeight (demo_texture 1 1))
                              (GetDepth (demo_texture 1 1))
                              (ImageViewWidget.mip_ (imageView a)))))
                 (GetFormat (demo_texture 1 1))
                 (decode_format (H := demo_env) (demo_texture 1 1)) = true) by computed.
  destruct (paintEvent_decode_owns_buffer (H := demo_env) a 0 _ H1 H2 H3 H5 H6)
    as (a1 & img & Hrun & _ & Himg & Hbits & Hin & Hout & _).
  split; [exact H1|]. split; [exact H2|]. split; [exact H3|]. split; [exact H4|].
  exists a1, img. split; [exact Hrun|]. split; [exact Himg|].
  rewrite Hn in Hbits, Hin. split; [exact Hbits|]. split; [exact Hin|].
  exact (Hout 0%nat H4).
Defined.

(** ** Edits in the settings panel *)

Lemma document_untouched_settings g a : document_untouched a (with_viewSettings g a).
Proof. unfold document_untouched. split; [reflexivity|split; reflexivity]. Qed.

(** X7: editing the Frame, Mip or Face box is a change of view state
    only: whatever value is typed, the call returns, the box holds the
    value bounded to its range, no signal is emitted, the window (dirty
    bit, title) and every file object stay as they are, and an image view
    that agreed with the boxes still agrees with them. *)
Theorem selection_edits_are_view_only (v : Z) (a : App) :
  selection_synced a ->
  (exists a', frame_box (Qt.setValue v) a = Ok (tt, a')
              /\ document_untouched a a' /\ selection_synced a'
              /\ ImageSettingsWidget.frame_ (viewSettings a')
                 = fst (Qt.setValue v (ImageSettingsWidget.frame_ (viewSettings a))))
  /\ (exists a', mip_box (Qt.setValue v) a = Ok (tt, a')
                 /\ document_untouched a a' /\ selection_synced a'
                 /\ ImageSettingsWidget.mip_ (viewSettings a')
                    = fst (Qt.setValue v (ImageSettingsWidget.mip_ (viewSettings a))))
  /\ (exists a', face_box (Qt.setValue v) a = Ok (tt, a')
                 /\ document_untouched a a' /\ selection_synced a'
                 /\ ImageSettingsWidget.face_ (viewSettings a')
                    = fst (Qt.setValue v (ImageSettingsWidget.face_ (viewSettings a)))).
Proof.
  intros Hs. unfold document_untouched. split; [|split].
  - eexists. split; [apply frame_box_run|].
    split; [split; [reflexivity|split; reflexivity]|].
    split; [|reflexivity].
    apply selection_synced_frame_step; [apply setValue_reports_changes|exact Hs].
  - eexists. split; [apply mip_box_run|].
    split; [split; [reflexivity|split; reflexivity]|].
    split; [|reflexivity].
    apply selection_synced_mip_step; [apply setValue_reports_changes|exact Hs].
  - eexists. split; [apply face_box_run|].
    split; [split; [reflexivity|split; reflexivity]|].
    split; [|reflexivity].
    apply selection_synced_face_step; [apply setValue_reports_changes|exact Hs].
Qed.

Lemma selection_edits_are_view_only_witness :
  let a := state_of demo_loaded in
  selection_synced a
  /\ exists a', mip_box (Qt.setValue 3) a = Ok (tt, a')
                /\ document_untouched a a' /\ selection_synced a'.
Proof.
  cbv zeta. set (a := state_of demo_loaded).
  assert (Hs : selection_synced a) by computed.
  split; [exact Hs|].
  destruct (selection_edits_are_view_only 3 a Hs) as (_ & (a' & Hrun & Hu & Hs' & _) & _).
  exists a'. split; [exact Hrun|]. split; [exact Hu|exact Hs'].
Defined.

Ltac settings_fields :=
  cbn [viewSettings with_viewSettings with_heap with_log with_window
       ImageSettingsWidget.file_ ImageSettingsWidget.settingFile_
       ImageSettingsWidget.startFrame_ ImageSettingsWidget.checks
       ImageSettingsWidget.set_startFrame_ ImageSettingsWidget.set_checks].

(** X8: outside a load, an edit of the Start Frame box that changes its
    value is written through to the document and reported once: the file
    object holds the new start frame, [fileModified] is emitted exactly
    once, the dirty bit is set and the title ends in a star. *)
Theorem startFrame_edit_writes_through (h : nat) (f : CVTFFile) (v : Z) (a : App) :
  ImageSettingsWidget.settingFile_ (viewSettings a) = false ->
  ImageSettingsWidget.file_ (viewSettings a) = Some h ->
  heap a !! h = Some f ->
  snd (Qt.setValue v (ImageSettingsWidget.startFrame_ (viewSettings a))) = true ->
  exists a',
    startFrame_box (Qt.setValue v) a = Ok (tt, a')
    /\ ImageSettingsWidget.startFrame_ (viewSettings a')
       = fst (Qt.setValue v (ImageSettingsWidget.startFrame_ (viewSettings a)))
    /\ heap a' !! h
       = Some (SetStartFrame
                 (to_uint (Qt.value (ImageSettingsWidget.startFrame_ (viewSettings a')))) f)
    /\ log a' = fileModified :: log a
    /\ dirty a' = true
    /\ Qt.endsWith_star (title a') = true
    /\ view_selection a' = view_selection a.
Proof.
  intros Hset Hfile Hf Hchanged.
  unfold startFrame_box, drive_spin.
  erewrite bind_run by apply gets_run. cbv zeta.
  erewrite bind_run by apply modify_run.
  rewrite Hchanged.
  unfold startFrame_textChanged.
  erewrite bind_run by apply gets_run.
  settings_fields. rewrite Hfile.
  erewrite bind_run.
  2:{ unfold mutate. erewrite bind_run by (apply deref_run; exact Hf). apply modify_run. }
  erewrite bind_run by apply gets_run.
  settings_fields. rewrite Hset. cbn [negb].
  unfold emit_fileModified, emit_log.
  erewrite bind_run by apply modify_run.
  rewrite mark_modified_run.
  destruct (Qt.endsWith_star (title _)) eqn:Hstar.
  - eexists. split; [reflexivity|]. split; [reflexivity|].
    split; [apply lookup_insert_eq|]. split; [reflexivity|]. split; [reflexivity|].
    split; [exact Hstar|reflexivity].
  - eexists. split; [reflexivity|]. split; [reflexivity|].
    split; [apply lookup_insert_eq|]. split; [reflexivity|]. split; [reflexivity|].
    split; [apply endsWith_star_append|reflexivity].
Qed.

Lemma startFrame_edit_writes_through_witness :
  let a := state_of (exec (load_file_buffer (H := demo_env) (connected (H := demo_env))
                             animated_bytes) (Ok (App_new (H := demo_env)))) in
  ImageSettingsWidget.settingFile_ (viewSettings a) = false
  /\ ImageSettingsWidget.file_ (viewSettings a) = Some 0%nat
  /\ heap a !! 0%nat = Some (demo_texture 5 3)
  /\ snd (Qt.setValue 2 (ImageSettingsWidget.startFrame_ (viewSettings a))) = true
  /\ exists a',
       startFrame_box (Qt.setValue 2) a = Ok (tt, a')
       /\ heap a' !! 0%nat = Some (demo_texture 5 2)
       /\ log a' = fileModified :: log a
       /\ dirty a' = true.
Proof.
  cbv zeta. set (a := state_of _).
  assert (H1 : ImageSettingsWidget.settingFile_ (viewSettings a) = false) by computed.
  assert (H2 : ImageSettingsWidget.file_ (viewSettings a) = Some 0%nat) by computed.
  assert (H3 : heap a !! 0%nat = Some (demo_texture 5 3)) by computed.
  assert (H4 : snd (Qt.setValue 2 (ImageSettingsWidget.startFrame_ (viewSettings a)))
               = true) by computed.
  destruct (startFrame_edit_writes_through 0 _ 2 a H1 H2 H3 H4)
    as (a' & Hrun & Hbox & Hheap & Hlog & Hd & _).
  split; [exact H1|]. split; [exact H2|]. split; [exact H3|]. split; [exact H4|].
  exists a'. split; [exact Hrun|]. split; [|split; [exact Hlog|exact Hd]].
  rewrite Hheap, Hbox. computed.
Defined.

(** X9: an edit of the Start Frame box that leaves its value as it was, or
    that is made while no document is loaded, does nothing beyond the box
    itself: nothing is emitted, the window is not marked dirty and no file
    object changes. *)
Theorem startFrame_edit_without_effect (op : Qt.QSpinBox -> Qt.QSpinBox * bool) (a : App) :
  snd (op (ImageSettingsWidget.startFrame_ (viewSettings a))) = false
  \/ ImageSettingsWidget.file_ (viewSettings a) = None ->
  startFrame_box op a =
  Ok (tt, with_viewSettings
            (ImageSettingsWidget.set_startFrame_
               (fst (op (ImageSettingsWidget.startFrame_ (viewSettings a))))) a).
Proof.
  intros Hcase.
  unfold startFrame_box, drive_spin.
  erewrite bind_run by apply gets_run. cbv zeta.
  erewrite bind_run by apply modify_run.
  destruct (snd (op (ImageSettingsWidget.startFrame_ (viewSettings a)))) eqn:Hchanged.
  - destruct Hcase as [?|Hfile]; [discriminate|].
    unfold startFrame_textChanged.
    erewrite bind_run by apply gets_run.
    settings_fields. rewrite Hfile. reflexivity.
  - reflexivity.
Qed.

Lemma startFrame_edit_without_effect_witness :
  (snd (Qt.setValue 7 (ImageSettingsWidget.startFrame_
                         (viewSettings (App_new (H := demo_env))))) = false
   \/ ImageSettingsWidget.file_ (viewSettings (App_new (H := demo_env))) = None)
  /\ exists a', startFrame_box (Qt.setValue 7) (App_new (H := demo_env)) = Ok (tt, a')
                /\ document_untouched (App_new (H := demo_env)) a'
                /\ Qt.value (ImageSettingsWidget.startFrame_ (viewSettings a')) = 7.
Proof.
  assert (Hc : snd (Qt.setValue 7 (ImageSettingsWidget.startFrame_
                         (viewSettings (App_new (H := demo_env))))) = false
               \/ ImageSettingsWidget.file_ (viewSettings (App_new (H := demo_env))) = None)
    by (right; computed).
  split; [exact Hc|].
  eexists. split; [exact (startFrame_edit_without_effect _ _ Hc)|].
  split; [apply document_untouched_settings|]. computed.
Defined.

(** X10: outside a load, ticking or clearing the flag check box at index
    [i] writes exactly the flag that box was created for into the
    document, with the new state, flips that box and no other, emits
    [fileModified] once and marks the window dirty; setting a box to the
    state it already has does nothing at all. *)
Theorem flag_toggle_writes_flag (h i : nat) (f : CVTFFile)
    (c : ImageSettingsWidget.FlagCheck) (a : App) :
  ImageSettingsWidget.settingFile_ (viewSettings a) = false ->
  ImageSettingsWidget.file_ (viewSettings a) = Some h ->
  heap a !! h = Some f ->
  ImageSettingsWidget.checks (viewSettings a) !! i = Some c ->
  let on := negb (ImageSettingsWidget.isChecked c) in
  (exists a',
     setChecked i on a = Ok (tt, a')
     /\ heap a' !! h = Some (SetFlag (ImageSettingsWidget.flag c) on f)
     /\ ImageSettingsWidget.checks (viewSettings a')
        = <[ i := {| ImageSettingsWidget.flag := ImageSettingsWidget.flag c;
                     ImageSettingsWidget.isChecked := on |} ]>
            (ImageSettingsWidget.checks (viewSettings a))
     /\ log a' = fileModified :: log a
     /\ dirty a' = true
     /\ Qt.endsWith_star (title a') = true)
  /\ setChecked i (ImageSettingsWidget.isChecked c) a = Ok (tt, a).
Proof.
  intros Hset Hfile Hf Hc. cbv zeta. split.
  - unfold setChecked.
    erewrite bind_run by apply gets_run. rewrite Hc.
    replace (Bool.eqb _ _) with false by now destruct (ImageSettingsWidget.isChecked c).
    erewrite bind_run by apply modify_run.
    unfold check_stateChanged.
    erewrite bind_run by apply gets_run.
    settings_fields. rewrite Hfile.
    erewrite bind_run.
    2:{ unfold mutate. erewrite bind_run by (apply deref_run; exact Hf). apply modify_run. }
    erewrite bind_run by apply gets_run.
    settings_fields. rewrite Hset. cbn [negb].
    unfold emit_fileModified, emit_log.
    erewrite bind_run by apply modify_run.
    rewrite mark_modified_run.
    assert (Hstate : negb ((if negb (ImageSettingsWidget.isChecked c) then 2 else 0) =? 0)
                     = negb (ImageSettingsWidget.isChecked c))
      by now destruct (ImageSettingsWidget.isChecked c).
    rewrite Hstate.
    destruct (Qt.endsWith_star (title _)) eqn:Hstar.
    + eexists. split; [reflexivity|].
      split; [apply lookup_insert_eq|].
      split; [reflexivity|]. split; [reflexivity|]. split; [reflexivity|exact Hstar].
    + eexists. split; [reflexivity|].
      split; [apply lookup_insert_eq|].
      split; [reflexivity|]. split; [reflexivity|]. split; [reflexivity|].
      apply endsWith_star_append.
  - unfold setChecked.
    erewrite bind_run by apply gets_run. rewrite Hc.
    now rewrite Bool.eqb_reflx.
Qed.

Lemma flag_toggle_writes_flag_witness :
  let a := state_of demo_loaded in
  let c := {| ImageSettingsWidget.flag := 64; ImageSettingsWidget.isChecked := false |} in
  ImageSettingsWidget.settingFile_ (viewSettings a) = false
  /\ ImageSettingsWidget.file_ (viewSettings a) = Some 0%nat
  /\ heap a !! 0%nat = Some (demo_texture 1 1)
  /\ ImageSettingsWidget.checks (viewSettings a) !! 7%nat = Some c
  /\ exists a',
       setChecked 7 true a = Ok (tt, a')
       /\ (GetFlags <$> heap a' !! 0%nat) = Some (8192 + 64)
       /\ log a' = fileModified :: log a
       /\ dirty a' = true.
Proof.
  cbv zeta. set (a := state_of demo_loaded).
  assert (H1 : ImageSettingsWidget.settingFile_ (viewSettings a) = false) by computed.
  assert (H2 : ImageSettingsWidget.file_ (viewSettings a) = Some 0%nat) by computed.
  assert (H3 : heap a !! 0%nat = Some (demo_texture 1 1)) by computed.
  assert (H4 : ImageSettingsWidget.checks (viewSettings a) !! 7%nat
               = Some {| ImageSettingsWidget.flag := 64;
                         ImageSettingsWidget.isChecked := false |}) by computed.
  destruct (flag_toggle_writes_flag 0 7 _ _ a H1 H2 H3 H4)
    as ((a' & Hrun & Hheap & _ & Hlog & Hd & _) & _).
  split; [exact H1|]. split; [exact H2|]. split; [exact H3|]. split; [exact H4|].
  exists a'. split; [exact Hrun|]. split; [|split; [exact Hlog|exact Hd]].
  rewrite Hheap. reflexivity.
Defined.

(** ** What a successful load leaves behind *)

Lemma view_document_frame_step op a : view_document (frame_step op a) = view_document a.
Proof. unfold view_document, cache_key, frame_step. cbn. now destruct (snd (op _)). Qed.

Lemma view_document_mip_step op a : view_document (mip_step op a) = view_document a.
Proof. unfold view_document, cache_key, mip_step. cbn. now destruct (snd (op _)). Qed.

Lemma view_document_face_step op a : view_document (face_step op a) = view_document a.
Proof. unfold view_document, cache_key, face_step. cbn. now destruct (snd (op _)). Qed.

Lemma view_document_startFrame_step h op a :
  view_document (startFrame_step h op a) = view_document a.
Proof. reflexivity. Qed.

Lemma view_document_sync_boxes h a : view_document (sync_boxes h a) = view_document a.
Proof.
  unfold sync_boxes. cbv zeta.
  rewrite view_document_startFrame_step.
  rewrite view_document_face_step, view_document_frame_step, view_document_mip_step,
    view_document_face_step, view_document_frame_step, view_document_mip_step.
  rewrite view_document_startFrame_step.
  reflexivity.
Qed.

Lemma view_document_settled b h g cs x :
  view_document (with_viewSettings (ImageSettingsWidget.set_settingFile_ b)
                   (flags_synced h g cs x)) = view_document x.
Proof. reflexivity. Qed.

Lemma view_document_view_reset h a :
  view_document (view_reset h a)
  = (Some h, (-1, -1, -1), ImageViewWidget.imgBuf_ (imageView a)).
Proof. unfold view_document, cache_key, view_reset. cbn. now destruct (_ || _). Qed.

Lemma view_document_told h gi gr g cs a :
  view_document (told h gi gr g cs a)
  = (Some h, (-1, -1, -1), ImageViewWidget.imgBuf_ (imageView a)).
Proof.
  unfold told. rewrite view_document_settled, view_document_sync_boxes.
  unfold before_settings. rewrite view_document_view_reset. reflexivity.
Qed.

Lemma view_document_with_window w x : view_document (with_window w x) = view_document x.
Proof. reflexivity. Qed.

Lemma settings_document_frame_step op a :
  settings_document (frame_step op a) = settings_document a.
Proof. reflexivity. Qed.

Lemma settings_document_mip_step op a :
  settings_document (mip_step op a) = settings_document a.
Proof. reflexivity. Qed.

Lemma settings_document_face_step op a :
  settings_document (face_step op a) = settings_document a.
Proof. reflexivity. Qed.

Lemma settings_document_startFrame_step h op a :
  settings_document (startFrame_step h op a) = settings_document a.
Proof. reflexivity. Qed.

Lemma settings_document_sync_boxes h a :
  settings_document (sync_boxes h a) = (Some h, true).
Proof.
  unfold sync_boxes. cbv zeta.
  rewrite settings_document_startFrame_step.
  rewrite settings_document_face_step, settings_document_frame_step,
    settings_document_mip_step, settings_document_face_step,
    settings_document_frame_step, settings_document_mip_step.
  rewrite settings_document_startFrame_step.
  reflexivity.
Qed.

Lemma settings_document_settled h g cs x :
  settings_document (with_viewSettings (ImageSettingsWidget.set_settingFile_ false)
                       (flags_synced h g cs x))
  = (fst (settings_document x), false).
Proof. reflexivity. Qed.

Lemma settings_document_told h gi gr g cs a :
  settings_document (told h gi gr g cs a) = (Some h, false).
Proof.
  unfold told. now rewrite settings_document_settled, settings_document_sync_boxes.
Qed.

Lemma settings_document_with_window w x :
  settings_document (with_window w x) = settings_document x.
Proof. reflexivity. Qed.

(** File objects other than the one being synchronised. *)
Lemma heap_frame_step op a : heap (frame_step op a) = heap a.
Proof. reflexivity. Qed.

Lemma heap_mip_step op a : heap (mip_step op a) = heap a.
Proof. reflexivity. Qed.

Lemma heap_face_step op a : heap (face_step op a) = heap a.
Proof. reflexivity. Qed.

Lemma heap_startFrame_step_ne h k op a :
  k <> h -> heap (startFrame_step h op a) !! k = heap a !! k.
Proof.
  intros Hne. unfold startFrame_step. cbn.
  destruct (snd (op _)); [|reflexivity]. now apply lookup_alter_ne.
Qed.

Lemma heap_sync_boxes_ne h k a : k <> h -> heap (sync_boxes h a) !! k = heap a !! k.
Proof.
  intros Hne. unfold sync_boxes. cbv zeta.
  rewrite heap_startFrame_step_ne by exact Hne.
  rewrite heap_face_step, heap_frame_step, heap_mip_step,
    heap_face_step, heap_frame_step, heap_mip_step.
  rewrite heap_startFrame_step_ne by exact Hne.
  reflexivity.
Qed.

Lemma heap_told_ne h k gi gr g cs a :
  k <> h -> heap (told h gi gr g cs a) !! k = heap a !! k.
Proof.
  intros Hne. rewrite heap_told, lookup_alter_ne by congruence.
  now rewrite heap_sync_boxes_ne.
Qed.

Lemma heap_with_window w x : heap (with_window w x) = heap x.
Proof. reflexivity. Qed.

Lemma log_with_window w x : log (with_window w x) = log x.
Proof. reflexivity. Qed.

Lemma buffers_with_window w x : buffers (with_window w x) = buffers x.
Proof. reflexivity. Qed.

Lemma log_told h gi gr g cs a :
  length cs = length (ImageSettingsWidget.checks (viewSettings a)) ->
  log (told h gi gr g cs a) = vtfFileChanged (Some h) :: log a.
Proof.
  intros Hlen. destruct (settings_only_told h gi gr g cs a Hlen) as (Hlog & _).
  rewrite Hlog. reflexivity.
Qed.

Lemma window_told h gi gr g cs a :
  length cs = length (ImageSettingsWidget.checks (viewSettings a)) ->
  window (told h gi gr g cs a) = window a.
Proof.
  intros Hlen. destruct (settings_only_told h gi gr g cs a Hlen) as (_ & Hw & _).
  rewrite Hw. reflexivity.
Qed.

Lemma buffers_told h gi gr g cs a :
  length cs = length (ImageSettingsWidget.checks (viewSettings a)) ->
  buffers (told h gi gr g cs a) = buffers a.
Proof.
  intros Hlen.
  destruct (settings_only_told h gi gr g cs a Hlen) as (_ & _ & _ & _ & Hb & _).
  rewrite Hb. reflexivity.
Qed.

Lemma view_document_parts x p k b :
  view_document x = (p, k, b) ->
  ImageViewWidget.file_ (imageView x) = p /\ cache_key x = k
  /\ ImageViewWidget.imgBuf_ (imageView x) = b.
Proof. unfold view_document. intros [= -> -> ->]. auto. Qed.

(** The last two assignments of the load, for any path. *)
Lemma installed h p x :
  let a' := with_window (ViewerMainWindow.set_path_ p)
              (with_window (ViewerMainWindow.set_file_ (Some h)) x) in
  log a' = log x
  /\ ViewerMainWindow.file_ (window a') = Some h
  /\ ViewerMainWindow.path_ (window a') = p
  /\ dirty a' = dirty x
  /\ title a' = title x
  /\ view_document a' = view_document x
  /\ settings_document a' = settings_document x
  /\ heap a' = heap x
  /\ buffers a' = buffers x
  /\ next_file a' = next_file x.
Proof.
  cbv zeta. repeat match goal with |- _ /\ _ => split end; reflexivity.
Qed.

Lemma window_opened f a :
  dirty (opened f a) = dirty a /\ title (opened f a) = title a
  /\ ViewerMainWindow.path_ (window (opened f a)) = ViewerMainWindow.path_ (window a).
Proof. repeat split. Qed.

(** The window and the event log after a successful load. *)
Lemma loaded_window gi gr g cs (f : CVTFFile) (a : App) :
  length cs = length (ImageSettingsWidget.checks (viewSettings a)) ->
  let a' := with_window (ViewerMainWindow.set_path_ "")
              (with_window (ViewerMainWindow.set_file_ (Some (next_file a)))
                 (told (next_file a) gi gr g cs (opened f a))) in
  log a' = vtfFileChanged (Some (next_file a)) :: log a
  /\ ViewerMainWindow.file_ (window a') = Some (next_file a)
  /\ ViewerMainWindow.path_ (window a') = ""%string
  /\ dirty a' = dirty a
  /\ title a' = title a.
Proof.
  intros Hlen. cbv zeta.
  assert (Hlen' : length cs
                  = length (ImageSettingsWidget.checks (viewSettings (opened f a))))
    by exact Hlen.
  destruct (installed (next_file a) "" (told (next_file a) gi gr g cs (opened f a)))
    as (Hlog & Hfile & Hpath & Hdirty & Htitle & _).
  split; [rewrite Hlog, log_told by exact Hlen'; reflexivity|].
  split; [exact Hfile|]. split; [exact Hpath|]. split.
  - rewrite Hdirty. unfold dirty. rewrite window_told by exact Hlen'.
    exact (proj1 (window_opened f a)).
  - rewrite Htitle. unfold title. rewrite window_told by exact Hlen'.
    exact (proj1 (proj2 (window_opened f a))).
Qed.

(** X11: a successful [load_file(data, size)] on a viewer whose widgets
    are set up tells the subscribers once, with the new file object, and
    leaves the window, the image view and the settings panel all holding
    that object, the guard lowered, the path empty and the decode cache
    invalidated.  The dirty bit and the title are what they were: a load
    never calls [reset_state]. *)
Theorem load_installs_document `{Env} (data : list Z) (f : CVTFFile) (a : App) :
  CVTFFile_Load data = Some f ->
  widgets_ready a ->
  exists a',
    load_file_buffer connected data a = Ok (true, a')
    /\ log a' = vtfFileChanged (Some (next_file a)) :: log a
    /\ ViewerMainWindow.file_ (window a') = Some (next_file a)
    /\ ImageViewWidget.file_ (imageView a') = Some (next_file a)
    /\ settings_document a' = (Some (next_file a), false)
    /\ cache_key a' = (-1, -1, -1)
    /\ ViewerMainWindow.path_ (window a') = ""%string
    /\ dirty a' = dirty a
    /\ title a' = title a.
Proof.
  intros Hload Hready.
  destruct (load_file_buffer_run data f a Hload Hready)
    as (gi & gr & g & cs & Hg & Hlen & Hkeep & Hrun).
  eexists. split; [exact Hrun|].
  destruct (loaded_window gi gr g cs f a Hlen) as (Hlog & Hfile & Hpath & Hd & Ht).
  destruct (installed (next_file a) "" (told (next_file a) gi gr g cs (opened f a)))
    as (_ & _ & _ & _ & _ & Hview & Hset & _).
  rewrite (view_document_told (next_file a) gi gr g cs (opened f a)) in Hview.
  destruct (view_document_parts _ _ _ _ Hview) as (Hvf & Hck & _).
  split; [exact Hlog|]. split; [exact Hfile|]. split; [exact Hvf|].
  split; [rewrite Hset; apply settings_document_told|].
  split; [exact Hck|]. split; [exact Hpath|]. split; [exact Hd|exact Ht].
Qed.

Lemma memory_loaded_ready :
  widgets_ready (H := demo_env) (state_of memory_loaded)
  /\ selection_synced (state_of memory_loaded).
Proof.
  destruct (load_file_buffer_keeps_ready (H := demo_env) demo_bytes (demo_texture 1 0)
              (App_new (H := demo_env)) eq_refl (widgets_ready_App_new (H := demo_env)))
    as (a' & Hrun & Hready & Hsync).
  unfold memory_loaded, exec. rewrite Hrun. cbn [state_of].
  split; [exact Hready|]. apply Hsync, selection_synced_App_new.
Qed.

Lemma load_installs_document_witness :
  let a := state_of memory_loaded in
  CVTFFile_Load (Env := demo_env) animated_bytes = Some (demo_texture 5 3)
  /\ widgets_ready (H := demo_env) a
  /\ exists a',
       load_file_buffer (H := demo_env) (connected (H := demo_env)) animated_bytes a
       = Ok (true, a')
       /\ log a' = vtfFileChanged (Some 1%nat) :: log a
       /\ ViewerMainWindow.file_ (window a') = Some 1%nat
       /\ dirty a' = false.
Proof.
  cbv zeta. set (a := state_of memory_loaded).
  assert (Hload : CVTFFile_Load (Env := demo_env) animated_bytes
                  = Some (demo_texture 5 3)) by reflexivity.
  assert (Hd : dirty a = false) by computed.
  assert (Hn : next_file a = 1%nat) by computed.
  assert (Hready : widgets_ready (H := demo_env) a) by apply memory_loaded_ready.
  destruct (load_installs_document (H := demo_env) animated_bytes _ a Hload Hready)
    as (a' & Hrun & Hlog & Hfile & _ & _ & _ & _ & Hdirty & _).
  split; [exact Hload|]. split; [exact Hready|].
  exists a'. split; [exact Hrun|].
  rewrite Hn in Hlog, Hfile. split; [exact Hlog|]. split; [exact Hfile|].
  rewrite Hdirty. exact Hd.
Defined.

Lemma live_sync_boxes h a : live h a -> live h (sync_boxes h a).
Proof.
  intros Hl.
  assert (Hg : guarded h (sync_boxes h a)) by (unfold sync_boxes; eauto 12 with vtf).
  exact (guarded_live _ _ Hg).
Qed.

Lemma live_told h gi gr g cs a : live h a -> live h (told h gi gr g cs a).
Proof.
  intros Hl. unfold live. rewrite heap_told, lookup_alter_eq.
  apply fmap_is_Some. apply live_sync_boxes. exact Hl.
Qed.

Lemma live_opened f a : live (next_file a) (opened f a).
Proof. unfold live. rewrite (reads_opened f a). eauto. Qed.

Lemma heap_opened_ne f k a : k <> next_file a -> heap (opened f a) !! k = heap a !! k.
Proof.
  intros Hne. unfold opened. cbn.
  now rewrite !lookup_insert_ne by congruence.
Qed.

Lemma buffers_opened f a : buffers (opened f a) = buffers a.
Proof. reflexivity. Qed.

Section Outcomes.
Context `{Env}.

(** What a rejected buffer does, as a state. *)
Lemma load_file_buffer_rejected_run (slots : list (pointer -> M unit))
    (data : list Z) (a : App) :
  CVTFFile_Load data = None ->
  load_file_buffer slots data a
  = Ok (false,
        with_window (ViewerMainWindow.set_file_ None)
          (with_heap (delete (next_file a))
             (with_window (ViewerMainWindow.set_file_ (Some (next_file a)))
                (with_next_file (S (next_file a))
                   (with_heap (insert (next_file a) CVTFFile_new) a))))).
Proof.
  intros Hrej.
  unfold load_file_buffer, bind, new_CVTFFile, modify. rewrite Hrej.
  unfold delete_CVTFFile, bind, deref, modify, ret. cbn.
  rewrite lookup_insert_eq. reflexivity.
Qed.

End Outcomes.

(** X12: whatever the bytes, [load_file(data, size)] on a viewer whose
    widgets are set up returns; it answers true exactly when the codec
    accepts the bytes; and it frees nothing that existed before the call:
    every older file object is still allocated and unchanged (the
    previous document is never deleted) and the decode buffers are the
    same.  The object allocated by the call survives exactly when the
    load succeeds. *)
Theorem load_frees_nothing `{Env} (data : list Z) (a : App) :
  widgets_ready a ->
  exists ok a',
    load_file_buffer connected data a = Ok (ok, a')
    /\ (ok = true <-> is_Some (CVTFFile_Load data))
    /\ (forall k, k <> next_file a -> heap a' !! k = heap a !! k)
    /\ (ok = true <-> is_Some (heap a' !! next_file a))
    /\ buffers a' = buffers a.
Proof.
  intros Hready. destruct (CVTFFile_Load data) as [f|] eqn:Hload.
  - destruct (load_file_buffer_run data f a Hload Hready)
      as (gi & gr & g & cs & Hg & Hlen & Hkeep & Hrun).
    eexists _, _. split; [exact Hrun|].
    assert (Hlen' : length cs
                    = length (ImageSettingsWidget.checks (viewSettings (opened f a))))
      by exact Hlen.
    destruct (installed (next_file a) "" (told (next_file a) gi gr g cs (opened f a)))
      as (_ & _ & _ & _ & _ & _ & _ & Hheap & Hbuf & _).
    rewrite Hheap, Hbuf.
    split; [split; eauto|].
    split; [intros k Hne; rewrite heap_told_ne by exact Hne;
            apply heap_opened_ne; exact Hne|].
    split; [split; [intros _; apply live_told, live_opened|reflexivity]|].
    rewrite buffers_told by exact Hlen'. apply buffers_opened.
  - rewrite (load_file_buffer_rejected_run connected data a Hload).
    eexists _, _. split; [reflexivity|].
    split; [split; [discriminate|intros [? ?]; discriminate]|].
    split; [|split; [|reflexivity]].
    + intros k Hne. cbn.
      rewrite lookup_delete_ne, lookup_insert_ne by congruence. reflexivity.
    + cbn. rewrite lookup_delete_eq.
      split; [discriminate|intros [? ?]; discriminate].
Qed.

Lemma load_frees_nothing_witness :
  let a := state_of memory_loaded in
  widgets_ready (H := demo_env) a
  /\ exists ok a',
       load_file_buffer (H := demo_env) (connected (H := demo_env)) junk_bytes a
       = Ok (ok, a')
       /\ ok = false
       /\ is_Some (heap a' !! 0%nat)
       /\ heap a' !! 1%nat = None.
Proof.
  cbv zeta. set (a := state_of memory_loaded).
  assert (Hready : widgets_ready (H := demo_env) a) by apply memory_loaded_ready.
  assert (Hn : next_file a = 1%nat) by computed.
  assert (H0 : is_Some (heap a !! 0%nat)) by (apply (bool_decide_unpack _); computed).
  destruct (load_frees_nothing (H := demo_env) junk_bytes a Hready)
    as (ok & a' & Hrun & Hok & Hold & Hnew & _).
  split; [exact Hready|]. exists ok, a'. split; [exact Hrun|].
  assert (Hfalse : ok = false).
  { destruct ok; [|reflexivity]. destruct (proj1 Hok eq_refl) as [? ?]. discriminate. }
  split; [exact Hfalse|]. rewrite Hn in Hold, Hnew.
  split; [rewrite Hold by lia; exact H0|].
  destruct (heap a' !! 1%nat) eqn:E; [|reflexivity].
  rewrite (proj2 Hnew) in Hfalse by eauto. discriminate.
Defined.

Lemma remove_last_snoc (t : string) (c : ascii) :
  Qt.remove_last (t +:+ String c "") = t.
Proof.
  induction t as [|d t IH]; [reflexivity|].
  rewrite append_String. cbn [Qt.remove_last].
  destruct (t +:+ String c "")%string eqn:E; [destruct t; discriminate|].
  now rewrite IH.
Qed.

Lemma endsWith_star_snoc (t : string) (c : ascii) :
  Qt.endsWith_star (t +:+ String c "") = Ascii.eqb c "*".
Proof.
  induction t as [|d t IH].
  - cbn. destruct (Ascii.eqb_spec c "*"%char) as [->|Hne]; [reflexivity|].
    destruct c as [[] [] [] [] [] [] [] []]; try reflexivity. now destruct Hne.
  - rewrite append_String. cbn [Qt.endsWith_star].
    destruct (t +:+ String c "")%string eqn:E; [destruct t; discriminate|exact IH].
Qed.

Lemma document_title_snoc (path : string) :
  document_title path = (("VTFView - [" +:+ get_filename path) +:+ "]")%string.
Proof.
  unfold document_title. generalize (get_filename path). intros s.
  now rewrite !append_String.
Qed.

Section PathLoads.
Context `{Env}.

Lemma load_file_path_run (path : string) (data : list Z) (ok : bool) (a a1 : App) :
  file_contents path = Some data ->
  data <> [] ->
  load_file_buffer connected data a = Ok (ok, a1) ->
  load_file_path connected path a
  = Ok (ok, with_window (ViewerMainWindow.set_path_ path)
              (with_window (ViewerMainWindow.set_windowTitle (document_title path)) a1)).
Proof.
  intros Hpath Hdata Hrun. unfold load_file_path. rewrite Hpath.
  destruct data as [|z data]; [congruence|].
  change (default [] (Some (z :: data))) with (z :: data). cbn [length Nat.eqb].
  erewrite bind_run by exact Hrun.
  unfold setWindowTitle.
  erewrite bind_run by apply modify_run.
  erewrite bind_run by apply modify_run.
  reflexivity.
Qed.

(** A save that reaches the codec and is accepted. *)
Lemma save_written (a : App) (h : nat) (f : CVTFFile) :
  dirty a = true ->
  ViewerMainWindow.path_ (window a) <> ""%string ->
  ViewerMainWindow.file_ (window a) = Some h ->
  heap a !! h = Some f ->
  CVTFFile_Save f (ViewerMainWindow.path_ (window a)) = true ->
  save a = Ok (tt, with_window (ViewerMainWindow.set_windowTitle
                                  (Qt.remove_last (title a)))
                     (with_window (ViewerMainWindow.set_dirty_ false) a)).
Proof.
  intros Hd Hp Hfile Hf Hsave.
  rewrite save_with_path by assumption.
  change (ViewerMainWindow.file_ (window (with_window _ a)))
    with (ViewerMainWindow.file_ (window a)).
  rewrite Hfile.
  erewrite bind_run by (apply deref_run; exact Hf).
  rewrite Hsave. cbn [negb].
  unfold windowTitle. erewrite bind_run by apply gets_run.
  reflexivity.
Qed.

End PathLoads.

(** The window after [load_file(path)] has named it. *)
Lemma named p x :
  let a' := with_window (ViewerMainWindow.set_path_ p)
              (with_window (ViewerMainWindow.set_windowTitle (document_title p)) x) in
  title a' = document_title p
  /\ ViewerMainWindow.path_ (window a') = p
  /\ ViewerMainWindow.file_ (window a') = ViewerMainWindow.file_ (window x)
  /\ dirty a' = dirty x
  /\ log a' = log x
  /\ heap a' = heap x.
Proof.
  cbv zeta. repeat match goal with |- _ /\ _ => split end; reflexivity.
Qed.

(** X13: [load_file(path)] of a readable file the codec accepts answers
    true, names the window after the file, records the path and installs
    the new file object, telling the subscribers once.  The dirty bit is
    not cleared, although the new title carries no ['*']. *)
Theorem load_path_names_window `{Env} (path : string) (data : list Z) (f : CVTFFile)
    (a : App) :
  file_contents path = Some data ->
  data <> [] ->
  CVTFFile_Load data = Some f ->
  widgets_ready a ->
  exists a',
    load_file_path connected path a = Ok (true, a')
    /\ title a' = document_title path
    /\ Qt.endsWith_star (title a') = false
    /\ ViewerMainWindow.path_ (window a') = path
    /\ ViewerMainWindow.file_ (window a') = Some (next_file a)
    /\ dirty a' = dirty a
    /\ log a' = vtfFileChanged (Some (next_file a)) :: log a.
Proof.
  intros Hpath Hdata Hload Hready.
  destruct (load_file_buffer_run data f a Hload Hready)
    as (gi & gr & g & cs & _ & Hlen & _ & Hrun).
  destruct (loaded_window gi gr g cs f a Hlen) as (Hlog & Hfile & _ & Hdirty & _).
  match type of Hrun with _ = Ok (true, ?s) => remember s as a1 eqn:Ea1; clear Ea1 end.
  rewrite (load_file_path_run path data true a a1 Hpath Hdata Hrun).
  eexists. split; [reflexivity|].
  destruct (named path a1) as (Ht & Hp & Hf & Hd & Hl & _).
  split; [exact Ht|].
  split; [rewrite Ht, document_title_snoc; apply endsWith_star_snoc|].
  split; [exact Hp|].
  split; [rewrite Hf; exact Hfile|].
  split; [rewrite Hd; exact Hdirty|].
  rewrite Hl. exact Hlog.
Qed.

Lemma load_path_names_window_witness :
  let a := state_of memory_loaded in
  file_contents (Env := demo_env) "textures/demo.vtf" = None
  /\ file_contents (Env := demo_env) "demo.vtf" = Some demo_bytes
  /\ demo_bytes <> []
  /\ widgets_ready (H := demo_env) a
  /\ exists a',
       load_file_path (H := demo_env) (connected (H := demo_env)) "demo.vtf" a
       = Ok (true, a')
       /\ title a' = "VTFView - [demo.vtf]"%string
       /\ ViewerMainWindow.path_ (window a') = "demo.vtf"%string.
Proof.
  cbv zeta. set (a := state_of memory_loaded).
  assert (Hready : widgets_ready (H := demo_env) a) by apply memory_loaded_ready.
  assert (Hdata : demo_bytes <> []) by discriminate.
  destruct (load_path_names_window (H := demo_env) "demo.vtf" demo_bytes
              (demo_texture 1 0) a eq_refl Hdata eq_refl Hready)
    as (a' & Hrun & Ht & _ & Hp & _).
  split; [reflexivity|]. split; [reflexivity|]. split; [exact Hdata|].
  split; [exact Hready|].
  exists a'. split; [exact Hrun|]. split; [rewrite Ht; reflexivity|exact Hp].
Defined.

Lemma load_file_buffer_live `{Env} (data : list Z) (f : CVTFFile) (a a' : App) :
  CVTFFile_Load data = Some f ->
  widgets_ready a ->
  load_file_buffer connected data a = Ok (true, a') ->
  is_Some (heap a' !! next_file a).
Proof.
  intros Hload Hready Hrun.
  destruct (load_file_buffer_run data f a Hload Hready)
    as (gi & gr & g & cs & _ & _ & _ & Hrun').
  rewrite Hrun' in Hrun. injection Hrun as <-.
  destruct (installed (next_file a) "" (told (next_file a) gi gr g cs (opened f a)))
    as (_ & _ & _ & _ & _ & _ & _ & Hheap & _).
  rewrite Hheap. apply live_told, live_opened.
Qed.

(** X14: [save] removes the last character of the title, whatever it is.
    After a document has been loaded from a path over unsaved changes the
    title ends in the closing bracket and the dirty bit is still set, so
    a save that the codec accepts clears the dirty bit and leaves the
    title without its bracket. *)
Theorem save_after_reload_truncates_title `{Env} (path : string) (data : list Z)
    (f : CVTFFile) (a : App) :
  file_contents path = Some data ->
  data <> [] ->
  CVTFFile_Load data = Some f ->
  path <> ""%string ->
  (forall f', CVTFFile_Save f' path = true) ->
  widgets_ready a ->
  dirty a = true ->
  exists a1 a2,
    load_file_path connected path a = Ok (true, a1)
    /\ save a1 = Ok (tt, a2)
    /\ title a1 = ("VTFView - [" +:+ get_filename path +:+ "]")%string
    /\ dirty a1 = true
    /\ title a2 = ("VTFView - [" +:+ get_filename path)%string
    /\ dirty a2 = false.
Proof.
  intros Hpath Hdata Hload Hne Hsave Hready Hdirty.
  destruct (load_file_buffer_run data f a Hload Hready)
    as (gi & gr & g & cs & _ & Hlen & _ & Hrun).
  destruct (loaded_window gi gr g cs f a Hlen) as (_ & Hfile & _ & Hd & _).
  match type of Hrun with _ = Ok (true, ?s) => remember s as a0 eqn:Ea0; clear Ea0 end.
  destruct (load_file_buffer_live data f a a0 Hload Hready Hrun) as [f' Hf'].
  rewrite (load_file_path_run path data true a a0 Hpath Hdata Hrun).
  destruct (named path a0) as (Ht & Hp & Hf & Hd1 & _ & Hheap).
  eexists _, _. split; [reflexivity|].
  assert (Hd2 : dirty (with_window (ViewerMainWindow.set_path_ path)
                         (with_window (ViewerMainWindow.set_windowTitle
                                         (document_title path)) a0)) = true)
    by (rewrite Hd1, Hd; exact Hdirty).
  split.
  - apply (save_written _ (next_file a) f'); [exact Hd2| | | |].
    + rewrite Hp. exact Hne.
    + rewrite Hf. exact Hfile.
    + rewrite Hheap. exact Hf'.
    + rewrite Hp. apply Hsave.
  - split; [exact Ht|]. split; [exact Hd2|]. split; [|reflexivity].
    unfold title at 1. cbn [window with_window ViewerMainWindow.windowTitle
                             ViewerMainWindow.set_windowTitle].
    rewrite Ht, document_title_snoc. apply remove_last_snoc.
Qed.

Lemma save_after_reload_truncates_title_witness :
  let a := marked (state_of memory_loaded) in
  dirty a = true
  /\ exists a1 a2,
       load_file_path (H := demo_env) (connected (H := demo_env)) "demo.vtf" a
       = Ok (true, a1)
       /\ save (H := demo_env) a1 = Ok (tt, a2)
       /\ title a1 = "VTFView - [demo.vtf]"%string
       /\ title a2 = "VTFView - [demo.vtf"%string
       /\ dirty a2 = false.
Proof.
  cbv zeta. set (a := marked (state_of memory_loaded)).
  assert (Hd : dirty a = true) by reflexivity.
  assert (Hready : widgets_ready (H := demo_env) a)
    by (do 2 apply widgets_ready_with_window; apply memory_loaded_ready).
  assert (Hdata : demo_bytes <> []) by discriminate.
  assert (Hne : "demo.vtf"%string <> ""%string) by discriminate.
  destruct (save_after_reload_truncates_title (H := demo_env) "demo.vtf" demo_bytes
              (demo_texture 1 0) a eq_refl Hdata eq_refl Hne (fun _ => eq_refl)
              Hready Hd)
    as (a1 & a2 & Hrun & Hsave & Ht1 & _ & Ht2 & Hd2).
  split; [exact Hd|]. exists a1, a2.
  split; [exact Hrun|]. split; [exact Hsave|].
  split; [rewrite Ht1; reflexivity|]. split; [rewrite Ht2; reflexivity|exact Hd2].
Defined.

(** ** The ranges of the spin boxes after a load *)

Lemma boxes_frame_step op a :
  boxes (frame_step op a)
  = (fst (op (ImageSettingsWidget.frame_ (viewSettings a))),
     ImageSettingsWidget.mip_ (viewSettings a), ImageSettingsWidget.face_ (viewSettings a),
     ImageSettingsWidget.startFrame_ (viewSettings a)).
Proof. reflexivity. Qed.

Lemma boxes_mip_step op a :
  boxes (mip_step op a)
  = (ImageSettingsWidget.frame_ (viewSettings a),
     fst (op (ImageSettingsWidget.mip_ (viewSettings a))),
     ImageSettingsWidget.face_ (viewSettings a),
     ImageSettingsWidget.startFrame_ (viewSettings a)).
Proof. reflexivity. Qed.

Lemma boxes_face_step op a :
  boxes (face_step op a)
  = (ImageSettingsWidget.frame_ (viewSettings a), ImageSettingsWidget.mip_ (viewSettings a),
     fst (op (ImageSettingsWidget.face_ (viewSettings a))),
     ImageSettingsWidget.startFrame_ (viewSettings a)).
Proof. reflexivity. Qed.

Lemma boxes_startFrame_step h op a :
  boxes (startFrame_step h op a)
  = (ImageSettingsWidget.frame_ (viewSettings a), ImageSettingsWidget.mip_ (viewSettings a),
     ImageSettingsWidget.face_ (viewSettings a),
     fst (op (ImageSettingsWidget.startFrame_ (viewSettings a)))).
Proof. reflexivity. Qed.

Lemma boxes_parts a fr mi fa sf :
  boxes a = (fr, mi, fa, sf) ->
  ImageSettingsWidget.frame_ (viewSettings a) = fr
  /\ ImageSettingsWidget.mip_ (viewSettings a) = mi
  /\ ImageSettingsWidget.face_ (viewSettings a) = fa
  /\ ImageSettingsWidget.startFrame_ (viewSettings a) = sf.
Proof. unfold boxes. intros [= -> -> -> ->]. auto. Qed.

Lemma counts_frame_step h op a : counts (peek h (frame_step op a)) = counts (peek h a).
Proof. reflexivity. Qed.

Lemma counts_mip_step h op a : counts (peek h (mip_step op a)) = counts (peek h a).
Proof. reflexivity. Qed.

Lemma counts_face_step h op a : counts (peek h (face_step op a)) = counts (peek h a).
Proof. reflexivity. Qed.

Lemma counts_startFrame_step h op a :
  counts (peek h (startFrame_step h op a)) = counts (peek h a).
Proof.
  unfold peek, startFrame_step. cbn. destruct (snd (op _)); [|reflexivity].
  rewrite lookup_alter_eq. now destruct (heap a !! h).
Qed.

Lemma counts_parts f fc mc ac :
  counts f = (fc, mc, ac) ->
  GetFrameCount f = fc /\ GetMipmapCount f = mc /\ GetFaceCount f = ac.
Proof. unfold counts. intros [= -> -> ->]. auto. Qed.

Lemma ranged_setRange lo hi b : ranged lo hi (fst (Qt.setRange lo hi b)).
Proof.
  rewrite setRange_fst. unfold ranged, in_range. cbn. lia.
Qed.

(** The boxes [set_vtf] leaves, in terms of the counts of the file. *)
Lemma sync_boxes_ranges (h : nat) (a : App) (fc mc ac : Z) :
  counts (peek h a) = (fc, mc, ac) ->
  ranged 1 (to_int fc) (ImageSettingsWidget.frame_ (viewSettings (sync_boxes h a)))
  /\ ranged 0 (to_int mc) (ImageSettingsWidget.mip_ (viewSettings (sync_boxes h a)))
  /\ ranged 1 (to_int ac) (ImageSettingsWidget.face_ (viewSettings (sync_boxes h a)))
  /\ ranged 1 (to_int fc)
       (ImageSettingsWidget.startFrame_ (viewSettings (sync_boxes h a))).
Proof.
  intros Hc. unfold sync_boxes. cbv zeta.
  set (a0 := with_viewSettings _ (with_viewSettings _ a)).
  assert (C0 : counts (peek h a0) = (fc, mc, ac)) by exact Hc.
  set (a1 := startFrame_step h _ a0).
  assert (C1 : counts (peek h a1) = (fc, mc, ac))
    by (unfold a1; rewrite counts_startFrame_step; exact C0).
  set (a2 := mip_step _ a1).
  assert (C2 : counts (peek h a2) = (fc, mc, ac))
    by (unfold a2; rewrite counts_mip_step; exact C1).
  set (a3 := frame_step _ a2).
  assert (C3 : counts (peek h a3) = (fc, mc, ac))
    by (unfold a3; rewrite counts_frame_step; exact C2).
  set (a4 := face_step _ a3).
  assert (C4 : counts (peek h a4) = (fc, mc, ac))
    by (unfold a4; rewrite counts_face_step; exact C3).
  destruct (counts_parts _ _ _ _ C4) as (_ & -> & _).
  set (a5 := mip_step _ a4).
  assert (C5 : counts (peek h a5) = (fc, mc, ac))
    by (unfold a5; rewrite counts_mip_step; exact C4).
  destruct (counts_parts _ _ _ _ C5) as (-> & _ & _).
  set (a6 := frame_step _ a5).
  assert (C6 : counts (peek h a6) = (fc, mc, ac))
    by (unfold a6; rewrite counts_frame_step; exact C5).
  destruct (counts_parts _ _ _ _ C6) as (_ & _ & ->).
  set (a7 := face_step _ a6).
  assert (C7 : counts (peek h a7) = (fc, mc, ac))
    by (unfold a7; rewrite counts_face_step; exact C6).
  destruct (counts_parts _ _ _ _ C7) as (-> & _ & _).
  destruct (boxes_parts _ _ _ _ _ (boxes_startFrame_step h (Qt.setRange 1 (to_int fc)) a7))
    as (-> & -> & -> & ->).
  destruct (boxes_parts _ _ _ _ _ (boxes_face_step (Qt.setRange 1 (to_int ac)) a6))
    as (E7fr & E7mi & E7fa & _).
  fold a7 in E7fr, E7mi, E7fa. rewrite E7fr, E7mi, E7fa.
  destruct (boxes_parts _ _ _ _ _ (boxes_frame_step (Qt.setRange 1 (to_int fc)) a5))
    as (E6fr & E6mi & _ & _).
  fold a6 in E6fr, E6mi. rewrite E6fr, E6mi.
  destruct (boxes_parts _ _ _ _ _ (boxes_mip_step (Qt.setRange 0 (to_int mc)) a4))
    as (_ & E5mi & _ & _).
  fold a5 in E5mi. rewrite E5mi.
  split; [apply ranged_setRange|]. split; [apply ranged_setRange|].
  split; apply ranged_setRange.
Qed.

Lemma boxes_settled_all b h g cs x :
  boxes (with_viewSettings (ImageSettingsWidget.set_settingFile_ b)
           (flags_synced h g cs x)) = boxes x.
Proof. reflexivity. Qed.

Lemma boxes_with_window w x : boxes (with_window w x) = boxes x.
Proof. reflexivity. Qed.

Lemma boxes_same a b :
  boxes a = boxes b ->
  ImageSettingsWidget.frame_ (viewSettings a) = ImageSettingsWidget.frame_ (viewSettings b)
  /\ ImageSettingsWidget.mip_ (viewSettings a) = ImageSettingsWidget.mip_ (viewSettings b)
  /\ ImageSettingsWidget.face_ (viewSettings a) = ImageSettingsWidget.face_ (viewSettings b)
  /\ ImageSettingsWidget.startFrame_ (viewSettings a)
     = ImageSettingsWidget.startFrame_ (viewSettings b).
Proof. unfold boxes. intros [= -> -> -> ->]. auto. Qed.

(** X15: after a successful load the four spin boxes have the ranges
    [set_vtf] computes from the counts of the file: frame and start frame
    [1, max 1 frameCount], mip [0, max 0 mipCount], face
    [1, max 1 faceCount], each box holding a value inside its range; when
    the image view followed the boxes before the load it follows them
    after it, so the frame and the face it will decode are at least 1 and
    the mip is between 0 and the mip count inclusive. *)
Theorem load_sets_ranges `{Env} (data : list Z) (f : CVTFFile) (a : App) :
  CVTFFile_Load data = Some f ->
  widgets_ready a ->
  exists a',
    load_file_buffer connected data a = Ok (true, a')
    /\ ranged 1 (to_int (GetFrameCount f)) (ImageSettingsWidget.frame_ (viewSettings a'))
    /\ ranged 0 (to_int (GetMipmapCount f)) (ImageSettingsWidget.mip_ (viewSettings a'))
    /\ ranged 1 (to_int (GetFaceCount f)) (ImageSettingsWidget.face_ (viewSettings a'))
    /\ ranged 1 (to_int (GetFrameCount f))
         (ImageSettingsWidget.startFrame_ (viewSettings a'))
    /\ (selection_synced a -> view_selection a' = selection a').
Proof.
  intros Hload Hready.
  destruct (load_file_buffer_run data f a Hload Hready)
    as (gi & gr & g & cs & Hg & Hlen & Hkeep & Hrun).
  eexists. split; [exact Hrun|].
  pose proof (reads_before_settings (next_file a) gi gr f _ (reads_opened f a)) as Hrx.
  assert (Hc : counts (peek (next_file a)
                         (before_settings (next_file a) gi gr (opened f a)))
               = (GetFrameCount f, GetMipmapCount f, GetFaceCount f))
    by (rewrite (reads_peek _ _ _ Hrx); reflexivity).
  destruct (sync_boxes_ranges _ _ _ _ _ Hc) as (Rfr & Rmi & Rfa & Rsf).
  assert (Hb : boxes (with_window (ViewerMainWindow.set_path_ "")
                        (with_window (ViewerMainWindow.set_file_ (Some (next_file a)))
                           (told (next_file a) gi gr g cs (opened f a))))
               = boxes (sync_boxes (next_file a)
                          (before_settings (next_file a) gi gr (opened f a)))).
  { rewrite !boxes_with_window. unfold told. apply boxes_settled_all. }
  destruct (boxes_same _ _ Hb) as (-> & -> & -> & ->).
  split; [exact Rfr|]. split; [exact Rmi|]. split; [exact Rfa|]. split; [exact Rsf|].
  intros Hsync.
  rewrite !view_selection_with_window, !selection_with_window,
    view_selection_told, selection_told.
  apply selection_synced_sync_boxes, selection_synced_before_settings, Hsync.
Qed.

Lemma load_sets_ranges_witness :
  let a := state_of memory_loaded in
  widgets_ready (H := demo_env) a
  /\ exists a',
       load_file_buffer (H := demo_env) (connected (H := demo_env)) animated_bytes a
       = Ok (true, a')
       /\ Qt.maximum (ImageSettingsWidget.frame_ (viewSettings a')) = 5
       /\ Qt.maximum (ImageSettingsWidget.mip_ (viewSettings a')) = 9
       /\ Qt.minimum (ImageSettingsWidget.face_ (viewSettings a')) = 1.
Proof.
  cbv zeta. set (a := state_of memory_loaded).
  assert (Hready : widgets_ready (H := demo_env) a) by apply memory_loaded_ready.
  destruct (load_sets_ranges (H := demo_env) animated_bytes (demo_texture 5 3) a
              eq_refl Hready)
    as (a' & Hrun & (_ & Hfr & _) & (_ & Hmi & _) & (Hfa & _) & _).
  split; [exact Hready|]. exists a'. split; [exact Hrun|].
  split; [rewrite Hfr; reflexivity|]. split; [rewrite Hmi; reflexivity|exact Hfa].
Defined.

(** ** The image view takes a document *)

(** X16: [ImageViewWidget::set_vtf] on a live document makes the image
    fit: afterwards the widget is at least as wide and as high as the
    image (for dimensions Qt can represent).  It keeps its size when the
    image already fits and otherwise takes the size of the image, not less
    than 256 in either direction, so that a widget too low for the image
    can become narrower.  Zoom is 1, pan (0, 0), the decode cache is
    invalid, and the pending selection is not touched. *)
Theorem set_vtf_fits_image (h : nat) (f : CVTFFile) (a : App) :
  heap a !! h = Some f ->
  to_int (GetWidth f) <= 16777215 ->
  to_int (GetHeight f) <= 16777215 ->
  let size := ImageViewWidget.size (imageView a) in
  let fits := (to_int (GetWidth f) <=? fst size) && (to_int (GetHeight f) <=? snd size) in
  exists a',
    ImageViewWidget_set_vtf (Some h) a = Ok (tt, a')
    /\ to_int (GetWidth f) <= fst (ImageViewWidget.size (imageView a'))
    /\ to_int (GetHeight f) <= snd (ImageViewWidget.size (imageView a'))
    /\ ImageViewWidget.size (imageView a')
       = (if fits then size
          else (Z.max 256 (to_int (GetWidth f)), Z.max 256 (to_int (GetHeight f))))
    /\ ImageViewWidget.file_ (imageView a') = Some h
    /\ view_transform a' = (1%Q, (0, 0))
    /\ cache_key a' = (-1, -1, -1)
    /\ view_selection a' = view_selection a.
Proof.
  intros Hf Hw Hh. cbv zeta.
  assert (Hl : live h a) by (unfold live; rewrite Hf; eauto).
  rewrite (ImageViewWidget_set_vtf_run h a Hl).
  eexists. split; [reflexivity|].
  destruct (view_document_parts _ _ _ _ (view_document_view_reset h a))
    as (Hfile & Hkey & _).
  assert (Hsize : ImageViewWidget.size (imageView (view_reset h a))
                  = if (to_int (GetWidth f) <=? fst (ImageViewWidget.size (imageView a)))
                       && (to_int (GetHeight f) <=? snd (ImageViewWidget.size (imageView a)))
                    then ImageViewWidget.size (imageView a)
                    else (Z.max 256 (to_int (GetWidth f)),
                          Z.max 256 (to_int (GetHeight f)))).
  { unfold view_reset. cbv zeta.
    replace (peek h _) with f by (unfold peek; cbn; now rewrite Hf).
    cbn [imageView with_imageView ImageViewWidget.size ImageViewWidget.set_pos_
         ImageViewWidget.set_zoom_ ImageViewWidget.set_currentMip_
         ImageViewWidget.set_currentFace_ ImageViewWidget.set_currentFrame_
         ImageViewWidget.set_file_ fst snd].
    destruct (ImageViewWidget.size (imageView a)) as [w0 h0] eqn:Hsz. cbn [fst snd].
    destruct (Z.ltb_spec w0 (to_int (GetWidth f)));
      destruct (Z.ltb_spec h0 (to_int (GetHeight f)));
      destruct (Z.leb_spec (to_int (GetWidth f)) w0);
      destruct (Z.leb_spec (to_int (GetHeight f)) h0); try lia;
      cbn [orb andb ImageViewWidget.size ImageViewWidget.set_size
           ImageViewWidget.set_pos_ ImageViewWidget.set_zoom_
           ImageViewWidget.set_currentMip_ ImageViewWidget.set_currentFace_
           ImageViewWidget.set_currentFrame_ ImageViewWidget.set_file_];
      first [exact Hsz | f_equal; lia]. }
  rewrite Hsize.
  split; [|split].
  - destruct (Z.leb_spec (to_int (GetWidth f)) (fst (ImageViewWidget.size (imageView a))));
      destruct (_ <=? _); cbn [andb fst]; lia.
  - destruct (Z.leb_spec (to_int (GetHeight f)) (snd (ImageViewWidget.size (imageView a))));
      destruct (_ <=? _); cbn [andb snd]; lia.
  - split; [reflexivity|]. split; [exact Hfile|].
    split; [apply view_transform_view_reset|].
    split; [exact Hkey|apply view_selection_view_reset].
Qed.

Lemma set_vtf_fits_image_witness :
  let a := with_imageView (ImageViewWidget.set_size (1000, 100)) (state_of memory_loaded) in
  heap a !! 0%nat = Some (demo_texture 1 1)
  /\ exists a',
       ImageViewWidget_set_vtf (Some 0%nat) a = Ok (tt, a')
       /\ ImageViewWidget.size (imageView a') = (256, 256).
Proof.
  cbv zeta.
  set (a := with_imageView (ImageViewWidget.set_size (1000, 100)) (state_of memory_loaded)).
  assert (Hf : heap a !! 0%nat = Some (demo_texture 1 1)) by computed.
  assert (Hw : to_int (GetWidth (demo_texture 1 1)) <= 16777215) by computed.
  assert (Hh : to_int (GetHeight (demo_texture 1 1)) <= 16777215) by computed.
  destruct (set_vtf_fits_image 0 _ a Hf Hw Hh)
    as (a' & Hrun & _ & _ & Hsize & _).
  split; [exact Hf|]. exists a'. split; [exact Hrun|].
  rewrite Hsize. computed.
Defined.

(** ** The resource table *)

Section ResourceRows.
Context `{Env}.

Lemma resource_rows_loop (h : nat) (f : CVTFFile) (is_ : list nat) (a : App) :
  heap a !! h = Some f ->
  for_each is_ (fun i =>
    f <- deref (Some h) ;;
    let type := GetResourceType f i in
    f <- deref (Some h) ;;
    let size := GetResourceData f type in
    modify (with_resList (fun r =>
      {| ResourceWidget.table_ :=
           ResourceWidget.table_ r ++
           [ (QString (GetResourceName type), hex_text type, bytes_text size) ] |}))) a
  = Ok (tt, with_resList (fun r =>
              {| ResourceWidget.table_ :=
                   ResourceWidget.table_ r
                   ++ map (fun i => resource_row f (GetResourceType f i)) is_ |}) a).
Proof.
  revert a. induction is_ as [|i rest IH]; intros a Hf.
  - destruct a as [hp nf bs nb w iw [tb] iv vs lg].
    unfold with_resList. cbn. unfold ret. now rewrite app_nil_r.
  - cbn [for_each map].
    erewrite bind_run.
    2:{ erewrite bind_run by (apply deref_run; exact Hf).
        erewrite bind_run by (apply deref_run; exact Hf).
        apply modify_run. }
    rewrite IH by exact Hf.
    unfold with_resList, resource_row. cbn. now rewrite <- app_assoc.
Qed.

End ResourceRows.

(** X17: [ResourceWidget::set_vtf] on a live document discards the rows
    of the previous document and writes one row per resource of the new
    one, in order: name and type of the resource at that index, and the
    size the codec reports for that type, which for a type that occurs
    more than once is the size of its first occurrence.  Nothing but the
    table changes. *)
Theorem resource_table_rows `{Env} (h : nat) (f : CVTFFile) (a : App) :
  heap a !! h = Some f ->
  ResourceWidget_set_vtf (Some h) a
  = Ok (tt, with_resList (fun _ =>
              {| ResourceWidget.table_ :=
                   map (fun r => resource_row f (fst r)) (resources f) |}) a).
Proof.
  intros Hf. unfold ResourceWidget_set_vtf.
  erewrite bind_run by apply modify_run.
  erewrite bind_run by (apply deref_run; exact Hf).
  etransitivity; [apply (resource_rows_loop h f); exact Hf|].
  unfold GetResourceCount. rewrite Nat2Z.id.
  unfold with_resList. cbn. do 4 f_equal.
  unfold GetResourceType.
  set (row := resource_row f). generalize (resources f). intros rs.
  induction rs as [|[ty sz] rs IH] using rev_ind; [reflexivity|].
  rewrite length_app, Nat.add_comm. cbn [length Nat.add].
  rewrite seq_S, !map_app. cbn [map Nat.add].
  f_equal.
  - rewrite <- IH. apply map_ext_in. intros i Hi%in_seq.
    now rewrite lookup_app_l by lia.
  - rewrite list_lookup_middle by reflexivity. reflexivity.
Qed.

Lemma resource_table_rows_witness :
  let a := state_of memory_loaded in
  heap a !! 0%nat = Some (demo_texture 1 1)
  /\ exists a',
       ResourceWidget_set_vtf (H := demo_env) (Some 0%nat) a = Ok (tt, a')
       /\ ResourceWidget.table_ (resList a')
          = [ (QString "Low-res Image", hex_text 1, bytes_text 0);
              (QString "Image", hex_text 48, bytes_text 87376) ].
Proof.
  cbv zeta. set (a := state_of memory_loaded).
  assert (Hf : heap a !! 0%nat = Some (demo_texture 1 1)) by computed.
  split; [exact Hf|]. eexists.
  split; [exact (resource_table_rows (H := demo_env) 0 _ a Hf)|].
  reflexivity.
Defined.

(** ** The info panel *)

Section InfoPanel.
Context `{Env}.

Lemma update_info_fields (h : nat) (f : CVTFFile) (a : App) :
  heap a !! h = Some f ->
  (forall name, In name (FILE_FIELDS ++ INFO_FIELDS) ->
     is_Some (InfoWidget.fields_ (infoWidget a) !! name)) ->
  update_info (Some h) a
  = Ok (tt, with_infoWidget (fun w =>
              {| InfoWidget.fields_ :=
                   <[ "Reflectivity"%string := reflectivity_text (GetReflectivity f) ]>
                  (<[ "Size"%string := size_text (GetSize f) ]>
                  (<[ "Version"%string :=
                        version_text (GetMajorVersion f) (GetMinorVersion f) ]>
                  (<[ "Image format"%string :=
                        QString (ImageFormatToString (GetFormat f)) ]>
                  (<[ "Mips"%string := QString_number (GetMipmapCount f) ]>
                  (<[ "Faces"%string := QString_number (GetFaceCount f) ]>
                  (<[ "Frames"%string := QString_number (GetFrameCount f) ]>
                  (<[ "Depth"%string := QString_number (GetDepth f) ]>
                  (<[ "Height"%string := QString_number (GetHeight f) ]>
                  (<[ "Width"%string := QString_number (GetWidth f) ]>
                     (InfoWidget.fields_ w)))))))))) |}) a).
Proof.
  intros Hf Hready.
  unfold update_info.
  repeat (erewrite bind_run by (apply deref_run; exact Hf);
          first [ erewrite bind_run
                    by (apply find_setText_run; cbn;
                        repeat apply is_Some_insert_keep; apply Hready; cbn; tauto)
                | rewrite find_setText_run
                    by (cbn; repeat apply is_Some_insert_keep; apply Hready; cbn; tauto) ]).
  rewrite !with_infoWidget_twice. reflexivity.
Qed.

End InfoPanel.

(** X18: [InfoWidget::update_info] on a live document, in a panel that
    has the fields [setup_ui] creates, fills every one of those fields
    from the new document, so that no field keeps the text of the
    previous one; a later write never clobbers an earlier one; fields of
    other names, if there are any, and everything outside the panel stay
    as they are. *)
Theorem update_info_shows_document `{Env} (h : nat) (f : CVTFFile) (a : App) :
  heap a !! h = Some f ->
  (forall name, In name (FILE_FIELDS ++ INFO_FIELDS) ->
     is_Some (InfoWidget.fields_ (infoWidget a) !! name)) ->
  exists g,
    update_info (Some h) a = Ok (tt, with_infoWidget g a)
    /\ (forall name,
          InfoWidget.fields_ (g (infoWidget a)) !! name
          = match shown f name with
            | Some t => Some t
            | None => InfoWidget.fields_ (infoWidget a) !! name
            end)
    /\ (forall name, In name (FILE_FIELDS ++ INFO_FIELDS) -> is_Some (shown f name)).
Proof.
  intros Hf Hready. eexists.
  split; [exact (update_info_fields h f a Hf Hready)|]. split.
  - intros name. cbn [InfoWidget.fields_]. unfold shown.
    repeat (rewrite lookup_insert;
            match goal with
            | |- context [decide (?k = name)] =>
                destruct (decide (k = name)) as [<-|?]; [reflexivity|]
            end).
    repeat match goal with Hne : _ <> name |- _ =>
             apply not_eq_sym, String.eqb_neq in Hne; rewrite Hne; clear Hne end.
    reflexivity.
  - intros name Hin. cbn in Hin.
    repeat (destruct Hin as [<-|Hin]; [cbn; eauto|]). destruct Hin.
Qed.

Lemma update_info_shows_document_witness :
  let a := state_of memory_loaded in
  heap a !! 0%nat = Some (demo_texture 1 1)
  /\ exists g,
       update_info (H := demo_env) (Some 0%nat) a = Ok (tt, with_infoWidget g a)
       /\ InfoWidget.fields_ (g (infoWidget a)) !! "Mips"%string = Some (QString_number 9)
       /\ InfoWidget.fields_ (g (infoWidget a)) !! "Version"%string
          = Some (version_text 7 2).
Proof.
  cbv zeta. set (a := state_of memory_loaded).
  assert (Hf : heap a !! 0%nat = Some (demo_texture 1 1)) by computed.
  destruct (update_info_shows_document (H := demo_env) 0 _ a Hf
              (ready_fields a (proj1 memory_loaded_ready)))
    as (g & Hrun & Hshown & _).
  split; [exact Hf|]. exists g. split; [exact Hrun|].
  split; rewrite Hshown; reflexivity.
Defined.

(** ** The flag check boxes *)

Section CheckBoxes.
Context `{Env}.

Lemma add_checks_boxes entries s :
  ImageSettingsWidget.checks (foldl add_check s entries)
  = ImageSettingsWidget.checks s ++ boxes_of entries.
Proof.
  revert s. induction entries as [|e rest IH]; intros s.
  - cbn. now rewrite app_nil_r.
  - cbn [foldl boxes_of map]. rewrite IH. unfold add_check. cbn.
    now rewrite <- app_assoc.
Qed.

Lemma add_checks_registered entries s k :
  ImageSettingsWidget.flagChecks_ (foldl add_check s entries) !! k
  = match ImageSettingsWidget.flagChecks_ s !! k with
    | Some i => Some i
    | None => (fun j => (length (ImageSettingsWidget.checks s) + j)%nat)
                <$> first_entry k entries
    end.
Proof.
  revert s. induction entries as [|e rest IH]; intros s.
  - cbn. now destruct (_ !! k).
  - cbn [foldl first_entry]. rewrite IH. unfold add_check, flagChecks_insert. cbn.
    rewrite length_app. cbn [length].
    destruct (ImageSettingsWidget.flagChecks_ s !! flag_value (fst e)) as [i0|] eqn:E0.
    + destruct (Z.eqb_spec (flag_value (fst e)) k) as [<-|Hne].
      * now rewrite E0.
      * destruct (ImageSettingsWidget.flagChecks_ s !! k); [reflexivity|].
        destruct (first_entry k rest); cbn; [f_equal; lia|reflexivity].
    + rewrite lookup_insert.
      destruct (Z.eqb_spec (flag_value (fst e)) k) as [<-|Hne].
      * rewrite decide_True by reflexivity. rewrite E0. cbn. f_equal. lia.
      * rewrite decide_False by exact Hne.
        destruct (ImageSettingsWidget.flagChecks_ s !! k); [reflexivity|].
        destruct (first_entry k rest); cbn; [f_equal; lia|reflexivity].
Qed.

Lemma first_entry_spec k entries i :
  first_entry k entries = Some i ->
  (exists e, entries !! i = Some e /\ flag_value (fst e) = k)
  /\ forall j e, (j < i)%nat -> entries !! j = Some e -> flag_value (fst e) <> k.
Proof.
  revert i. induction entries as [|e rest IH]; intros i; [discriminate|].
  cbn [first_entry]. destruct (Z.eqb_spec (flag_value (fst e)) k) as [Hk|Hne].
  - intros [= <-]. split; [exists e; split; [reflexivity|exact Hk]|]. intros j ? Hj. lia.
  - destruct (first_entry k rest) as [i'|]; [|discriminate]. intros [= <-].
    destruct (IH i' eq_refl) as [Hat Hfirst]. split; [exact Hat|].
    intros [|j] e' Hj; cbn; [intros [= <-]; exact Hne|].
    intros He'. apply (Hfirst j e'); [lia|exact He'].
Qed.

Lemma first_entry_in k entries :
  first_entry k entries = None ->
  forall e, In e entries -> flag_value (fst e) <> k.
Proof.
  induction entries as [|e rest IH]; intros Hnone e' []; cbn [first_entry] in Hnone;
    destruct (Z.eqb_spec (flag_value (fst e)) k) as [Hk|Hne]; try discriminate.
  - now subst e'.
  - apply IH; [|assumption]. now destruct (first_entry k rest).
Qed.

End CheckBoxes.

(** X19: whatever the values of the flag constants,
    [ImageSettingsWidget::setup_ui] creates one unchecked check box per
    entry of [TEXTURE_FLAGS], in table order, each capturing the flag of
    its entry, and registers under a flag value the box of the first entry
    that has this value: [insert] keeps an existing key, so the box of a
    later entry that repeats a value is registered nowhere, and a value no
    entry has is not registered. *)
Theorem setup_ui_registers_first_box `{Env} :
  ImageSettingsWidget.checks ImageSettingsWidget_setup_ui = boxes_of TEXTURE_FLAGS
  /\ (forall k, ImageSettingsWidget.flagChecks_ ImageSettingsWidget_setup_ui !! k
                = first_entry k TEXTURE_FLAGS)
  /\ (forall k i, first_entry k TEXTURE_FLAGS = Some i ->
        (exists e, TEXTURE_FLAGS !! i = Some e /\ flag_value (fst e) = k)
        /\ forall j e, (j < i)%nat -> TEXTURE_FLAGS !! j = Some e ->
                       flag_value (fst e) <> k)
  /\ (forall k, first_entry k TEXTURE_FLAGS = None ->
        forall e, In e TEXTURE_FLAGS -> flag_value (fst e) <> k).
Proof.
  unfold ImageSettingsWidget_setup_ui.
  change (foldl _ ?s TEXTURE_FLAGS) with (foldl add_check s TEXTURE_FLAGS).
  split; [rewrite add_checks_boxes; reflexivity|].
  split.
  - intros k. rewrite add_checks_registered. cbn [ImageSettingsWidget.flagChecks_].
    rewrite lookup_empty. cbn [ImageSettingsWidget.checks length].
    destruct (first_entry k TEXTURE_FLAGS); reflexivity.
  - split; [intros k i; apply first_entry_spec|intros k; apply first_entry_in].
Qed.

(** *** The check boxes after [set_vtf] *)

Lemma flags_startFrame_step h op a :
  GetFlags (peek h (startFrame_step h op a)) = GetFlags (peek h a).
Proof.
  unfold peek, startFrame_step. cbn. destruct (snd (op _)); [|reflexivity].
  rewrite lookup_alter_eq. now destruct (heap a !! h).
Qed.

Lemma peek_frame_step h op a : peek h (frame_step op a) = peek h a.
Proof. reflexivity. Qed.

Lemma peek_mip_step h op a : peek h (mip_step op a) = peek h a.
Proof. reflexivity. Qed.

Lemma peek_face_step h op a : peek h (face_step op a) = peek h a.
Proof. reflexivity. Qed.

Lemma flags_sync_boxes h a : GetFlags (peek h (sync_boxes h a)) = GetFlags (peek h a).
Proof.
  unfold sync_boxes. cbv zeta.
  rewrite flags_startFrame_step.
  rewrite peek_face_step, peek_frame_step, peek_mip_step,
    peek_face_step, peek_frame_step, peek_mip_step.
  rewrite flags_startFrame_step. reflexivity.
Qed.

Lemma check_boxes_frame_step op a : check_boxes (frame_step op a) = check_boxes a.
Proof. reflexivity. Qed.

Lemma check_boxes_mip_step op a : check_boxes (mip_step op a) = check_boxes a.
Proof. reflexivity. Qed.

Lemma check_boxes_face_step op a : check_boxes (face_step op a) = check_boxes a.
Proof. reflexivity. Qed.

Lemma check_boxes_startFrame_step h op a :
  check_boxes (startFrame_step h op a) = check_boxes a.
Proof. reflexivity. Qed.

Lemma check_boxes_sync_boxes h a : check_boxes (sync_boxes h a) = check_boxes a.
Proof.
  unfold sync_boxes. cbv zeta.
  rewrite check_boxes_startFrame_step.
  rewrite check_boxes_face_step, check_boxes_frame_step, check_boxes_mip_step,
    check_boxes_face_step, check_boxes_frame_step, check_boxes_mip_step.
  rewrite check_boxes_startFrame_step. reflexivity.
Qed.

Lemma check_boxes_parts a cs fc :
  check_boxes a = (cs, fc) ->
  ImageSettingsWidget.checks (viewSettings a) = cs
  /\ ImageSettingsWidget.flagChecks_ (viewSettings a) = fc.
Proof. unfold check_boxes. intros [= -> ->]. auto. Qed.

Section FlagMarks.
Context `{Env}.

(** One [setChecked] under the guard, with the check boxes it leaves. *)
Lemma flagChecks_setChecked_marks (h : nat) (flag : Z) (on : bool) (a : App) (i : nat)
    (c : ImageSettingsWidget.FlagCheck) :
  guarded h a ->
  ImageSettingsWidget.flagChecks_ (viewSettings a) !! flag = Some i ->
  ImageSettingsWidget.checks (viewSettings a) !! i = Some c ->
  exists g,
    flags_only g
    /\ flagChecks_setChecked flag on a
       = Ok (tt, flags_synced h g
                   (<[ i := {| ImageSettingsWidget.flag := ImageSettingsWidget.flag c;
                               ImageSettingsWidget.isChecked := on |} ]>
                      (ImageSettingsWidget.checks (viewSettings a))) a).
Proof.
  intros (Hset & Hfile & f & Hf) Hi Hc.
  unfold flagChecks_setChecked, bind, gets. cbn. rewrite Hi.
  unfold setChecked, bind, gets. cbn. rewrite Hc.
  destruct (Bool.eqb (ImageSettingsWidget.isChecked c) on) eqn:Esame.
  - exists (fun f => f). split; [apply flags_only_id|].
    apply Bool.eqb_prop in Esame. subst on.
    replace {| ImageSettingsWidget.flag := ImageSettingsWidget.flag c;
               ImageSettingsWidget.isChecked := ImageSettingsWidget.isChecked c |}
      with c by now destruct c.
    rewrite list_insert_id by exact Hc.
    now rewrite flags_synced_nothing.
  - eexists (SetFlag (ImageSettingsWidget.flag c) (negb ((if on then 2 else 0) =? 0))).
    split; [apply flags_only_SetFlag|].
    unfold modify, check_stateChanged, bind, gets, mutate, bind, deref, modify, ret.
    cbn. rewrite Hfile. cbn. rewrite Hf. cbn. rewrite Hset. cbn.
    unfold flags_synced, with_heap. cbn.
    rewrite (insert_as_alter _ _ _ _ Hf). reflexivity.
Qed.

(** The loop over any part of the table: every box an entry of the part
    is registered under shows what the loop asked for, and no other box
    changes. *)
Lemma flag_loop_marks (h : nat) (on : Z -> bool)
    (entries : list (VTFImageFlag * string)) (a : App) :
  guarded h a ->
  keyed (viewSettings a) ->
  (forall e, In e entries ->
     is_Some (ImageSettingsWidget.flagChecks_ (viewSettings a) !! flag_value (fst e))) ->
  exists g cs,
    flags_only g
    /\ for_each entries (fun entry =>
         flagChecks_setChecked (flag_value (fst entry)) (on (flag_value (fst entry)))) a
       = Ok (tt, flags_synced h g cs a)
    /\ (forall i, ImageSettingsWidget.flag <$> cs !! i
                  = ImageSettingsWidget.flag
                      <$> ImageSettingsWidget.checks (viewSettings a) !! i)
    /\ (forall e i, In e entries ->
          ImageSettingsWidget.flagChecks_ (viewSettings a) !! flag_value (fst e) = Some i ->
          ImageSettingsWidget.isChecked <$> cs !! i = Some (on (flag_value (fst e))))
    /\ (forall i, (forall e, In e entries ->
                     ImageSettingsWidget.flagChecks_ (viewSettings a)
                       !! flag_value (fst e) <> Some i) ->
                  cs !! i = ImageSettingsWidget.checks (viewSettings a) !! i).
Proof.
  revert a. induction entries as [|e rest IH]; intros a Hg Hkeyed Hreg.
  - exists (fun f => f), (ImageSettingsWidget.checks (viewSettings a)).
    split; [apply flags_only_id|].
    split; [cbn; unfold ret; now rewrite flags_synced_nothing|].
    split; [reflexivity|]. split; [intros ? ? []|reflexivity].
  - destruct (Hreg e (or_introl eq_refl)) as [i0 Hi0].
    destruct (Hkeyed _ _ Hi0) as (c0 & Hc0 & Hflag0).
    destruct (flagChecks_setChecked_marks h _ (on (flag_value (fst e))) a i0 c0
                Hg Hi0 Hc0) as (g1 & Hg1 & Hrun1).
    set (cs1 := <[ i0 := {| ImageSettingsWidget.flag := ImageSettingsWidget.flag c0;
                            ImageSettingsWidget.isChecked := on (flag_value (fst e)) |} ]>
                  (ImageSettingsWidget.checks (viewSettings a))) in *.
    assert (Hflags1 : forall i, ImageSettingsWidget.flag <$> cs1 !! i
                        = ImageSettingsWidget.flag
                            <$> ImageSettingsWidget.checks (viewSettings a) !! i).
    { intros i. unfold cs1. destruct (decide (i = i0)) as [->|Hne].
      - rewrite list_lookup_insert_eq by (apply lookup_lt_Some in Hc0; exact Hc0).
        now rewrite Hc0.
      - now rewrite list_lookup_insert_ne by congruence. }
    destruct (IH (flags_synced h g1 cs1 a)) as (g2 & cs2 & Hg2 & Hrun2 & Hflags2 & Hon2 & Hoff2).
    + now apply guarded_flags_synced.
    + intros k i Hk. destruct (Hkeyed k i Hk) as (c & Hc & Hflag).
      pose proof (Hflags1 i) as Hfi. rewrite Hc in Hfi. cbn in Hfi.
      change (ImageSettingsWidget.checks (viewSettings (flags_synced h g1 cs1 a)))
        with cs1.
      destruct (cs1 !! i) as [c'|]; [|discriminate].
      exists c'. split; [reflexivity|]. injection Hfi as Hfi. congruence.
    + intros e' He'. exact (Hreg e' (or_intror He')).
    + change (ImageSettingsWidget.checks (viewSettings (flags_synced h g1 cs1 a)))
        with cs1 in Hflags2, Hoff2.
      change (ImageSettingsWidget.flagChecks_ (viewSettings (flags_synced h g1 cs1 a)))
        with (ImageSettingsWidget.flagChecks_ (viewSettings a)) in Hon2, Hoff2.
      exists (g2 ∘ g1), cs2. split; [now apply flags_only_compose|].
      split.
      { cbn [for_each]. erewrite bind_run by exact Hrun1.
        rewrite Hrun2. now rewrite flags_synced_twice. }
      split; [intros i; now rewrite Hflags2|].
      split.
      * intros e' i [<-|Hin] Hi; [|now apply Hon2].
        assert (i = i0) by congruence. subst i.
        destruct (decide (Exists
                    (fun e'' => ImageSettingsWidget.flagChecks_ (viewSettings a)
                                  !! flag_value (fst e'') = Some i0) rest)) as [Hex|Hno].
        -- apply Exists_exists in Hex. destruct Hex as (e'' & Hin'' & Hi'').
           apply list_elem_of_In in Hin''.
           rewrite (Hon2 e'' i0 Hin'' Hi''). f_equal. f_equal.
           destruct (Hkeyed _ _ Hi'') as (c'' & Hc'' & Hflag'').
           congruence.
        -- rewrite Hoff2.
           { unfold cs1.
             rewrite list_lookup_insert_eq by (apply lookup_lt_Some in Hc0; exact Hc0).
             reflexivity. }
           intros e'' Hin'' Hi''. apply Hno, Exists_exists.
           exists e''. split; [apply list_elem_of_In; exact Hin''|exact Hi''].
      * intros i Hnone. rewrite Hoff2.
        { unfold cs1. apply list_lookup_insert_ne. intros ->.
          exact (Hnone e (or_introl eq_refl) Hi0). }
        intros e'' Hin''. apply Hnone. now right.
Qed.

End FlagMarks.

Lemma check_boxes_settled b h g cs x :
  check_boxes (with_viewSettings (ImageSettingsWidget.set_settingFile_ b)
                 (flags_synced h g cs x))
  = (cs, ImageSettingsWidget.flagChecks_ (viewSettings x)).
Proof. reflexivity. Qed.

(** X20: [ImageSettingsWidget::set_vtf] on a live document, in a panel
    whose registered check boxes are the ones created for their flags,
    leaves every box that a table entry is registered under checked
    exactly when the flags word of the document has a bit in common with
    the flag of the entry; a box no entry is registered under (the box of
    an entry whose flag value repeats an earlier one) keeps whatever mark
    it had.  The registration is unchanged and the guard is lowered. *)
Theorem set_vtf_checks_show_flags `{Env} (h : nat) (f : CVTFFile) (a : App) :
  heap a !! h = Some f ->
  keyed (viewSettings a) ->
  (forall e, In e TEXTURE_FLAGS ->
     is_Some (ImageSettingsWidget.flagChecks_ (viewSettings a) !! flag_value (fst e))) ->
  exists a',
    ImageSettingsWidget_set_vtf (Some h) a = Ok (tt, a')
    /\ ImageSettingsWidget.flagChecks_ (viewSettings a')
       = ImageSettingsWidget.flagChecks_ (viewSettings a)
    /\ keyed (viewSettings a')
    /\ (forall e i, In e TEXTURE_FLAGS ->
          ImageSettingsWidget.flagChecks_ (viewSettings a) !! flag_value (fst e) = Some i ->
          ImageSettingsWidget.isChecked <$> ImageSettingsWidget.checks (viewSettings a') !! i
          = Some (negb (Z.land (GetFlags f) (flag_value (fst e)) =? 0)))
    /\ (forall i, (forall e, In e TEXTURE_FLAGS ->
                     ImageSettingsWidget.flagChecks_ (viewSettings a)
                       !! flag_value (fst e) <> Some i) ->
                  ImageSettingsWidget.checks (viewSettings a') !! i
                  = ImageSettingsWidget.checks (viewSettings a) !! i)
    /\ ImageSettingsWidget.settingFile_ (viewSettings a') = false.
Proof.
  intros Hf Hkeyed Hreg.
  assert (Hl : live h a) by (unfold live; rewrite Hf; eauto).
  assert (Hg : guarded h (sync_boxes h a)) by (unfold sync_boxes; eauto 12 with vtf).
  destruct (check_boxes_parts _ _ _ (check_boxes_sync_boxes h a)) as (Hcs & Hfc).
  assert (Hflags : GetFlags (peek h (sync_boxes h a)) = GetFlags f).
  { rewrite flags_sync_boxes. unfold peek. now rewrite Hf. }
  destruct (flag_loop_marks h (fun k => negb (Z.land (GetFlags f) k =? 0)) TEXTURE_FLAGS
              (sync_boxes h a) Hg)
    as (g & cs & _ & Hrun & Hsame & Hon & Hoff).
  { unfold keyed. rewrite Hcs, Hfc. exact Hkeyed. }
  { rewrite Hfc. exact Hreg. }
  rewrite Hcs in Hsame, Hoff. rewrite Hfc in Hon, Hoff.
  rewrite ImageSettingsWidget_set_vtf_run by exact Hl.
  rewrite Hflags. unfold sync_flags.
  erewrite bind_run by exact Hrun.
  eexists. split; [apply modify_run|].
  destruct (check_boxes_parts _ _ _
              (check_boxes_settled false h g cs (sync_boxes h a))) as (Hcs' & Hfc').
  unfold keyed. rewrite Hcs', Hfc', Hfc.
  split; [reflexivity|]. split.
  - intros k i Hk. destruct (Hkeyed k i Hk) as (c & Hc & Hflag).
    pose proof (Hsame i) as Hi. rewrite Hc in Hi. cbn in Hi.
    destruct (cs !! i) as [c'|]; [|discriminate].
    exists c'. split; [reflexivity|]. cbn in Hi. congruence.
  - split; [exact Hon|]. split; [exact Hoff|reflexivity].
Qed.

Lemma keyed_add_checks `{Env} entries s :
  ImageSettingsWidget.flagChecks_ s = ∅ ->
  ImageSettingsWidget.checks s = [] ->
  keyed (foldl add_check s entries).
Proof.
  intros Hfc Hcs k i. rewrite add_checks_registered, add_checks_boxes, Hfc, Hcs.
  rewrite lookup_empty. cbn [length app].
  destruct (first_entry k entries) as [j|] eqn:Hfirst; [|discriminate].
  cbn [fmap option_fmap option_map Nat.add]. intros [= <-].
  destruct (first_entry_spec k entries j Hfirst) as ((e & He & Hk) & _).
  exists {| ImageSettingsWidget.flag := flag_value (fst e);
            ImageSettingsWidget.isChecked := false |}.
  split; [|exact Hk].
  unfold boxes_of. change (map ?f ?l) with (f <$> l).
  now rewrite list_lookup_fmap, He.
Qed.

(** The panel [setup_ui] builds has its boxes registered under their own
    flags. *)
Lemma keyed_setup_ui `{Env} : keyed ImageSettingsWidget_setup_ui.
Proof.
  unfold ImageSettingsWidget_setup_ui.
  change (foldl _ ?s TEXTURE_FLAGS) with (foldl add_check s TEXTURE_FLAGS).
  apply keyed_add_checks; reflexivity.
Qed.

Lemma viewSettings_with_heap g x : viewSettings (with_heap g x) = viewSettings x.
Proof. reflexivity. Qed.

Lemma set_vtf_checks_show_flags_witness :
  let a := with_heap (insert 0%nat (demo_texture 1 1)) (App_new (H := demo_env)) in
  heap a !! 0%nat = Some (demo_texture 1 1)
  /\ ImageSettingsWidget.flagChecks_ (viewSettings a) !! 8192 = Some 15%nat
  /\ exists a',
       ImageSettingsWidget_set_vtf (H := demo_env) (Some 0%nat) a = Ok (tt, a')
       /\ ImageSettingsWidget.isChecked
            <$> ImageSettingsWidget.checks (viewSettings a') !! 15%nat = Some true.
Proof.
  cbv zeta.
  assert (Hf : heap (with_heap (insert 0%nat (demo_texture 1 1)) (App_new (H := demo_env)))
               !! 0%nat = Some (demo_texture 1 1)) by computed.
  assert (Hi : ImageSettingsWidget.flagChecks_
                 (viewSettings (with_heap (insert 0%nat (demo_texture 1 1))
                                  (App_new (H := demo_env)))) !! 8192 = Some 15%nat)
    by computed.
  assert (Hkeyed : keyed (viewSettings (with_heap (insert 0%nat (demo_texture 1 1))
                                          (App_new (H := demo_env))))).
  { rewrite viewSettings_with_heap. exact (keyed_setup_ui (H := demo_env)). }
  assert (Hreg : forall e, In e TEXTURE_FLAGS ->
            is_Some (ImageSettingsWidget.flagChecks_
                       (viewSettings (with_heap (insert 0%nat (demo_texture 1 1))
                                        (App_new (H := demo_env))))
                       !! flag_value (Env := demo_env) (fst e))).
  { intros e He. rewrite viewSettings_with_heap.
    destruct (ready_checks _ (widgets_ready_App_new (H := demo_env)) e He) as (i & Hi' & _).
    exists i. exact Hi'. }
  destruct (set_vtf_checks_show_flags (H := demo_env) 0 _ _ Hf Hkeyed Hreg)
    as (a' & Hrun & _ & _ & Hon & _).
  split; [exact Hf|]. split; [exact Hi|]. exists a'. split; [exact Hrun|].
  rewrite (Hon (TEXTUREFLAGS_EIGHTBITALPHA, "Eight-bit Alpha"%string) 15%nat);
    [reflexivity| |exact Hi].
  cbn. tauto.
Defined.

(** * The states the viewer can be in *)

(** ** Soundness is kept *)

Section Soundness.
Context `{Env}.



(** The window loses its document. *)
Lemma sound_without_document (a : App) :
  sound a -> sound (with_window (ViewerMainWindow.set_file_ None) a).
Proof.
  intros [Hr Hb Hg Hh Hf Hbuf]. split.
  - now apply widgets_ready_with_window.
  - exact Hb.
  - exact Hg.
  - intros h Hin. apply (Hh h). unfold holders in *. cbn in Hin |- *.
    destruct Hin as [Hin|Hin]; [discriminate|]. right. exact Hin.
  - exact Hf.
  - exact Hbuf.
Qed.




(** A file object is rewritten in place. *)
Lemma sound_with_heap_alter (g : CVTFFile -> CVTFFile) (h : nat) (a : App) :
  sound a -> sound (with_heap (alter g h) a).
Proof.
  intros [Hr Hb Hg Hh Hf Hbuf].
  assert (Hlive : forall k, live k (with_heap (alter g h) a) <-> live k a).
  { intros k. unfold live. cbn. destruct (decide (k = h)) as [->|Hne].
    - rewrite lookup_alter_eq. apply fmap_is_Some.
    - now rewrite lookup_alter_ne by congruence. }
  split.
  - now apply widgets_ready_with_heap.
  - exact Hb.
  - exact Hg.
  - intros k Hin. apply Hlive. apply (Hh k). exact Hin.
  - intros k Hk. apply (Hf k), Hlive, Hk.
  - exact Hbuf.
Qed.

End Soundness.

Section Handlers.
Context `{Env}.














End Handlers.

Section PaintSoundness.
Context `{Env}.








End PaintSoundness.

Section SaveSoundness.
Context `{Env}.







End SaveSoundness.

(** ** Loads keep soundness *)
















Section LoadSoundness.
Context `{Env}.





End LoadSoundness.

(** ** The viewer as constructed is sound *)

Section Fresh.
Context `{Env}.




End Fresh.








